(** * fractionz: the wallet session scheduler of [app.js]

    A shallow embedding of [app.js] and the properties of its scheduling
    and recovery engine.

    [app.js] is a set of [async] functions.  An [async] function runs
    synchronously from one [await] to the next, so it is modelled as a tree
    of program steps ([Prog]): reads and writes of the two module-level
    variables, log lines, clock readings and awaited calls to the
    collaborators ([Tools], [WalletManager], [fs]).  The collaborators are
    not part of [app.js]: how their calls settle comes from an environment
    ([Env]), call by call, and a theorem says which environments it is
    about.  Unbounded recursion ([runWallet] and [startBot] call themselves,
    the retry loop may spin) is unfolded up to a budget, and a program that
    exhausts it ends in [Diverge].

    What is taken for granted: the log sinks, the display and the
    [WalletManager] constructor do not throw; numbers that the program
    compares or multiplies are integers.  The wait for the next hour is
    computed in any time zone ([Zone]); the theorems on the scheduler are
    about a host whose time zone is one in which a full hour of local time
    that lies ahead on the local clock is read by [Date] as an instant that
    lies ahead ([TimeZone]), so that this wait is positive. *)

From Stdlib Require Import ZArith List String Ascii Bool Lia.
From Stdlib Require Import Permutation.
From Stdlib Require DecimalString.
Import ListNotations.

Local Open Scope string_scope.
Local Open Scope Z_scope.

(** ** JavaScript values used by the program *)

(** Text read from a file is a JavaScript string: a sequence of UTF-16 code
    units.  Log lines, which the program builds from literals, are kept as
    plain strings. *)
Definition CodeUnit := N.
Definition JsString := list CodeUnit.

(** A private key, one line of [data.txt]. *)
Definition Key := JsString.

(** The value thrown by a failing call: an [Error] object, of which the
    program reads [message] only. *)
Definition Error := string.

(** Decimal rendering of an integer inside a template literal. *)
Definition show (z : Z) : string := DecimalString.NilZero.string_of_int (Z.to_int z).

(** [session.sessionType] and [agent.sessionType]: the descriptor with the
    type identifier, the duration of a round and the number of rounds. *)
Record SessionType := mkSessionType {
  sessionType : string;
  durationPerRound : Z;
  rounds : Z
}.

Record Agent := mkAgent {
  name : string;
  agentSessionType : SessionType;
  automationEnabled : bool
}.

Record Session := mkSession {
  sessionSessionType : SessionType
}.

(** [config.json] once parsed. *)
Record Config := mkConfig {
  matchMode : string;
  agentName : string;
  maxGames : Z;
  fee : Z
}.

(** The module-level variables [sessionCount] and [lastSessionTime]
    (lines 31-32); [None] is [null]. *)
Record Globals := mkGlobals {
  sessionCount : Z;
  lastSessionTime : option Z
}.

Definition initialGlobals : Globals := mkGlobals 0 None.

(** ** Awaited calls *)

(** The calls [app.js] awaits.  Wallet methods carry the key their
    [WalletManager] was built from.  [JsonParse] is the [JSON.parse] of
    [loadConfig], which gives [null] ([None]) or a value whose properties
    can be read; [JoinWallets] is [Promise.all(walletPromises)] as the
    supervisor sees it: a promise that can only reject, with the first error
    escaping a wallet loop. *)
Inductive Op : Type :=
| Delay (ms : Z) (msg : string)
| ReadFile (path : string)
| JsonParse (data : JsString)
| Connect (key : Key)
| GetBalance (key : Key)
| Login (key : Key)
| GetAgents (key : Key)
| GetSessions (key : Key)
| GetFractalInfo (key : Key)
| StartMatch (key : Key) (agent : Agent) (session : Session)
| StartAutoMatch (key : Key) (agent : Agent) (session : Session) (games cost : Z)
| JoinWallets (keys : list Key).

(** What each call resolves to.  A start call resolves to the truthiness of
    its result, the only thing line 118 looks at. *)
Definition Resp (op : Op) : Type :=
  match op with
  | Delay _ _ => unit
  | ReadFile _ => JsString
  | JsonParse _ => option Config
  | Connect _ | GetBalance _ | Login _ | GetFractalInfo _ => unit
  | GetAgents _ => list Agent
  | GetSessions _ => list Session
  | StartMatch _ _ _ | StartAutoMatch _ _ _ _ _ => bool
  | JoinWallets _ => unit
  end.

Inductive Outcome (X : Type) : Type :=
| Ok (x : X)
| Err (e : Error).
Arguments Ok {X} x.
Arguments Err {X} e.

(** The method behind a call, whatever its arguments; the two start
    methods count as one, "the start function". *)
Inductive Method :=
| MDelay | MReadFile | MJsonParse | MConnect | MGetBalance | MLogin
| MGetAgents | MGetSessions | MGetFractalInfo | MStart | MJoinWallets.

Definition methodOf (op : Op) : Method :=
  match op with
  | Delay _ _ => MDelay
  | ReadFile _ => MReadFile
  | JsonParse _ => MJsonParse
  | Connect _ => MConnect
  | GetBalance _ => MGetBalance
  | Login _ => MLogin
  | GetAgents _ => MGetAgents
  | GetSessions _ => MGetSessions
  | GetFractalInfo _ => MGetFractalInfo
  | StartMatch _ _ _ | StartAutoMatch _ _ _ _ _ => MStart
  | JoinWallets _ => MJoinWallets
  end.

Definition Method_eqb (a b : Method) : bool :=
  match a, b with
  | MDelay, MDelay | MReadFile, MReadFile | MJsonParse, MJsonParse
  | MConnect, MConnect | MGetBalance, MGetBalance | MLogin, MLogin
  | MGetAgents, MGetAgents | MGetSessions, MGetSessions
  | MGetFractalInfo, MGetFractalInfo | MStart, MStart
  | MJoinWallets, MJoinWallets => true
  | _, _ => false
  end.

(** ** What an execution leaves behind *)

Inductive Sink := ToolsLog | DisplayLog | ConsoleError.

Inductive Panel := PanelInit | PanelWallet | PanelAgents | PanelFractalInfo.

(** How an awaited call settled, as the log of an execution keeps it:
    rejected with an error, or fulfilled with a truthy or falsy value. *)
Inductive Reply :=
| Rejected (e : Error)
| Fulfilled (truthy : bool).

Inductive Event :=
| EvLog (sink : Sink) (msg : string)
| EvDisplay (panel : Panel)
| EvNow (t : Z)
| EvCall (op : Op) (reply : Reply).

(** Truthiness of the value a call resolves to: [undefined] and [null]
    are falsy, an array, a string read from a file that is then split, and a
    parsed configuration are objects handed on as they are. *)
Definition truthy (op : Op) : Resp op -> bool :=
  match op with
  | StartMatch _ _ _ | StartAutoMatch _ _ _ _ _ => fun b => b
  | Delay _ _ | Connect _ | GetBalance _ | Login _ | GetFractalInfo _
  | JoinWallets _ => fun _ => false
  | JsonParse _ =>
      fun parsed => match parsed with Some _ => true | None => false end
  | ReadFile _ | GetAgents _ | GetSessions _ => fun _ => true
  end.

Definition replyOf (op : Op) (o : Outcome (Resp op)) : Reply :=
  match o with
  | Ok x => Fulfilled (truthy op x)
  | Err e => Rejected e
  end.

(** An entry of the history: an event and the module-level variables as
    they were when it happened. *)
Definition Entry : Type := Globals * Event.

(** The state of an execution.  The history is kept newest first. *)
Record St := mkSt {
  globals : Globals;
  history : list Entry
}.

Definition initialSt : St := mkSt initialGlobals [].

(** The history in the order things happened. *)
Definition trace (st : St) : list Entry := rev (history st).
Definition events (st : St) : list Event := map snd (trace st).

Definition record (e : Event) (st : St) : St :=
  mkSt (globals st) ((globals st, e) :: history st).

Definition setGlobals (g : Globals) (st : St) : St :=
  mkSt g (history st).

(** Number of calls of a method so far. *)
Fixpoint calls (m : Method) (h : list Entry) : nat :=
  match h with
  | [] => O
  | (_, EvCall op _) :: h' =>
      if Method_eqb m (methodOf op) then S (calls m h') else calls m h'
  | _ :: h' => calls m h'
  end.

Fixpoint clockReads (h : list Entry) : nat :=
  match h with
  | [] => O
  | (_, EvNow _) :: h' => S (clockReads h')
  | _ :: h' => clockReads h'
  end.

(** The environment of an execution: how the [i]-th call of each method
    settles, and what the [i]-th reading of the system clock gives
    (milliseconds since the epoch). *)
Record Env := mkEnv {
  delays : nat -> Outcome unit;
  files : nat -> Outcome JsString;
  parses : nat -> Outcome (option Config);
  connects : nat -> Outcome unit;
  balances : nat -> Outcome unit;
  logins : nat -> Outcome unit;
  agentLists : nat -> Outcome (list Agent);
  sessionLists : nat -> Outcome (list Session);
  fractalInfos : nat -> Outcome unit;
  starts : nat -> Outcome bool;
  joins : nat -> Outcome unit;
  clock : nat -> Z
}.

Definition answer (env : Env) (op : Op) (i : nat) : Outcome (Resp op) :=
  match op with
  | Delay _ _ => delays env i
  | ReadFile _ => files env i
  | JsonParse _ => parses env i
  | Connect _ => connects env i
  | GetBalance _ => balances env i
  | Login _ => logins env i
  | GetAgents _ => agentLists env i
  | GetSessions _ => sessionLists env i
  | GetFractalInfo _ => fractalInfos env i
  | StartMatch _ _ _ | StartAutoMatch _ _ _ _ _ => starts env i
  | JoinWallets _ => joins env i
  end.

(** ** Programs *)

Inductive Prog (A : Type) : Type :=
| Ret (a : A)
| Throw (e : Error)
| Diverge
| Exit (code : Z)
| GetG (k : Globals -> Prog A)
| PutG (g : Globals) (k : Prog A)
| Emit (e : Event) (k : Prog A)
| Now (k : Z -> Prog A)
| Await (op : Op) (k : Outcome (Resp op) -> Prog A).
Arguments Ret {A} a.
Arguments Throw {A} e.
Arguments Diverge {A}.
Arguments Exit {A} code.
Arguments GetG {A} k.
Arguments PutG {A} g k.
Arguments Emit {A} e k.
Arguments Now {A} k.
Arguments Await {A} op k.

Fixpoint bind {A B : Type} (p : Prog A) (f : A -> Prog B) : Prog B :=
  match p with
  | Ret a => f a
  | Throw e => Throw e
  | Diverge => Diverge
  | Exit c => Exit c
  | GetG k => GetG (fun g => bind (k g) f)
  | PutG g k => PutG g (bind k f)
  | Emit e k => Emit e (bind k f)
  | Now k => Now (fun t => bind (k t) f)
  | Await op k => Await op (fun o => bind (k o) f)
  end.

(** [try { p } catch (error) { h error }].  Neither a process exit nor an
    exhausted budget is an exception. *)
Fixpoint tryCatch {A : Type} (p : Prog A) (h : Error -> Prog A) : Prog A :=
  match p with
  | Ret a => Ret a
  | Throw e => h e
  | Diverge => Diverge
  | Exit c => Exit c
  | GetG k => GetG (fun g => tryCatch (k g) h)
  | PutG g k => PutG g (tryCatch k h)
  | Emit e k => Emit e (tryCatch k h)
  | Now k => Now (fun t => tryCatch (k t) h)
  | Await op k => Await op (fun o => tryCatch (k o) h)
  end.

Notation "x <- p ;; q" := (bind p (fun x => q))
  (at level 61, p at next level, right associativity).
Notation "p ;; q" := (bind p (fun _ => q))
  (at level 61, right associativity).

(** [await f(...)]: the value when the promise is fulfilled, a throw when
    it is rejected. *)
Definition await (op : Op) : Prog (Resp op) :=
  Await op (fun o => match o with Ok x => Ret x | Err e => Throw e end).

Definition emit (e : Event) : Prog unit := Emit e (Ret tt).
Definition toolsLog (msg : string) : Prog unit := emit (EvLog ToolsLog msg).
Definition displayLog (msg : string) : Prog unit := emit (EvLog DisplayLog msg).
Definition consoleError (msg : string) : Prog unit := emit (EvLog ConsoleError msg).
Definition getSessionCount : Prog Z := GetG (fun g => Ret (sessionCount g)).
Definition setSessionCount (c : Z) : Prog unit :=
  GetG (fun g => PutG (mkGlobals c (lastSessionTime g)) (Ret tt)).
Definition setLastSessionTime (t : option Z) : Prog unit :=
  GetG (fun g => PutG (mkGlobals (sessionCount g) t) (Ret tt)).
Definition dateNow : Prog Z := Now (fun t => Ret t).

(** ** Running a program *)

Inductive Result (A : Type) : Type :=
| Returned (a : A)
| Threw (e : Error)
| OutOfFuel
| Exited (code : Z).
Arguments Returned {A} a.
Arguments Threw {A} e.
Arguments OutOfFuel {A}.
Arguments Exited {A} code.

(** One task run alone: every awaited call settles as the environment
    says. *)
Fixpoint run {A : Type} (env : Env) (p : Prog A) (st : St) : Result A * St :=
  match p with
  | Ret a => (Returned a, st)
  | Throw e => (Threw e, st)
  | Diverge => (OutOfFuel, st)
  | Exit c => (Exited c, st)
  | GetG k => run env (k (globals st)) st
  | PutG g k => run env k (setGlobals g st)
  | Emit e k => run env k (record e st)
  | Now k =>
      let t := clock env (clockReads (history st)) in
      run env (k t) (record (EvNow t) st)
  | Await op k =>
      let o := answer env op (calls (methodOf op) (history st)) in
      run env (k o) (record (EvCall op (replyOf op o)) st)
  end.

(** ** Several tasks on one event loop *)

(** A task waiting at an [await]: the call it waits for and what it does
    with the outcome. *)
Record Suspended (A : Type) := mkSuspended {
  pendingOp : Op;
  resumeWith : Outcome (Resp pendingOp) -> Prog A
}.
Arguments mkSuspended {A} pendingOp resumeWith.
Arguments pendingOp {A} s.
Arguments resumeWith {A} s o.

Inductive Task (A : Type) : Type :=
| Pending (s : Suspended A)
| Settled (r : Result A).
Arguments Pending {A} s.
Arguments Settled {A} r.

(** A task runs without interruption up to its next [await]. *)
Fixpoint advance {A : Type} (env : Env) (p : Prog A) (st : St) : Task A * St :=
  match p with
  | Ret a => (Settled (Returned a), st)
  | Throw e => (Settled (Threw e), st)
  | Diverge => (Settled OutOfFuel, st)
  | Exit c => (Settled (Exited c), st)
  | GetG k => advance env (k (globals st)) st
  | PutG g k => advance env k (setGlobals g st)
  | Emit e k => advance env k (record e st)
  | Now k =>
      let t := clock env (clockReads (history st)) in
      advance env (k t) (record (EvNow t) st)
  | Await op k => (Pending (mkSuspended op k), st)
  end.

(** The call a task waits for settles and the task runs on. *)
Definition resume {A : Type} (env : Env) (s : Suspended A) (st : St)
  : Task A * St :=
  let op := pendingOp s in
  let o := answer env op (calls (methodOf op) (history st)) in
  advance env (resumeWith s o) (record (EvCall op (replyOf op o)) st).

(** The tasks of the event loop share the module-level variables and the
    console: there is one [St] for all of them. *)
Record Pool := mkPool {
  shared : St;
  tasks : list (Task unit)
}.

(** [ps.map(p => p())]: the tasks are started one after the other, each
    running up to its first [await]. *)
Fixpoint launch (env : Env) (ps : list (Prog unit)) (st : St) : Pool :=
  match ps with
  | [] => mkPool st []
  | p :: rest =>
      let (t, st1) := advance env p st in
      let pool := launch env rest st1 in
      mkPool (shared pool) (t :: tasks pool)
  end.

Fixpoint replace {X : Type} (i : nat) (x : X) (l : list X) : list X :=
  match l, i with
  | [], _ => []
  | _ :: l', O => x :: l'
  | y :: l', S i' => y :: replace i' x l'
  end.

(** The call that task [i] waits for settles. *)
Definition stepTask (env : Env) (i : nat) (pool : Pool) : Pool :=
  match nth_error (tasks pool) i with
  | Some (Pending s) =>
      let (t, st1) := resume env s (shared pool) in
      mkPool st1 (replace i t (tasks pool))
  | _ => pool
  end.

(** The calls settle in the order given by [schedule]. *)
Definition stepTasks (env : Env) (schedule : list nat) (pool : Pool) : Pool :=
  fold_left (fun pool i => stepTask env i pool) schedule pool.

(** ** Strings and dates of the language *)

(** [WhiteSpace] and [LineTerminator] code points, the ones
    [String.prototype.trim] strips. *)
Definition isWhiteSpace (c : CodeUnit) : bool :=
  ((c =? 9) || (c =? 10) || (c =? 11) || (c =? 12) || (c =? 13) || (c =? 32)
   || (c =? 160) || (c =? 5760) || ((8192 <=? c) && (c <=? 8202))
   || (c =? 8232) || (c =? 8233) || (c =? 8239) || (c =? 8287)
   || (c =? 12288) || (c =? 65279))%N.

Fixpoint trimStart (s : JsString) : JsString :=
  match s with
  | [] => []
  | c :: rest => if isWhiteSpace c then trimStart rest else s
  end.

Definition trimEnd (s : JsString) : JsString := rev (trimStart (rev s)).

Definition trim (s : JsString) : JsString := trimEnd (trimStart s).

(** A string is truthy when it is not empty. *)
Definition nonEmpty (s : JsString) : bool :=
  match s with [] => false | _ :: _ => true end.

(** [s.split(sep)] for a separator of one code unit. *)
Fixpoint split (sep : CodeUnit) (s : JsString) : list JsString :=
  match s with
  | [] => [[]]
  | c :: rest =>
      if (c =? sep)%N then [] :: split sep rest
      else match split sep rest with
           | [] => [[c]]
           | piece :: pieces => (c :: piece) :: pieces
           end
  end.

Definition newline : CodeUnit := 10%N.

Definition msPerSecond : Z := 1000.
Definition msPerMinute : Z := 60000.
Definition msPerHour : Z := 3600000.
Definition msPerDay : Z := 86400000.

(** The abstract operations behind [Date.prototype.getHours] and
    [setHours], for time values in the range where [TimeClip] is the
    identity. *)
Definition Day (t : Z) : Z := t / msPerDay.
Definition HourFromTime (t : Z) : Z := (t / msPerHour) mod 24.
Definition MinFromTime (t : Z) : Z := (t / msPerMinute) mod 60.
Definition SecFromTime (t : Z) : Z := (t / msPerSecond) mod 60.
Definition msFromTime (t : Z) : Z := t mod msPerSecond.
Definition MakeTime (hour min sec ms : Z) : Z :=
  hour * msPerHour + min * msPerMinute + sec * msPerSecond + ms.
Definition MakeDate (day time : Z) : Z := day * msPerDay + time.

(** The time zone of the host as [Date] sees it.  [offsetAt t] is the
    offset of local time from UTC at the instant [t] ([LocalTZA(t, true)]);
    [offsetOfLocal T] is the offset by which [Date] reads the local time [T]
    ([LocalTZA(T, false)]: for a local time that the clock shows twice or
    not at all, the offset before the change).  Both are in milliseconds. *)
Record Zone := mkZone {
  offsetAt : Z -> Z;
  offsetOfLocal : Z -> Z
}.

(** A zone in which a full hour of local time that lies ahead on the local
    clock is read as an instant that lies ahead.  That is so where the
    offset never changes and where clocks are set forward, or set back at a
    full hour by a full hour or less; it fails where a full hour lies in a
    stretch of local time that is shown twice, after the beginning of that
    stretch. *)
Record TimeZone := mkTimeZone {
  zoneOf :> Zone;
  fullHourAhead :
    forall t T, T mod msPerHour = 0 -> t + offsetAt zoneOf t < T ->
                t < T - offsetOfLocal zoneOf T
}.

(** [Math.ceil(a / b)] for integers and [b > 0]. *)
Definition ceilDiv (a b : Z) : Z := - ((- a) / b).

Definition crossMark : string :=
  String (ascii_of_nat 226) (String (ascii_of_nat 157)
    (String (ascii_of_nat 140) EmptyString)).

(** ** The functions of [app.js] *)

(** Lines 6-14. *)
Definition loadConfig : Prog (option Config) :=
  tryCatch
    (data <- await (ReadFile "config.json") ;;
     await (JsonParse data))
    (fun error =>
       consoleError (crossMark ++ " Failed to load config.json: " ++ error) ;;
       Exit 1).

(** Lines 20-29. *)
Definition loadKeys : Prog (list Key) :=
  tryCatch
    (data <- await (ReadFile "./data.txt") ;;
     Ret (filter (fun key => nonEmpty (trim key)) (split newline data)))
    (fun error =>
       Throw "Please create data.txt with your private keys (one per line)").

(** How the retry loop and the loop over the sessions are left: by falling
    out of the loop, or by the [return] of line 127, which leaves
    [runWallet]. *)
Inductive LoopExit := LoopDone | FnReturn.

(** One turn of the [while] of line 109: go round again, or leave. *)
Inductive LoopStep :=
| Continue (retryCount : Z)
| Leave (how : LoopExit).

Definition maxRetries : Z := 3.

Definition resetWaitMsg : string := "Waiting for the next hour to start...".

Section Bot.

(** [config], the result of [loadConfig] (line 16) when it is not [null];
    [Tools.msToTime]; and the time zone of the host. *)
Variable config : Config.
Variable msToTime : Z -> string.
Variable zone : Zone.

(** Line 18. *)
Definition isAutoMatch : bool := String.eqb (matchMode config) "auto".

Definition LocalTime (t : Z) : Z := t + offsetAt zone t.
Definition UTC (t : Z) : Z := t - offsetOfLocal zone t.

Definition getHours (d : Z) : Z := HourFromTime (LocalTime d).

Definition setHours (d : Z) (hour min sec ms : Z) : Z :=
  UTC (MakeDate (Day (LocalTime d)) (MakeTime hour min sec ms)).

(** Lines 35-39: [nextHour - now]. *)
Definition remainingTimeAt (now : Z) : Z :=
  let nextHour := setHours now (getHours now + 1) 0 0 0 in
  nextHour - now.

(** Lines 34-64.  The countdown of lines 46-56 is a timer callback that
    runs beside the delay and writes a log line every second; what it
    writes is [countdownTick] below.  When and how often it runs is up to
    the timers of the host, and it touches neither the variables nor the
    control flow: its lines are not among the events recorded here, so the
    events of [handleSessionLimit] are its clock reading, the log line of
    line 43 and the delay. *)
Definition handleSessionLimit : Prog unit :=
  now <- dateNow ;;
  let remainingTime := remainingTimeAt now in
  (if 0 <? remainingTime then
     let remainingMinutes := ceilDiv remainingTime 60000 in
     c <- getSessionCount ;;
     toolsLog ("Session limit reached (" ++ show c ++ "/6). Waiting for "
               ++ show remainingMinutes ++ " minutes until the next hour...") ;;
     await (Delay remainingTime resetWaitMsg)
   else Ret tt) ;;
  setSessionCount 0 ;;
  setLastSessionTime None.

(** Lines 112-116. *)
Definition startCall (key : Key) (targetAgent : Agent) (session : Session)
  : Prog bool :=
  if isAutoMatch
  then await (StartAutoMatch key targetAgent session (maxGames config) (fee config))
  else await (StartMatch key targetAgent session).

(** Lines 119-131, after a truthy [startResult]; [self] is
    [runWallet(key)]. *)
Definition onStarted (self : Prog unit) : Prog LoopStep :=
  c <- getSessionCount ;;
  setSessionCount (c + 1) ;;
  t <- dateNow ;;
  setLastSessionTime (Some t) ;;
  c <- getSessionCount ;;
  toolsLog ("Sessions used: " ++ show c ++ "/6") ;;
  c <- getSessionCount ;;
  if 6 <=? c then
    toolsLog "Session limit reached. Waiting for the next hour..." ;;
    handleSessionLimit ;;
    self ;;
    Ret (Leave FnReturn)
  else
    await (Delay 2000 "Waiting before next match") ;;
    Ret (Leave LoopDone).

(** Lines 134-140, the [catch] of the retry loop. *)
Definition onAttemptError (retryCount : Z) (error : Error) : Prog LoopStep :=
  let retryCount := retryCount + 1 in
  toolsLog ("Attempt " ++ show retryCount ++ "/" ++ show maxRetries
            ++ ": " ++ error) ;;
  if maxRetries <=? retryCount then
    toolsLog ("Failed to start match after " ++ show maxRetries
              ++ " attempts. Skipping...") ;;
    Ret (Leave LoopDone)
  else
    await (Delay 10000 "Waiting before retrying...") ;;
    Ret (Continue retryCount).

(** Lines 110-141, the body of the [while]. *)
Definition attempt (self : Prog unit) (key : Key) (targetAgent : Agent)
    (session : Session) (retryCount : Z) : Prog LoopStep :=
  tryCatch
    (startResult <- startCall key targetAgent session ;;
     if startResult : bool then onStarted self
     else Ret (Continue retryCount))
    (onAttemptError retryCount).

(** Lines 106-142, the [while] itself. *)
Fixpoint attemptLoop (fuel : nat) (self : Prog unit) (key : Key)
    (targetAgent : Agent) (session : Session) (retryCount : Z)
  : Prog LoopExit :=
  match fuel with
  | O => Diverge
  | S fuel' =>
      if retryCount <? maxRetries then
        step <- attempt self key targetAgent session retryCount ;;
        match step with
        | Continue retryCount' =>
            attemptLoop fuel' self key targetAgent session retryCount'
        | Leave how => Ret how
        end
      else Ret LoopDone
  end.

(** Lines 103-147. *)
Fixpoint matchSessions (fuel : nat) (self : Prog unit) (key : Key)
    (targetAgent : Agent) (sessions : list Session) : Prog LoopExit :=
  match sessions with
  | [] => Ret LoopDone
  | session :: rest =>
      if String.eqb (sessionType (agentSessionType targetAgent))
                    (sessionType (sessionSessionType session)) then
        if negb (automationEnabled targetAgent) then
          how <- attemptLoop fuel self key targetAgent session 0 ;;
          match how with
          | FnReturn => Ret FnReturn
          | LoopDone => matchSessions fuel self key targetAgent rest
          end
        else
          toolsLog "Already automated, skip to next agent..." ;;
          matchSessions fuel self key targetAgent rest
      else matchSessions fuel self key targetAgent rest
  end.

(** Lines 149-154. *)
Definition minDuration (sessions : list Session) : Z :=
  fold_left
    (fun minDuration session =>
       let duration := durationPerRound (sessionSessionType session)
                       * rounds (sessionSessionType session) in
       if duration <? minDuration then duration else minDuration)
    sessions 60.

(** Lines 149-159. *)
Definition coolDown (sessions : list Session) : Prog unit :=
  let minDuration := minDuration sessions in
  await (Delay (minDuration * 1000)
           ("Processing completed. Waiting for " ++ msToTime (minDuration * 1000))).

(** Lines 77-86. *)
Definition hydrate (key : Key) : Prog (list Agent * list Session) :=
  await (Connect key) ;;
  await (GetBalance key) ;;
  await (Login key) ;;
  agents <- await (GetAgents key) ;;
  sessions <- await (GetSessions key) ;;
  await (GetFractalInfo key) ;;
  emit (EvDisplay PanelWallet) ;;
  emit (EvDisplay PanelAgents) ;;
  emit (EvDisplay PanelFractalInfo) ;;
  Ret (agents, sessions).

(** Lines 163-167, the [catch] of [runWallet]; [JSON.stringify] of an
    [Error] is ["{}"]. *)
Definition onWalletError (self : Prog unit) (error : Error) : Prog unit :=
  let message := if String.eqb error "" then "{}" else error in
  toolsLog ("Error: " ++ message ++ ". Retrying in 10s...") ;;
  await (Delay 10000 ("Error: " ++ message ++ ". Retrying in 10s...")) ;;
  self.

(** Lines 69-161, the [try] block of [runWallet]. *)
Definition walletIteration (fuel : nat) (self : Prog unit) (key : Key)
  : Prog unit :=
  c <- getSessionCount ;;
  if 6 <=? c then
    toolsLog ("Session limit reached (" ++ show c
              ++ "/6). Waiting for the next hour...") ;;
    handleSessionLimit ;;
    self
  else
    wallet <- hydrate key ;;
    let (agents, sessions) := wallet : list Agent * list Session in
    if Nat.eqb (List.length agents) 0 then
      await (Delay 10000 "No agents available. Please create an agent first") ;;
      Throw "No agents available"
    else
      match find (fun agent => String.eqb (name agent) (agentName config)) agents with
      | None => Throw ("Target agent " ++ agentName config ++ " not found")
      | Some targetAgent =>
          how <- matchSessions fuel self key targetAgent sessions ;;
          match how with
          | FnReturn => Ret tt
          | LoopDone =>
              coolDown sessions ;;
              self
          end
      end.

(** Lines 66-169.  Every recursive call is one unit of [fuel]. *)
Fixpoint runWallet (fuel : nat) (key : Key) : Prog unit :=
  match fuel with
  | O => Diverge
  | S fuel' =>
      tryCatch
        (walletIteration fuel' (runWallet fuel' key) key)
        (onWalletError (runWallet fuel' key))
  end.

(** Lines 171-190.  The wallet loops that line 183 starts run as tasks of
    their own (see [launch]); the supervisor waits for them. *)
Fixpoint startBot (fuel : nat) : Prog unit :=
  match fuel with
  | O => Diverge
  | S fuel' =>
      tryCatch
        (emit (EvDisplay PanelInit) ;;
         displayLog "Starting FractionAI Battle BOT..." ;;
         keys <- loadKeys ;;
         (if Nat.eqb (List.length keys) 0
          then Throw "No private keys found in data.txt"
          else Ret tt) ;;
         displayLog ("Loaded " ++ show (Z.of_nat (List.length keys)) ++ " wallet(s)") ;;
         await (JoinWallets keys))
        (fun error =>
           displayLog ("Critical error: " ++ error) ;;
           await (Delay 5000 "Restarting bot...") ;;
           startBot fuel')
  end.

(** Lines 192-195. *)
Definition main (fuel : nat) : Prog unit :=
  tryCatch
    (startBot fuel)
    (fun error =>
       consoleError ("Fatal error: " ++ error) ;;
       Exit 1).

End Bot.

(** ** The countdown, and the module as a whole *)

(** [s.padStart(maxLength, fillString)]: the first [n] characters of
    [fillString] written over and over, then [s]. *)
Fixpoint filler (n : nat) (fillString rest : string) : string :=
  match n with
  | O => ""
  | S n' =>
      match rest with
      | String c rest' => String c (filler n' fillString rest')
      | EmptyString =>
          match fillString with
          | String c rest' => String c (filler n' fillString rest')
          | EmptyString => ""
          end
      end
  end.

Definition padStart (maxLength : nat) (fillString s : string) : string :=
  if Nat.leb maxLength (String.length s) then s
  else filler (maxLength - String.length s) fillString fillString ++ s.

(** Lines 48-55, one call of the callback of the countdown, with
    [remainingSeconds] the variable of line 46: the line that is logged, the
    variable after line 51, and whether line 54 clears the interval. *)
Definition countdownTick (remainingSeconds : Z) : string * Z * bool :=
  let minutes := remainingSeconds / 60 in
  let seconds := Z.rem remainingSeconds 60 in
  let line := "Waiting for the next hour to start... [" ++ show minutes ++ ":"
              ++ padStart 2 "0" (show seconds) ++ " remaining]" in
  let remainingSeconds := remainingSeconds - 1 in
  (line, remainingSeconds, remainingSeconds <? 0).

(** The lines of the countdown when the timer fires [ticks] times before
    line 59 clears the interval: the callback is called until it clears the
    interval itself. *)
Fixpoint countdown (ticks : nat) (remainingSeconds : Z) : list string :=
  match ticks with
  | O => []
  | S ticks' =>
      let '(line, remainingSeconds', cleared) := countdownTick remainingSeconds in
      line :: (if cleared : bool then [] else countdown ticks' remainingSeconds')
  end.

(** Lines 46-56: the countdown that [handleSessionLimit] starts for a wait
    of [remainingTime] milliseconds. *)
Definition countdownFor (remainingTime : Z) (ticks : nat) : list string :=
  countdown ticks (remainingTime / 1000).

(** The [TypeError] of line 18 when [config] is [null], with the message
    that V8 gives it. *)
Definition nullConfigError : Error :=
  "Cannot read properties of null (reading 'matchMode')".

(** The module from top to bottom: [config] is loaded (line 16),
    [config.matchMode] is read (line 18), which throws when [config] is
    [null], and the supervisor is started (lines 192-195).  Nothing catches
    an exception at the top level of the module. *)
Definition appJs (fuel : nat) : Prog unit :=
  config <- loadConfig ;;
  match config with
  | None => Throw nullConfigError
  | Some _ => main fuel
  end.

(** * Definitions for the statements *)
(** ** What the specification talks about *)

(** A line is blank when it holds white space only. *)
Definition whitespaceOnly (line : JsString) : bool := forallb isWhiteSpace line.

(** Lines put back together with the separator between them. *)
Fixpoint join (sep : CodeUnit) (pieces : list JsString) : JsString :=
  match pieces with
  | [] => []
  | [piece] => piece
  | piece :: rest => (piece ++ sep :: join sep rest)%list
  end.

(** The lines of a text that are not blank, in their order and as they
    are. *)
Definition keptLines (content : JsString) : list Key :=
  filter (fun line => negb (whitespaceOnly line)) (split newline content).

(** [durationPerRound * rounds] of a session, in seconds. *)
Definition sessionDuration (session : Session) : Z :=
  durationPerRound (sessionSessionType session)
  * rounds (sessionSessionType session).

(** The minimum of 60 and of the durations of all the sessions. *)
Definition leastOf60And (durations : list Z) : Z := fold_right Z.min 60 durations.

(** The first full hour after the local time [L], as a local time. *)
Definition nextFullHour (L : Z) : Z := L - L mod msPerHour + msPerHour.


(** ** How the counter moves along a history *)

Definition isStartCall (e : Event) : bool :=
  match e with
  | EvCall op _ => Method_eqb MStart (methodOf op)
  | _ => false
  end.

(** A start call that came back with a truthy result. *)
Definition isTruthyStart (e : Event) : bool :=
  match e with
  | EvCall op (Fulfilled true) => Method_eqb MStart (methodOf op)
  | _ => false
  end.

(** The delay of [handleSessionLimit], over. *)
Definition isResetWaitDone (e : Event) : bool :=
  match e with
  | EvCall (Delay _ msg) (Fulfilled _) => String.eqb msg resetWaitMsg
  | _ => false
  end.

(** The variables [before] an event and [after] it, that is at the next
    event: one more session after a truthy start, a cleared counter after
    the wait for the next hour, the same count after anything else. *)
Definition counterStep (before : Globals) (e : Event) (after : Globals) : Prop :=
  if isTruthyStart e then sessionCount after = sessionCount before + 1
  else if isResetWaitDone e then
    sessionCount after = 0 /\ lastSessionTime after = None
  else sessionCount after = sessionCount before.

(** ** A program logic *)

Section Logic.

(** [allowed] says how the environment may settle a call; [guard h g e]
    is what must hold when event [e] is recorded after history [h] with
    the variables at [g]. *)
Variable allowed : forall op : Op, Outcome (Resp op) -> Prop.
Variable guard : list Entry -> Globals -> Event -> Prop.

(** [wp p Q st]: run from [st] in an allowed environment, [p] records
    guarded events only and ends in a result and a state that satisfy
    [Q]. *)
Fixpoint wp {A : Type} (p : Prog A) (Q : Result A -> St -> Prop) (st : St)
  : Prop :=
  match p with
  | Ret a => Q (Returned a) st
  | Throw e => Q (Threw e) st
  | Diverge => Q OutOfFuel st
  | Exit c => Q (Exited c) st
  | GetG k => wp (k (globals st)) Q st
  | PutG g k => wp k Q (setGlobals g st)
  | Emit e k => guard (history st) (globals st) e /\ wp k Q (record e st)
  | Now k =>
      forall t, guard (history st) (globals st) (EvNow t)
                /\ wp (k t) Q (record (EvNow t) st)
  | Await op k =>
      forall o, allowed op o ->
        guard (history st) (globals st) (EvCall op (replyOf op o))
        /\ wp (k o) Q (record (EvCall op (replyOf op o)) st)
  end.

Definition respects (env : Env) : Prop :=
  forall op i, allowed op (answer env op i).

(** Every entry of a history was guarded when it was recorded. *)
Fixpoint guarded (h : list Entry) : Prop :=
  match h with
  | [] => True
  | (g, e) :: h' => guard h' g e /\ guarded h'
  end.

End Logic.

(** Any answer of the environment. *)
Definition anyAnswer (op : Op) (o : Outcome (Resp op)) : Prop := True.

(** Every delay runs to its end. *)
Definition delaysResolve (op : Op) : Outcome (Resp op) -> Prop :=
  match op with
  | Delay _ _ => fun o => o = Ok tt
  | _ => fun _ => True
  end.

(** The variables at an event follow from the event before. *)
Definition stepGuard (h : list Entry) (g : Globals) (e : Event) : Prop :=
  match h with
  | [] => True
  | (g1, e1) :: _ => counterStep g1 e1 g
  end.

(** A start call is made below the quota only. *)
Definition quotaGuard (h : list Entry) (g : Globals) (e : Event) : Prop :=
  isStartCall e = true -> sessionCount g < 6.

(** The variables agree with the last recorded event. *)
Definition upToDate (st : St) : Prop :=
  stepGuard (history st) (globals st) (EvNow 0).

(** A program that records events by the rule of [counterStep] and leaves
    the variables in agreement with the last one, whatever the environment
    answers. *)
Definition keeps {A : Type} (p : Prog A) : Prop :=
  forall st, upToDate st ->
    wp anyAnswer stepGuard p (fun _ st' => upToDate st') st.

(** An event that is neither a truthy start nor the end of the wait for the
    next hour. *)
Definition plain (e : Event) : Prop :=
  isTruthyStart e = false /\ isResetWaitDone e = false.

(** A call that is neither a start nor the wait for the next hour. *)
Definition quiet (op : Op) : Prop :=
  Method_eqb MStart (methodOf op) = false
  /\ match op with
     | Delay _ msg => String.eqb msg resetWaitMsg = false
     | _ => True
     end.

(** A program that never returns: whatever budget it is given, it uses it
    up. *)
Definition neverEnds (p : Prog unit) : Prop :=
  forall st, wp delaysResolve quotaGuard p (fun r _ => r = OutOfFuel) st.

Definition belowQuota (st : St) : Prop := sessionCount (globals st) < 6.

Definition attemptOutcome (r : Result LoopStep) (st' : St) : Prop :=
  r = OutOfFuel
  \/ (belowQuota st'
      /\ (r = Returned (Leave LoopDone)
          \/ exists retryCount', r = Returned (Continue retryCount'))).

Definition loopOutcome (r : Result LoopExit) (st' : St) : Prop :=
  r = OutOfFuel \/ (r = Returned LoopDone /\ belowQuota st').




(** ** Reading the retry loop *)

(** The start call of lines 112-116, as it shows in a history. *)
Definition startOp (config : Config) (key : Key) (agent : Agent)
    (session : Session) : Op :=
  if isAutoMatch config
  then StartAutoMatch key agent session (maxGames config) (fee config)
  else StartMatch key agent session.

(** How a start call settled. *)
Definition startReply (o : Outcome bool) : Reply :=
  match o with
  | Ok b => Fulfilled b
  | Err e => Rejected e
  end.

(** Several events recorded in a row, the variables unchanged. *)
Fixpoint recordAll (es : list Event) (st : St) : St :=
  match es with
  | [] => st
  | e :: es' => recordAll es' (record e st)
  end.

(** The [i]-th failed attempt that is followed by another one: the call,
    the log line and the backoff wait. *)
Definition failedAttempt (op : Op) (i : Z) (error : Error) : list Event :=
  [ EvCall op (Rejected error);
    EvLog ToolsLog ("Attempt " ++ show i ++ "/3: " ++ error);
    EvCall (Delay 10000 "Waiting before retrying...") (Fulfilled false) ].

(** The third failed attempt: the call and the two log lines. *)
Definition lastFailedAttempt (op : Op) (error : Error) : list Event :=
  [ EvCall op (Rejected error);
    EvLog ToolsLog ("Attempt 3/3: " ++ error);
    EvLog ToolsLog "Failed to start match after 3 attempts. Skipping..." ].

Fixpoint failedAttempts (op : Op) (errors : nat -> Error) (n : nat)
  : list Event :=
  match n with
  | O => []
  | S n' =>
      (failedAttempts op errors n'
       ++ failedAttempt op (Z.of_nat n) (errors n'))%list
  end.

(** The events of a successful start below the quota. *)
Definition startedEvents (op : Op) (t : Z) (count : Z) : list Event :=
  [ EvCall op (Fulfilled true);
    EvNow t;
    EvLog ToolsLog ("Sessions used: " ++ show count ++ "/6");
    EvCall (Delay 2000 "Waiting before next match") (Fulfilled false) ].

(** The state after a successful start that leaves the counter below 6:
    the call, the increment, the clock reading, the time stamp, the log
    line and the two seconds of line 130. *)
Definition started (env : Env) (op : Op) (st : St) : St :=
  let t := clock env (clockReads (history st)) in
  let c := sessionCount (globals st) + 1 in
  let st1 := setGlobals (mkGlobals c (lastSessionTime (globals st)))
                        (record (EvCall op (Fulfilled true)) st) in
  let st2 := setGlobals (mkGlobals c (Some t)) (record (EvNow t) st1) in
  recordAll
    [ EvLog ToolsLog ("Sessions used: " ++ show c ++ "/6");
      EvCall (Delay 2000 "Waiting before next match") (Fulfilled false) ]
    st2.


(** The state after those events: the counter cleared. *)
Definition exhausted (env : Env) (zone : TimeZone) (op : Op) (st : St) : St :=
  let t := clock env (clockReads (history st)) in
  let t' := clock env (S (clockReads (history st))) in
  let c := sessionCount (globals st) + 1 in
  let st1 := setGlobals (mkGlobals c (lastSessionTime (globals st)))
                        (record (EvCall op (Fulfilled true)) st) in
  let st2 := setGlobals (mkGlobals c (Some t)) (record (EvNow t) st1) in
  let st3 :=
    recordAll
      [ EvLog ToolsLog ("Sessions used: " ++ show c ++ "/6");
        EvLog ToolsLog "Session limit reached. Waiting for the next hour...";
        EvNow t';
        EvLog ToolsLog ("Session limit reached (" ++ show c ++ "/6). Waiting for "
                        ++ show (ceilDiv (remainingTimeAt zone t') 60000)
                        ++ " minutes until the next hour...");
        EvCall (Delay (remainingTimeAt zone t') resetWaitMsg) (Fulfilled false) ]
      st2 in
  setGlobals (mkGlobals 0 None) st3.

(** How many start calls a list of events holds, and the durations of the
    backoff waits in it. *)
Definition startCalls (es : list Event) : nat :=
  List.length (filter isStartCall es).

Fixpoint backoffWaits (es : list Event) : list Z :=
  match es with
  | [] => []
  | EvCall (Delay ms msg) _ :: es' =>
      if String.eqb msg "Waiting before retrying..."
      then ms :: backoffWaits es' else backoffWaits es'
  | _ :: es' => backoffWaits es'
  end.

(** ** Reading the supervisor *)

(** The key source gives no key: the read fails, or no line of the text is
    a key. *)
Definition noKeys (read : Outcome JsString) : Prop :=
  match read with
  | Ok content => keptLines content = []
  | Err _ => True
  end.

(** The error the supervisor then reports. *)
Definition noKeysMessage (read : Outcome JsString) : string :=
  match read with
  | Ok _ => "No private keys found in data.txt"
  | Err _ => "Please create data.txt with your private keys (one per line)"
  end.

(** One round of the supervisor that finds no key, up to the restart. *)
Definition failedRound (read : Outcome JsString) : list Event :=
  [ EvDisplay PanelInit;
    EvLog DisplayLog "Starting FractionAI Battle BOT...";
    EvCall (ReadFile "./data.txt") (replyOf (ReadFile "./data.txt") read);
    EvLog DisplayLog ("Critical error: " ++ noKeysMessage read);
    EvCall (Delay 5000 "Restarting bot...") (Fulfilled false) ].

(** ** The wait that is due once the quota is reached *)

Definition isCall (e : Event) : bool :=
  match e with
  | EvCall _ _ => true
  | _ => false
  end.

(** The delay of [handleSessionLimit], however it ends. *)
Definition isResetWait (e : Event) : bool :=
  match e with
  | EvCall (Delay _ msg) _ => String.eqb msg resetWaitMsg
  | _ => false
  end.

(** The counter has just reached the quota. *)
Definition crossing (before now : Globals) : Prop :=
  sessionCount before < 6 /\ 6 <= sessionCount now.

(** The counter has reached the quota - or was there from the start - and
    no call has been awaited since. *)
Fixpoint owing (h : list Entry) (g : Globals) : Prop :=
  match h with
  | [] => 6 <= sessionCount g
  | (g1, e1) :: h' => crossing g1 g \/ (isCall e1 = false /\ owing h' g1)
  end.

(** While the wait is due, the only call that may be awaited is the wait
    itself. *)
Definition gateGuard (h : list Entry) (g : Globals) (e : Event) : Prop :=
  isCall e = true -> isResetWait e = false -> ~ owing h g.

Definition notOwing (st : St) : Prop := ~ owing (history st) (globals st).


(** A program that awaits the wait first when it is due, and leaves
    nothing due behind unless it runs out of budget. *)
Definition paysFirst {A : Type} (p : Prog A) : Prop :=
  forall st, notOwing st ->
    wp anyAnswer gateGuard p (fun r st' => r = OutOfFuel \/ notOwing st') st.


(** ** How the functions can end *)

(** No condition on what is recorded. *)
Definition noGuard (h : list Entry) (g : Globals) (e : Event) : Prop := True.

(** The last thing recorded is the ten seconds of the [catch] of
    [runWallet] (line 166), rejected with [e]. *)
Definition retryWaitRejected (e : Error) (st : St) : Prop :=
  exists g message earlier,
    history st
    = (g, EvCall (Delay 10000 ("Error: " ++ message ++ ". Retrying in 10s..."))
                 (Rejected e)) :: earlier.

(** How a call of [runWallet] can end. *)
Definition walletOutcome (r : Result unit) (st : St) : Prop :=
  match r with
  | OutOfFuel => True
  | Threw e => retryWaitRejected e st
  | Returned _ | Exited _ => False
  end.

Definition neverFulfils (p : Prog unit) : Prop :=
  forall st, wp anyAnswer noGuard p walletOutcome st.

(** A result that is a value or an exception. *)
Definition settles {A : Type} (r : Result A) : Prop :=
  match r with
  | Returned _ | Threw _ => True
  | OutOfFuel | Exited _ => False
  end.

(** A result that is not the [return] of line 127 and not an exit. *)
Definition staysInLoop (r : Result LoopStep) : Prop :=
  match r with
  | Returned (Leave FnReturn) | Exited _ => False
  | _ => True
  end.

Definition staysInFunction (r : Result LoopExit) : Prop :=
  match r with
  | Returned FnReturn | Exited _ => False
  | _ => True
  end.

Definition noValue (r : Result unit) : Prop :=
  match r with
  | Returned _ | Exited _ => False
  | _ => True
  end.

(** The last thing recorded is the five seconds of the [catch] of
    [startBot] (line 187), rejected with [e]. *)
Definition restartWaitRejected (e : Error) (st : St) : Prop :=
  exists g earlier,
    history st
    = (g, EvCall (Delay 5000 "Restarting bot...") (Rejected e)) :: earlier.

(** The last thing recorded is [Promise.all] of line 184, fulfilled. *)
Definition walletsJoined (st : St) : Prop :=
  exists g keys earlier,
    history st = (g, EvCall (JoinWallets keys) (Fulfilled false)) :: earlier.

(** How a call of [startBot] can end. *)
Definition botOutcome (r : Result unit) (st : St) : Prop :=
  match r with
  | Returned _ => walletsJoined st
  | Threw e => restartWaitRejected e st
  | OutOfFuel => True
  | Exited _ => False
  end.

(** How the process can end. *)
Definition processOutcome (r : Result unit) (st : St) : Prop :=
  match r with
  | Returned _ => walletsJoined st
  | Threw _ => False
  | OutOfFuel => True
  | Exited code =>
      code = 1
      /\ exists g e st1,
           restartWaitRejected e st1
           /\ history st = (g, EvLog ConsoleError ("Fatal error: " ++ e)) :: history st1
  end.

(** ** The calls of one wallet *)

(** The agent and the session of a start call are the configured agent,
    without automation, and a session of its type. *)
Definition targets (config : Config) (agent : Agent) (session : Session) : Prop :=
  name agent = agentName config
  /\ automationEnabled agent = false
  /\ sessionType (agentSessionType agent)
     = sessionType (sessionSessionType session).

(** A call that the loop of the wallet with key [key] may await: a method
    of its own wallet, the start method that [config.matchMode] selects with
    the arguments of lines 113 and 115, or a delay. *)
Definition ownCall (config : Config) (key : Key) (op : Op) : Prop :=
  match op with
  | Delay _ _ => True
  | Connect k | GetBalance k | Login k | GetAgents k | GetSessions k
  | GetFractalInfo k => k = key
  | StartMatch k agent session =>
      isAutoMatch config = false /\ k = key /\ targets config agent session
  | StartAutoMatch k agent session games cost =>
      isAutoMatch config = true /\ k = key /\ targets config agent session
      /\ games = maxGames config /\ cost = fee config
  | ReadFile _ | JsonParse _ | JoinWallets _ => False
  end.

Definition ownEvent (config : Config) (key : Key) (e : Event) : Prop :=
  match e with
  | EvCall op _ => ownCall config key op
  | _ => True
  end.

Definition ownGuard (config : Config) (key : Key)
    (h : list Entry) (g : Globals) (e : Event) : Prop :=
  ownEvent config key e.

(** A program that awaits calls of the wallet with key [key] only. *)
Definition callsOwn (config : Config) (key : Key) {A : Type} (p : Prog A) : Prop :=
  forall st, wp anyAnswer (ownGuard config key) p (fun _ _ => True) st.

(** ** What does not depend on [lastSessionTime] *)

(** Two values of the variables with the same [sessionCount]. *)
Definition sameCount (g1 g2 : Globals) : Prop :=
  sessionCount g1 = sessionCount g2.

(** Two programs that do the same as long as the variables they are run
    with agree on [sessionCount]: they may differ in the [lastSessionTime]
    they write, and they take the same steps whatever [lastSessionTime]
    they read. *)
Inductive alike {A : Type} : Prog A -> Prog A -> Prop :=
| alike_Ret (a : A) : alike (Ret a) (Ret a)
| alike_Throw (e : Error) : alike (Throw e) (Throw e)
| alike_Diverge : alike Diverge Diverge
| alike_Exit (c : Z) : alike (Exit c) (Exit c)
| alike_GetG (k1 k2 : Globals -> Prog A) :
    (forall g1 g2, sameCount g1 g2 -> alike (k1 g1) (k2 g2)) ->
    alike (GetG k1) (GetG k2)
| alike_PutG (g1 g2 : Globals) (k1 k2 : Prog A) :
    sameCount g1 g2 -> alike k1 k2 -> alike (PutG g1 k1) (PutG g2 k2)
| alike_Emit (e : Event) (k1 k2 : Prog A) :
    alike k1 k2 -> alike (Emit e k1) (Emit e k2)
| alike_Now (k1 k2 : Z -> Prog A) :
    (forall t, alike (k1 t) (k2 t)) -> alike (Now k1) (Now k2)
| alike_Await (op : Op) (k1 k2 : Outcome (Resp op) -> Prog A) :
    (forall o, alike (k1 o) (k2 o)) -> alike (Await op k1) (Await op k2).

(** Two states with the same events and the same [sessionCount]. *)
Definition sameButLastTime (st1 st2 : St) : Prop :=
  sameCount (globals st1) (globals st2)
  /\ map snd (history st1) = map snd (history st2).

(** ** Reading an iteration *)

(** The calls of lines 77-82, in their order. *)
Definition hydrationCalls (key : Key) : list Op :=
  [ Connect key; GetBalance key; Login key; GetAgents key; GetSessions key;
    GetFractalInfo key ].

(** How the next call of [op] settles after the history of [st]. *)
Definition nextReply (env : Env) (st : St) (op : Op) : Reply :=
  replyOf op (answer env op (calls (methodOf op) (history st))).

(** The six calls of lines 77-82 go well and give [agents] and
    [sessions]. *)
Definition hydrates (env : Env) (st : St) (agents : list Agent)
    (sessions : list Session) : Prop :=
  connects env (calls MConnect (history st)) = Ok tt
  /\ balances env (calls MGetBalance (history st)) = Ok tt
  /\ logins env (calls MLogin (history st)) = Ok tt
  /\ agentLists env (calls MGetAgents (history st)) = Ok agents
  /\ sessionLists env (calls MGetSessions (history st)) = Ok sessions
  /\ fractalInfos env (calls MGetFractalInfo (history st)) = Ok tt.

(** The events of lines 77-86 when every call goes well. *)
Definition hydrated (key : Key) : list Event :=
  [ EvCall (Connect key) (Fulfilled false);
    EvCall (GetBalance key) (Fulfilled false);
    EvCall (Login key) (Fulfilled false);
    EvCall (GetAgents key) (Fulfilled true);
    EvCall (GetSessions key) (Fulfilled true);
    EvCall (GetFractalInfo key) (Fulfilled false);
    EvDisplay PanelWallet;
    EvDisplay PanelAgents;
    EvDisplay PanelFractalInfo ].

(** The log line and the wait of the [catch] of [runWallet], lines
    163-166. *)
Definition retryLine (error : Error) : string :=
  "Error: " ++ (if String.eqb error "" then "{}" else error)
  ++ ". Retrying in 10s...".

Definition retried (error : Error) : list Event :=
  [ EvLog ToolsLog (retryLine error);
    EvCall (Delay 10000 (retryLine error)) (Fulfilled false) ].

(** The sessions of the type of [agent] (line 104). *)
Definition ofAgentType (agent : Agent) (session : Session) : bool :=
  String.eqb (sessionType (agentSessionType agent))
             (sessionType (sessionSessionType session)).

(** The call a task waits for. *)
Definition waitingFor {A : Type} (t : Task A) : option Op :=
  match t with
  | Pending s => Some (pendingOp s)
  | Settled _ => None
  end.

(** The events of lines 72-73 and 35-58 up to the wait, at a gate that
    reads [count] at time [now]. *)
Definition gateEvents (zone : TimeZone) (count now : Z) : list Event :=
  [ EvLog ToolsLog ("Session limit reached (" ++ show count
                    ++ "/6). Waiting for the next hour...");
    EvNow now;
    EvLog ToolsLog ("Session limit reached (" ++ show count ++ "/6). Waiting for "
                    ++ show (ceilDiv (remainingTimeAt zone now) 60000)
                    ++ " minutes until the next hour...") ].

(** The line of line 137. *)
Definition isSkipLine (e : Event) : bool :=
  match e with
  | EvLog ToolsLog msg =>
      String.eqb msg "Failed to start match after 3 attempts. Skipping..."
  | _ => false
  end.

(** The state after a truthy start and the bookkeeping of lines 119-122,
    with [t] the reading of the clock. *)
Definition counted (op : Op) (t : Z) (st : St) : St :=
  let c := sessionCount (globals st) + 1 in
  let st1 := setGlobals (mkGlobals c (lastSessionTime (globals st)))
                        (record (EvCall op (Fulfilled true)) st) in
  let st2 := setGlobals (mkGlobals c (Some t)) (record (EvNow t) st1) in
  record (EvLog ToolsLog ("Sessions used: " ++ show c ++ "/6")) st2.

(** ** Sample data *)

Module Sample.

Definition arena : SessionType := mkSessionType "arena" 100 2.
Definition duel : SessionType := mkSessionType "duel" 45 1.
Definition league : SessionType := mkSessionType "league" 30 3.
Definition marathon : SessionType := mkSessionType "marathon" 150 2.

Definition bob : Agent := mkAgent "bob" arena false.

Definition config : Config := mkConfig "manual" "bob" 5 1.

Definition msToTime (ms : Z) : string := show ms ++ "ms".

(** A zone whose offset from UTC never changes, and UTC itself. *)
Definition fixedZone (offset : Z) : TimeZone :=
  mkTimeZone (mkZone (fun _ => offset) (fun _ => offset))
             (fun t T _ H => ltac:(cbn in *; lia)).

Definition utc : TimeZone := fixedZone 0.

(** New York around the night of 3 November 2024.  Local time is four
    hours behind UTC until 06:00 UTC (1730613600000) and five hours behind
    from then on; the local times from 01:00 to 02:00 are shown twice, and a
    local time before 02:00 (1730599200000) is read with the earlier
    offset. *)
Definition newYork2024 : TimeZone :=
  mkTimeZone
    (mkZone (fun t => if t <? 1730613600000 then -14400000 else -18000000)
            (fun T => if T <? 1730599200000 then -14400000 else -18000000))
    (fun t T M H =>
       ltac:(cbn [offsetAt offsetOfLocal] in *; unfold msPerHour in *;
             pose proof (Z.div_mod T 3600000 ltac:(lia));
             destruct (Z.ltb_spec t 1730613600000);
             destruct (Z.ltb_spec T 1730599200000); lia)).

Definition key1 : Key := [107; 49]%N.
Definition key2 : Key := [107; 50]%N.

(** Six sessions of the agent's type. *)
Definition sixSessions : list Session := repeat (mkSession arena) 6.

(** An environment in which every call goes well, but for the start calls,
    the delays and the reads, which are given. *)
Definition envFor (sessions : list Session)
    (startResults : nat -> Outcome bool)
    (delayResults : nat -> Outcome unit)
    (fileResults : nat -> Outcome JsString) : Env :=
  mkEnv delayResults
        fileResults
        (fun _ => Ok (Some config))
        (fun _ => Ok tt)
        (fun _ => Ok tt)
        (fun _ => Ok tt)
        (fun _ => Ok [bob])
        (fun _ => Ok sessions)
        (fun _ => Ok tt)
        startResults
        (fun _ => Err "a wallet loop failed")
        (fun i => 1000 * Z.of_nat i).

Definition noFile : nat -> Outcome JsString := fun _ => Err "ENOENT".

Definition envWith := envFor sixSessions.

(** Every start succeeds, every delay runs to its end. *)
Definition busyEnv : Env := envWith (fun _ => Ok true) (fun _ => Ok tt) noFile.



(** The start function returns a falsy value every time. *)
Definition falsyEnv : Env := envWith (fun _ => Ok false) (fun _ => Ok tt) noFile.

(** Every delay is interrupted. *)
Definition interruptedEnv : Env :=
  envWith (fun _ => Ok true) (fun _ => Err "interrupted") noFile.

(** The first delay is interrupted, the others run to their end. *)
Definition interruptedOnceEnv : Env :=
  envWith (fun _ => Ok true)
          (fun i => if Nat.eqb i 0 then Err "interrupted" else Ok tt) noFile.

(** [data.txt] holds a blank line and a line of spaces. *)
Definition blankFile : nat -> Outcome JsString :=
  fun _ => Ok [10; 32; 32]%N.
Definition blankEnv : Env := envWith (fun _ => Ok true) (fun _ => Ok tt) blankFile.

(** The counter at the quota, the last start at time 5. *)
Definition atQuota : St := mkSt (mkGlobals 6 (Some 5)) [].

(** One start short of the quota. *)
Definition nearQuota : St := mkSt (mkGlobals 5 (Some 5)) [].

(** Two starts short of the quota. *)
Definition twoShort : St := mkSt (mkGlobals 4 (Some 5)) [].

(** The Chatham Islands around the night of 7 April 2024.  Local time is
    13 hours and 45 minutes ahead of UTC until 14:00 UTC of 6 April
    (1712412000000), when the clocks go back from 03:45 to 02:45, and 12
    hours and 45 minutes ahead from then on; the local times from 02:45 to
    03:45 (1712461500000) are shown twice and read with the earlier offset,
    03:00 among them. *)
Definition chatham2024 : Zone :=
  mkZone (fun t => if t <? 1712412000000 then 49500000 else 45900000)
         (fun T => if T <? 1712461500000 then 49500000 else 45900000).

(** Every call goes well and the clock stands at [now]. *)
Definition clockEnv (now : Z) : Env :=
  mkEnv (fun _ => Ok tt)
        noFile
        (fun _ => Ok (Some config))
        (fun _ => Ok tt)
        (fun _ => Ok tt)
        (fun _ => Ok tt)
        (fun _ => Ok [bob])
        (fun _ => Ok sixSessions)
        (fun _ => Ok tt)
        (fun _ => Ok true)
        (fun _ => Err "a wallet loop failed")
        (fun _ => now).

(** Every call goes well; there is one session. *)
Definition oneSessionEnv : Env :=
  envFor [mkSession arena] (fun _ => Ok true) (fun _ => Ok tt) noFile.

Definition alice : Agent := mkAgent "alice" duel false.

(** A second agent called bob, with automation. *)
Definition bobAgain : Agent := mkAgent "bob" duel true.

(** An environment in which every call goes well, the wallet has the
    given agents and the six sessions, and the delays are given. *)
Definition envOf (agents : list Agent) (delayResults : nat -> Outcome unit) : Env :=
  mkEnv delayResults
        noFile
        (fun _ => Ok (Some config))
        (fun _ => Ok tt)
        (fun _ => Ok tt)
        (fun _ => Ok tt)
        (fun _ => Ok agents)
        (fun _ => Ok sixSessions)
        (fun _ => Ok tt)
        (fun _ => Ok true)
        (fun _ => Err "a wallet loop failed")
        (fun i => 1000 * Z.of_nat i).

(** The login is refused. *)
Definition refusedEnv : Env :=
  mkEnv (fun _ => Ok tt)
        noFile
        (fun _ => Ok (Some config))
        (fun _ => Ok tt)
        (fun _ => Ok tt)
        (fun _ => Err "unauthorized")
        (fun _ => Ok [bob])
        (fun _ => Ok sixSessions)
        (fun _ => Ok tt)
        (fun _ => Ok true)
        (fun _ => Err "a wallet loop failed")
        (fun i => 1000 * Z.of_nat i).

(** The start function throws every time. *)
Definition downEnv : Env := envWith (fun _ => Err "down") (fun _ => Ok tt) noFile.

(** The start function throws and the delays are interrupted. *)
Definition stormEnv : Env :=
  envWith (fun _ => Err "down") (fun _ => Err "interrupted") noFile.

(** [data.txt] holds the two keys, one per line. *)
Definition twoKeys : JsString := (key1 ++ newline :: key2)%list.

Definition fileEnv (content : JsString) : Env :=
  envWith (fun _ => Ok true) (fun _ => Ok tt) (fun _ => Ok content).

(** Sessions of three types. *)
Definition mixedSessions : list Session :=
  [mkSession arena; mkSession duel; mkSession arena].

End Sample.

(** ** Proof steps *)

Ltac quota_guard :=
  unfold quotaGuard; simpl;
  first [ intros D; discriminate D | intros _; assumption | intros _; lia ].



Ltac use_earlier H j :=
  let b := fresh "b" in
  let F := fresh "F" in
  destruct (H j _ ltac:(lia) eq_refl) as [b F]; unfold replyOf in F; cbn in F.

Ltac alike_call :=
  lazymatch goal with
  | |- alike (await ?op) _ =>
      unfold await; constructor; intros [?|?]; constructor
  end.

(** * Proofs *)

(** ** Basic facts about running programs *)

Lemma run_bind {A B : Type} (env : Env) (p : Prog A) (f : A -> Prog B) (st : St) :
  run env (bind p f) st =
  match run env p st with
  | (Returned a, st1) => run env (f a) st1
  | (Threw e, st1) => (Threw e, st1)
  | (OutOfFuel, st1) => (OutOfFuel, st1)
  | (Exited c, st1) => (Exited c, st1)
  end.
Proof.
  revert st; induction p; intros st; simpl; auto.
Qed.

Lemma run_tryCatch {A : Type} (env : Env) (p : Prog A) (h : Error -> Prog A) (st : St) :
  run env (tryCatch p h) st =
  match run env p st with
  | (Threw e, st1) => run env (h e) st1
  | other => other
  end.
Proof.
  revert st; induction p; intros st; simpl; auto.
Qed.

(** Running a task alone is running it to its next [await], settling that
    call and going on. *)
Lemma run_advance {A : Type} (env : Env) (p : Prog A) (st : St) :
  run env p st =
  match advance env p st with
  | (Settled r, st1) => (r, st1)
  | (Pending s, st1) =>
      let op := pendingOp s in
      let o := answer env op (calls (methodOf op) (history st1)) in
      run env (resumeWith s o) (record (EvCall op (replyOf op o)) st1)
  end.
Proof.
  revert st; induction p; intros st; simpl; auto.
Qed.

(** ** Strings *)

Lemma trimStart_nil (s : JsString) :
  trimStart s = [] <-> whitespaceOnly s = true.
Proof.
  unfold whitespaceOnly; induction s as [|c s IH]; simpl.
  - tauto.
  - destruct (isWhiteSpace c); simpl.
    + exact IH.
    + split; discriminate.
Qed.

Lemma whitespaceOnly_rev (s : JsString) :
  whitespaceOnly (rev s) = whitespaceOnly s.
Proof.
  unfold whitespaceOnly; induction s as [|c s IH]; simpl; auto.
  rewrite forallb_app, IH; simpl.
  rewrite andb_true_r; apply andb_comm.
Qed.

Lemma whitespaceOnly_trimStart (s : JsString) :
  whitespaceOnly (trimStart s) = whitespaceOnly s.
Proof.
  unfold whitespaceOnly; induction s as [|c s IH]; simpl; auto.
  destruct (isWhiteSpace c) eqn:E; simpl; auto.
  rewrite E; reflexivity.
Qed.

Lemma nonEmpty_false (s : JsString) : nonEmpty s = false <-> s = [].
Proof. destruct s; simpl; split; congruence. Qed.

(** A line survives [key.trim()] exactly when it is not blank. *)
Lemma nonEmpty_trim (s : JsString) :
  nonEmpty (trim s) = negb (whitespaceOnly s).
Proof.
  destruct (whitespaceOnly s) eqn:W; simpl.
  - apply nonEmpty_false. unfold trim, trimEnd.
    apply trimStart_nil in W; rewrite W; reflexivity.
  - destruct (nonEmpty (trim s)) eqn:E; auto.
    apply nonEmpty_false in E. unfold trim, trimEnd in E.
    assert (H : trimStart (rev (trimStart s)) = []).
    { rewrite <- (rev_involutive (trimStart (rev (trimStart s)))), E; reflexivity. }
    apply trimStart_nil in H.
    rewrite whitespaceOnly_rev, whitespaceOnly_trimStart in H; congruence.
Qed.

Lemma split_not_nil (sep : CodeUnit) (s : JsString) : split sep s <> [].
Proof.
  destruct s as [|c s]; simpl; try discriminate.
  destruct (c =? sep)%N; try discriminate.
  destruct (split sep s); discriminate.
Qed.

(** Joining the pieces with the separator gives the text back. *)
Lemma join_split (sep : CodeUnit) (s : JsString) : join sep (split sep s) = s.
Proof.
  induction s as [|c s IH]; simpl; auto.
  destruct (c =? sep)%N eqn:E.
  - apply N.eqb_eq in E; subst c.
    pose proof (split_not_nil sep s) as Hne.
    destruct (split sep s); [congruence|].
    simpl in *; rewrite IH; reflexivity.
  - pose proof (split_not_nil sep s) as Hne.
    destruct (split sep s) as [|piece pieces]; [congruence|].
    destruct pieces; simpl in *; rewrite <- IH; reflexivity.
Qed.

(** No piece holds the separator. *)
Lemma split_no_sep (sep : CodeUnit) (s : JsString) :
  Forall (fun piece => ~ In sep piece) (split sep s).
Proof.
  induction s as [|c s IH]; simpl.
  - constructor; auto.
  - destruct (c =? sep)%N eqn:E.
    + constructor; auto.
    + apply N.eqb_neq in E.
      destruct (split sep s) as [|piece pieces]; constructor.
      * simpl; intros [H|[]]; congruence.
      * constructor.
      * inversion IH; subst. simpl; intros [H|H]; [congruence|auto].
      * inversion IH; auto.
Qed.

(** What [loadKeys] does with the outcome of the read. *)
Lemma run_loadKeys (env : Env) (st : St) :
  run env loadKeys st =
  match files env (calls MReadFile (history st)) with
  | Ok content =>
      (Returned (keptLines content),
       record (EvCall (ReadFile "./data.txt") (Fulfilled true)) st)
  | Err e =>
      (Threw "Please create data.txt with your private keys (one per line)",
       record (EvCall (ReadFile "./data.txt") (Rejected e)) st)
  end.
Proof.
  unfold loadKeys; simpl.
  destruct (files env (calls MReadFile (history st))) as [content|e]; simpl; auto.
  unfold keptLines. f_equal. f_equal.
  apply filter_ext; intros line; apply nonEmpty_trim.
Qed.

(** C10.  [loadKeys] returns the lines of [data.txt] that are not blank,
    in their order and untrimmed: the text is cut at every newline (the
    pieces hold no newline and joined by newlines give the text back), a
    piece is dropped exactly when it holds white space only, and the other
    pieces are returned as they are.  A failing read throws the fixed
    message. *)
Theorem loadKeys_returns_nonblank_lines :
  forall (env : Env) (st : St),
    run env loadKeys st =
      match files env (calls MReadFile (history st)) with
      | Ok content =>
          (Returned (keptLines content),
           record (EvCall (ReadFile "./data.txt") (Fulfilled true)) st)
      | Err e =>
          (Threw "Please create data.txt with your private keys (one per line)",
           record (EvCall (ReadFile "./data.txt") (Rejected e)) st)
      end
    /\ (forall content : JsString,
          join newline (split newline content) = content
          /\ Forall (fun line => ~ In newline line) (split newline content)
          /\ keptLines content =
             filter (fun line => negb (forallb isWhiteSpace line))
                    (split newline content)).
Proof.
  intros env st; split.
  - apply run_loadKeys.
  - intros content; split; [apply join_split|split; [apply split_no_sep|reflexivity]].
Qed.

(** ** The cool-down *)

Lemma minDuration_fold (sessions : list Session) (start : Z) :
  fold_left
    (fun minDuration session =>
       let duration := durationPerRound (sessionSessionType session)
                       * rounds (sessionSessionType session) in
       if duration <? minDuration then duration else minDuration)
    sessions start
  = fold_right Z.min start (map sessionDuration sessions).
Proof.
  revert start; induction sessions as [|s sessions IH]; intros start; simpl; auto.
  rewrite IH. unfold sessionDuration at 2.
  set (d := durationPerRound (sessionSessionType s) * rounds (sessionSessionType s)).
  generalize (map sessionDuration sessions) as ds.
  induction ds as [|x ds IHds]; simpl.
  - destruct (Z.ltb_spec d start); lia.
  - rewrite IHds. lia.
Qed.

Lemma leastOf60And_le (ds : list Z) :
  leastOf60And ds <= 60 /\ Forall (fun d => leastOf60And ds <= d) ds.
Proof.
  unfold leastOf60And; induction ds as [|d ds [IH1 IH2]]; simpl.
  - split; [lia|constructor].
  - split; [lia|]. constructor; [lia|].
    eapply Forall_impl; [|exact IH2]. simpl; intros; lia.
Qed.

Lemma leastOf60And_attained (ds : list Z) :
  leastOf60And ds = 60 \/ In (leastOf60And ds) ds.
Proof.
  unfold leastOf60And; induction ds as [|d ds IH]; simpl; auto.
  destruct (Z.min_spec d (fold_right Z.min 60 ds)) as [[_ E]|[_ E]]; rewrite E; auto.
  destruct IH; auto.
Qed.

(** C5.  The wait at the end of an iteration is the minimum of 60 and of
    [durationPerRound * rounds] over all the sessions, in seconds: it is
    at most 60, at most the duration of every session, and it is 60 or the
    duration of one of the sessions.  The delay is asked for that many
    seconds.  For durations 200, 45 and 90 it is 45, for 200 and 300 it is
    60. *)
Theorem coolDown_is_least_duration :
  forall (msToTime : Z -> string) (env : Env) (st : St) (sessions : list Session),
    minDuration sessions = leastOf60And (map sessionDuration sessions)
    /\ minDuration sessions <= 60
    /\ Forall (fun session => minDuration sessions <= sessionDuration session) sessions
    /\ (minDuration sessions = 60
        \/ exists session, In session sessions
                           /\ minDuration sessions = sessionDuration session)
    /\ (let wait := Delay (minDuration sessions * 1000)
                          ("Processing completed. Waiting for "
                           ++ msToTime (minDuration sessions * 1000)) in
        events (snd (run env (coolDown msToTime sessions) st))
        = (events st
           ++ [EvCall wait (replyOf wait (delays env (calls MDelay (history st))))])%list)
    /\ (map sessionDuration sessions = [200; 45; 90] -> minDuration sessions = 45)
    /\ (map sessionDuration sessions = [200; 300] -> minDuration sessions = 60).
Proof.
  intros msToTime env st sessions.
  assert (E : minDuration sessions = leastOf60And (map sessionDuration sessions))
    by apply minDuration_fold.
  destruct (leastOf60And_le (map sessionDuration sessions)) as [L1 L2].
  repeat split.
  - exact E.
  - rewrite E; exact L1.
  - rewrite E. rewrite Forall_map in L2. exact L2.
  - rewrite E. destruct (leastOf60And_attained (map sessionDuration sessions)) as [H|H]; auto.
    right. apply in_map_iff in H. destruct H as [s [Hs Hin]]. exists s; auto.
  - unfold coolDown; simpl.
    destruct (delays env (calls MDelay (history st))); simpl;
      unfold events, trace; simpl; rewrite map_app; reflexivity.
  - intros H; rewrite E, H; reflexivity.
  - intros H; rewrite E, H; reflexivity.
Qed.

(** ** The wait for the next hour *)

Lemma remainingTimeAt_eq (zone : Zone) (now : Z) :
  remainingTimeAt zone now
  = UTC zone (nextFullHour (LocalTime zone now)) - now.
Proof.
  unfold remainingTimeAt, setHours, getHours, UTC, MakeDate, MakeTime,
         Day, HourFromTime, nextFullHour.
  set (L := LocalTime zone now).
  assert (E : L / msPerDay * msPerDay
                + ((L / msPerHour mod 24 + 1) * msPerHour + 0 * msPerMinute
                   + 0 * msPerSecond + 0)
              = L - L mod msPerHour + msPerHour).
  { assert (D : L / msPerDay = L / msPerHour / 24).
    { rewrite Z.div_div by (unfold msPerHour; lia). reflexivity. }
    rewrite D.
    pose proof (Z.div_mod (L / msPerHour) 24 ltac:(lia)) as Q.
    pose proof (Z.div_mod L msPerHour ltac:(unfold msPerHour; lia)) as R.
    unfold msPerDay, msPerHour, msPerMinute, msPerSecond in *.
    lia. }
  rewrite E. reflexivity.
Qed.

(** The next full hour of a local time: a full hour, after it and at most
    an hour after it. *)
Lemma nextFullHour_spec (L : Z) :
  nextFullHour L mod msPerHour = 0
  /\ L < nextFullHour L <= L + msPerHour
  /\ nextFullHour L = (L / msPerHour + 1) * msPerHour.
Proof.
  unfold nextFullHour.
  pose proof (Z.mod_pos_bound L msPerHour ltac:(unfold msPerHour; lia)) as B.
  pose proof (Z.div_mod L msPerHour ltac:(unfold msPerHour; lia)) as R.
  assert (E : L - L mod msPerHour + msPerHour = (L / msPerHour + 1) * msPerHour)
    by lia.
  split; [|split; [lia|exact E]].
  rewrite E. apply Z.mod_mul. unfold msPerHour; lia.
Qed.

Lemma remainingTimeAt_pos (zone : TimeZone) (now : Z) :
  0 < remainingTimeAt zone now.
Proof.
  rewrite remainingTimeAt_eq. unfold UTC.
  destruct (nextFullHour_spec (LocalTime zone now)) as (M & [B _] & _).
  pose proof (fullHourAhead zone now (nextFullHour (LocalTime zone now)) M B).
  lia.
Qed.

(** C8, as the code has it.  In any time zone and at any current time,
    [handleSessionLimit] aims at the full hour after the local time of now:
    its hour is the current hour plus one, its minutes, seconds and
    milliseconds are zero, and no full hour of local time lies before it.
    The wait it computes is the time from now to the instant at which [Date]
    puts that local time; it depends on the current time only, not on when
    the sessions were started.  When it is positive it is the duration the
    delay is asked for; when it is not, nothing is awaited and the counter
    is cleared at once.  It is positive in every zone in which a full hour
    that lies ahead on the local clock is read as an instant that lies
    ahead.  Measured on the local clock the wait is the time to that full
    hour plus the change of the offset from UTC, so that across a change of
    the clocks it can be longer than an hour.  When the offset at the end of
    the wait is the one that local time was read with, the wall clock then
    shows that full hour; and while the offset does not change, the wait is
    positive, at most an hour, and no full hour of the wall clock lies
    inside it. *)
Theorem handleSessionLimit_waits_for_next_hour :
  forall (zone : Zone) (env : Env) (st : St),
    let now := clock env (clockReads (history st)) in
    let wait := remainingTimeAt zone now in
    let L := LocalTime zone now in
    let T := nextFullHour L in
    let r := run env (handleSessionLimit zone) st in
    (L < T <= L + msPerHour
     /\ HourFromTime T = (getHours zone now + 1) mod 24
     /\ MinFromTime T = 0 /\ SecFromTime T = 0 /\ msFromTime T = 0
     /\ (forall T', L < T' < T -> T' mod msPerHour <> 0))
    /\ (now + wait = UTC zone T
        /\ wait = (T - L) + (offsetAt zone now - offsetOfLocal zone T))
    /\ (0 < wait ->
        In (EvCall (Delay wait resetWaitMsg)
                   (replyOf (Delay wait resetWaitMsg)
                            (delays env (calls MDelay (history st)))))
           (events (snd r)))
    /\ (wait <= 0 ->
        fst r = Returned tt
        /\ events (snd r) = (events st ++ [EvNow now])%list
        /\ globals (snd r) = mkGlobals 0 None)
    /\ ((forall t T', T' mod msPerHour = 0 -> t + offsetAt zone t < T' ->
                      t < T' - offsetOfLocal zone T') ->
        0 < wait)
    /\ (offsetAt zone (now + wait) = offsetOfLocal zone T ->
        LocalTime zone (now + wait) = T
        /\ getHours zone (now + wait) = (getHours zone now + 1) mod 24
        /\ MinFromTime (LocalTime zone (now + wait)) = 0
        /\ SecFromTime (LocalTime zone (now + wait)) = 0
        /\ msFromTime (LocalTime zone (now + wait)) = 0)
    /\ ((forall t, now <= t <= now + wait -> offsetAt zone t = offsetAt zone now) ->
        offsetOfLocal zone T = offsetAt zone now ->
        0 < wait <= msPerHour
        /\ wait = msPerHour - L mod msPerHour
        /\ (forall t, now < t < now + wait ->
              (LocalTime zone t) mod msPerHour <> 0)).
Proof.
  intros zone env st now wait L T r.
  pose proof (remainingTimeAt_eq zone now) as E. fold wait L T in E.
  destruct (nextFullHour_spec L) as (M & B & F). fold T in M, B, F.
  pose proof (Z.mod_pos_bound L msPerHour ltac:(unfold msPerHour; lia)) as BL.
  pose proof (Z.div_mod L msPerHour ltac:(unfold msPerHour; lia)) as RL.
  assert (HT : HourFromTime T = (getHours zone now + 1) mod 24).
  { unfold HourFromTime, getHours. fold L. rewrite F.
    rewrite Z.div_mul by (unfold msPerHour; lia).
    unfold HourFromTime. rewrite Zplus_mod_idemp_l. reflexivity. }
  assert (MT : MinFromTime T = 0).
  { unfold MinFromTime. rewrite F.
    replace ((L / msPerHour + 1) * msPerHour)
      with ((L / msPerHour + 1) * 60 * msPerMinute)
      by (unfold msPerHour, msPerMinute; lia).
    rewrite Z.div_mul by (unfold msPerMinute; lia).
    apply Z.mod_mul; lia. }
  assert (ST : SecFromTime T = 0).
  { unfold SecFromTime. rewrite F.
    replace ((L / msPerHour + 1) * msPerHour)
      with ((L / msPerHour + 1) * 60 * 60 * msPerSecond)
      by (unfold msPerHour, msPerSecond; lia).
    rewrite Z.div_mul by (unfold msPerSecond; lia).
    apply Z.mod_mul; lia. }
  assert (mT : msFromTime T = 0).
  { unfold msFromTime. rewrite F.
    replace ((L / msPerHour + 1) * msPerHour)
      with ((L / msPerHour + 1) * 3600 * msPerSecond)
      by (unfold msPerHour, msPerSecond; lia).
    apply Z.mod_mul; unfold msPerSecond; lia. }
  split; [|split; [|split; [|split; [|split; [|split]]]]].
  - split; [exact B|]. split; [exact HT|]. split; [exact MT|].
    split; [exact ST|]. split; [exact mT|].
    intros T' HT' Hmod.
    pose proof (Z.div_mod T' msPerHour ltac:(unfold msPerHour; lia)) as RT.
    rewrite Hmod in RT. rewrite F in HT'.
    unfold msPerHour in *. lia.
  - unfold UTC in *. unfold L, LocalTime in *. split; lia.
  - intros P. unfold r, handleSessionLimit; simpl. fold now. fold wait.
    assert (W : (0 <? wait) = true) by (apply Z.ltb_lt; lia).
    rewrite W; simpl.
    destruct (delays env (calls MDelay (history st))); simpl;
      unfold events, trace; simpl; rewrite !map_app, !in_app_iff; simpl; tauto.
  - intros P. unfold r, handleSessionLimit; simpl. fold now. fold wait.
    assert (W : (0 <? wait) = false) by (apply Z.ltb_ge; lia).
    rewrite W; simpl.
    split; [reflexivity|]. split; [|reflexivity].
    unfold events, trace; simpl. rewrite map_app. reflexivity.
  - intros Ahead. pose proof (Ahead now T M ltac:(unfold L, LocalTime in B; lia)).
    unfold UTC in E. lia.
  - intros C.
    assert (EL : LocalTime zone (now + wait) = T).
    { unfold LocalTime. rewrite C. unfold UTC in E. lia. }
    split; [exact EL|]. unfold getHours at 1. rewrite EL. auto.
  - intros Hconst Hsame.
    assert (W : wait = msPerHour - L mod msPerHour).
    { unfold UTC in E. rewrite Hsame in E. unfold T, nextFullHour in E.
      unfold L, LocalTime in *. lia. }
    split; [lia|]. split; [exact W|].
    intros t Ht Hmod.
    assert (Ot : offsetAt zone t = offsetAt zone now) by (apply Hconst; lia).
    unfold LocalTime in Hmod. rewrite Ot in Hmod.
    pose proof (Z.div_mod (t + offsetAt zone now) msPerHour
                  ltac:(unfold msPerHour; lia)) as Rt.
    rewrite Hmod in Rt.
    unfold L, LocalTime in *. unfold msPerHour in *. lia.
Qed.

(** ** The program logic is sound *)

Section LogicFacts.

Variable allowed : forall op : Op, Outcome (Resp op) -> Prop.
Variable guard : list Entry -> Globals -> Event -> Prop.

Lemma wp_mono {A : Type} (p : Prog A) (Q Q' : Result A -> St -> Prop) :
  (forall r st, Q r st -> Q' r st) ->
  forall st, wp allowed guard p Q st -> wp allowed guard p Q' st.
Proof.
  intros HQ; induction p; simpl; intros st W; auto.
  - destruct W; auto.
  - intros t; destruct (W t); auto.
  - intros o Ho; destruct (W o Ho); auto.
Qed.

Lemma wp_bind {A B : Type} (p : Prog A) (f : A -> Prog B)
    (Q : Result B -> St -> Prop) (st : St) :
  wp allowed guard p
     (fun r st1 =>
        match r with
        | Returned a => wp allowed guard (f a) Q st1
        | Threw e => Q (Threw e) st1
        | OutOfFuel => Q OutOfFuel st1
        | Exited c => Q (Exited c) st1
        end) st ->
  wp allowed guard (bind p f) Q st.
Proof.
  revert st; induction p; simpl; intros st W; auto.
  - destruct W; auto.
  - intros t; destruct (W t); auto.
  - intros o Ho; destruct (W o Ho); auto.
Qed.

Lemma wp_tryCatch {A : Type} (p : Prog A) (h : Error -> Prog A)
    (Q : Result A -> St -> Prop) (st : St) :
  wp allowed guard p
     (fun r st1 =>
        match r with
        | Threw e => wp allowed guard (h e) Q st1
        | _ => Q r st1
        end) st ->
  wp allowed guard (tryCatch p h) Q st.
Proof.
  revert st; induction p; simpl; intros st W; auto.
  - destruct W; auto.
  - intros t; destruct (W t); auto.
  - intros o Ho; destruct (W o Ho); auto.
Qed.

Lemma wp_sound {A : Type} (env : Env) (p : Prog A)
    (Q : Result A -> St -> Prop) (st : St) :
  respects allowed env ->
  guarded guard (history st) ->
  wp allowed guard p Q st ->
  Q (fst (run env p st)) (snd (run env p st))
  /\ guarded guard (history (snd (run env p st))).
Proof.
  intros Henv; revert st; induction p; simpl; intros st G W; auto.
  - destruct W as [W1 W2]. apply IHp; simpl; auto.
  - destruct (W (clock env (clockReads (history st)))) as [W1 W2].
    apply H; simpl; auto.
  - destruct (W (answer env op (calls (methodOf op) (history st)))
                (Henv op _)) as [W1 W2].
    apply H; simpl; auto.
Qed.

End LogicFacts.

(** ** The counter moves by the rule *)

Lemma upToDate_record (e : Event) (st : St) :
  plain e -> upToDate (record e st).
Proof.
  intros [H1 H2]; unfold upToDate, stepGuard, counterStep; simpl.
  rewrite H1, H2; reflexivity.
Qed.

Lemma keeps_Ret {A : Type} (a : A) : keeps (Ret a).
Proof. intros st U; exact U. Qed.

Lemma keeps_Throw {A : Type} (e : Error) : keeps (@Throw A e).
Proof. intros st U; exact U. Qed.

Lemma keeps_bind {A B : Type} (p : Prog A) (f : A -> Prog B) :
  keeps p -> (forall a, keeps (f a)) -> keeps (bind p f).
Proof.
  intros Hp Hf st U. apply wp_bind.
  eapply wp_mono; [|apply Hp; exact U].
  intros [a| | |] st1 U1; simpl; auto. apply Hf; exact U1.
Qed.

Lemma keeps_tryCatch {A : Type} (p : Prog A) (h : Error -> Prog A) :
  keeps p -> (forall e, keeps (h e)) -> keeps (tryCatch p h).
Proof.
  intros Hp Hh st U. apply wp_tryCatch.
  eapply wp_mono; [|apply Hp; exact U].
  intros [a|e| |] st1 U1; simpl; auto. apply Hh; exact U1.
Qed.

Lemma keeps_emit (e : Event) : plain e -> keeps (emit e).
Proof.
  intros He st U; simpl; split; [exact U|]. apply upToDate_record; exact He.
Qed.

Lemma keeps_toolsLog (msg : string) : keeps (toolsLog msg).
Proof. apply keeps_emit; split; reflexivity. Qed.

Lemma keeps_getSessionCount : keeps getSessionCount.
Proof. intros st U; exact U. Qed.

Lemma keeps_await (op : Op) : quiet op -> keeps (await op).
Proof.
  intros [H1 H2] st U; simpl; intros o _; split; [exact U|].
  assert (P : plain (EvCall op (replyOf op o))).
  { split.
    - simpl. destruct (replyOf op o) as [|[|]]; auto.
    - destruct op; simpl; auto.
      destruct (replyOf _ o); auto. }
  destruct o; simpl; apply upToDate_record; exact P.
Qed.

Lemma keeps_handleSessionLimit (zone : TimeZone) : keeps (handleSessionLimit zone).
Proof.
  intros st U; unfold handleSessionLimit; simpl.
  intros t; split; [exact U|].
  pose proof (remainingTimeAt_pos zone t) as P.
  apply Z.ltb_lt in P; rewrite P; simpl.
  split; [reflexivity|].
  intros o _; split; [reflexivity|].
  destruct o as [[]|e]; simpl.
  - unfold upToDate, stepGuard, counterStep; simpl. auto.
  - reflexivity.
Qed.

Opaque handleSessionLimit.

Section Keeps.

Variable config : Config.
Variable msToTime : Z -> string.
Variable zone : TimeZone.

Lemma keeps_onAttemptError (retryCount : Z) (error : Error) :
  keeps (onAttemptError retryCount error).
Proof.
  unfold onAttemptError.
  apply keeps_bind; [apply keeps_toolsLog|]. intros _.
  destruct (maxRetries <=? retryCount + 1).
  - apply keeps_bind; [apply keeps_toolsLog|]. intros; apply keeps_Ret.
  - apply keeps_bind; [|intros; apply keeps_Ret].
    apply keeps_await; split; reflexivity.
Qed.

(** Right after a truthy start the counter is one behind the rule; the
    increment of line 119 puts it right before anything else is recorded. *)
Lemma keeps_onStarted (self : Prog unit) (op : Op) (st : St) :
  keeps self ->
  Method_eqb MStart (methodOf op) = true ->
  wp anyAnswer stepGuard (onStarted zone self)
     (fun _ st' => upToDate st')
     (record (EvCall op (Fulfilled true)) st).
Proof.
  intros Hself Hop. unfold onStarted.
  cbn [wp bind getSessionCount setSessionCount dateNow setLastSessionTime
       toolsLog emit setGlobals record globals history sessionCount].
  intros t; split.
  { unfold stepGuard, counterStep, isTruthyStart. rewrite Hop; reflexivity. }
  split; [reflexivity|].
  destruct (6 <=? sessionCount (globals st) + 1).
  - cbn [wp bind toolsLog emit]. split; [reflexivity|].
    apply (keeps_bind (handleSessionLimit zone)
             (fun _ => self ;; Ret (Leave FnReturn))).
    + apply keeps_handleSessionLimit.
    + intros _. apply keeps_bind; [exact Hself|]. intros; apply keeps_Ret.
    + reflexivity.
  - cbn [wp bind await]. intros o _; split; [reflexivity|].
    destruct o; reflexivity.
Qed.

Lemma keeps_attempt (self : Prog unit) (key : Key) (agent : Agent)
    (session : Session) (retryCount : Z) :
  keeps self -> keeps (attempt config zone self key agent session retryCount).
Proof.
  intros Hself. unfold attempt.
  apply keeps_tryCatch; [|apply keeps_onAttemptError].
  intros st U.
  unfold startCall; destruct (isAutoMatch config);
    cbn [wp bind await]; intros o _; (split; [exact U|]);
    destruct o as [[|]|e]; cbn [bind replyOf truthy];
    try (apply keeps_onStarted; [exact Hself|reflexivity]);
    reflexivity.
Qed.

Lemma keeps_attemptLoop (fuel : nat) (self : Prog unit) (key : Key)
    (agent : Agent) (session : Session) (retryCount : Z) :
  keeps self ->
  keeps (attemptLoop config zone fuel self key agent session retryCount).
Proof.
  intros Hself; revert retryCount; induction fuel as [|fuel IH]; intros retryCount.
  - intros st U; exact U.
  - cbn [attemptLoop]. destruct (retryCount <? maxRetries); [|apply keeps_Ret].
    apply keeps_bind; [apply keeps_attempt; exact Hself|].
    intros [retryCount'|how]; [apply IH|apply keeps_Ret].
Qed.

Lemma keeps_matchSessions (fuel : nat) (self : Prog unit) (key : Key)
    (agent : Agent) (sessions : list Session) :
  keeps self ->
  keeps (matchSessions config zone fuel self key agent sessions).
Proof.
  intros Hself; induction sessions as [|session rest IH]; cbn [matchSessions].
  - apply keeps_Ret.
  - destruct (String.eqb _ _); [|exact IH].
    destruct (negb (automationEnabled agent)).
    + apply keeps_bind; [apply keeps_attemptLoop; exact Hself|].
      intros [|]; [exact IH|apply keeps_Ret].
    + apply keeps_bind; [apply keeps_toolsLog|]. intros _; exact IH.
Qed.

Lemma keeps_hydrate (key : Key) : keeps (hydrate key).
Proof.
  unfold hydrate.
  repeat (apply keeps_bind; [apply keeps_await; split; reflexivity|intros ?]).
  repeat (apply keeps_bind; [apply keeps_emit; split; reflexivity|intros ?]).
  apply keeps_Ret.
Qed.

Lemma keeps_coolDown (sessions : list Session) :
  keeps (coolDown msToTime sessions).
Proof. apply keeps_await; split; reflexivity. Qed.

Lemma keeps_onWalletError (self : Prog unit) (error : Error) :
  keeps self -> keeps (onWalletError self error).
Proof.
  intros Hself; unfold onWalletError.
  apply keeps_bind; [apply keeps_toolsLog|intros _].
  apply keeps_bind; [apply keeps_await; split; reflexivity|intros _].
  exact Hself.
Qed.

Lemma keeps_walletIteration (fuel : nat) (self : Prog unit) (key : Key) :
  keeps self -> keeps (walletIteration config msToTime zone fuel self key).
Proof.
  intros Hself; unfold walletIteration.
  apply keeps_bind; [apply keeps_getSessionCount|intros c].
  destruct (6 <=? c).
  - apply keeps_bind; [apply keeps_toolsLog|intros _].
    apply keeps_bind; [apply keeps_handleSessionLimit|intros _].
    exact Hself.
  - apply keeps_bind; [apply keeps_hydrate|intros [agents sessions]].
    destruct (Nat.eqb _ _).
    + apply keeps_bind; [apply keeps_await; split; reflexivity|intros _].
      apply keeps_Throw.
    + destruct (find _ agents) as [targetAgent|]; [|apply keeps_Throw].
      apply keeps_bind; [apply keeps_matchSessions; exact Hself|].
      intros [|]; [|apply keeps_Ret].
      apply keeps_bind; [apply keeps_coolDown|intros _; exact Hself].
Qed.

Lemma keeps_runWallet (fuel : nat) (key : Key) :
  keeps (runWallet config msToTime zone fuel key).
Proof.
  induction fuel as [|fuel IH]; cbn [runWallet].
  - intros st U; exact U.
  - apply keeps_tryCatch.
    + apply keeps_walletIteration; exact IH.
    + intros e; apply keeps_onWalletError; exact IH.
Qed.

End Keeps.

Transparent handleSessionLimit.

(** ** Start calls stay below the quota *)

Lemma quota_handleSessionLimit (zone : TimeZone) (st : St) :
  wp delaysResolve quotaGuard (handleSessionLimit zone)
     (fun r st' => r = Returned tt /\ sessionCount (globals st') = 0
                   /\ lastSessionTime (globals st') = None) st.
Proof.
  unfold handleSessionLimit; simpl.
  intros t; split; [quota_guard|].
  destruct (0 <? remainingTimeAt zone t); simpl; auto.
  split; [quota_guard|].
  intros o Ho; simpl in Ho; subst o; simpl.
  split; [quota_guard|]. auto.
Qed.

Opaque handleSessionLimit.

Section Quota.

Variable config : Config.
Variable msToTime : Z -> string.
Variable zone : TimeZone.

Lemma quota_onAttemptError (retryCount : Z) (error : Error) (st : St) :
  belowQuota st ->
  wp delaysResolve quotaGuard (onAttemptError retryCount error)
     attemptOutcome st.
Proof.
  unfold belowQuota, attemptOutcome, onAttemptError; intros B.
  simpl. split; [quota_guard|].
  destruct (maxRetries <=? retryCount + 1); simpl.
  - split; [quota_guard|]. right; split; auto.
  - intros o Ho; simpl in Ho; subst o; simpl.
    split; [quota_guard|]. right; split; eauto.
Qed.

Lemma quota_onStarted (self : Prog unit) (st : St) :
  neverEnds self ->
  belowQuota st ->
  wp delaysResolve quotaGuard (onStarted zone self)
     (fun r st' => match r with Threw _ => False | _ => attemptOutcome r st' end)
     st.
Proof.
  unfold belowQuota, attemptOutcome, onStarted; intros Hself B.
  cbn [wp bind getSessionCount setSessionCount dateNow setLastSessionTime
       toolsLog emit setGlobals record globals history sessionCount].
  intros t; split; [quota_guard|].
  split; [quota_guard|].
  destruct (6 <=? sessionCount (globals st) + 1) eqn:L.
  - cbn [wp bind toolsLog emit]. split; [quota_guard|].
    apply wp_bind. eapply wp_mono; [|apply quota_handleSessionLimit].
    intros r st2 (-> & _ & _).
    apply wp_bind. eapply wp_mono; [|apply Hself].
    intros r st3 ->. left; reflexivity.
  - apply Z.leb_gt in L. cbn [wp bind await].
    intros o Ho; simpl in Ho; subst o.
    split; [quota_guard|]. simpl. right; split; auto.
Qed.

Lemma quota_attempt (self : Prog unit) (key : Key) (agent : Agent)
    (session : Session) (retryCount : Z) (st : St) :
  neverEnds self ->
  belowQuota st ->
  wp delaysResolve quotaGuard
     (attempt config zone self key agent session retryCount)
     attemptOutcome st.
Proof.
  intros Hself B. unfold attempt. apply wp_tryCatch.
  unfold startCall; destruct (isAutoMatch config);
    cbn [wp bind await]; intros o _; (split; [quota_guard|]);
    destruct o as [[|]|e]; cbn [bind];
    try (eapply wp_mono; [|apply quota_onStarted; [exact Hself|exact B]];
         intros [| | |] st1 H; [exact H|destruct H|exact H|exact H]);
    try (simpl; right; split; [exact B|eauto]);
    try (apply quota_onAttemptError; exact B).
Qed.

Lemma quota_attemptLoop (fuel : nat) (self : Prog unit) (key : Key)
    (agent : Agent) (session : Session) (retryCount : Z) (st : St) :
  neverEnds self ->
  belowQuota st ->
  wp delaysResolve quotaGuard
     (attemptLoop config zone fuel self key agent session retryCount)
     loopOutcome st.
Proof.
  intros Hself; revert retryCount st.
  induction fuel as [|fuel IH]; intros retryCount st B; cbn [attemptLoop].
  - left; reflexivity.
  - destruct (retryCount <? maxRetries); [|right; auto].
    apply wp_bind. eapply wp_mono; [|apply quota_attempt; assumption].
    intros r st1 [->|[B1 [->|[rc ->]]]].
    + left; reflexivity.
    + right; auto.
    + apply IH; exact B1.
Qed.

Lemma quota_matchSessions (fuel : nat) (self : Prog unit) (key : Key)
    (agent : Agent) (sessions : list Session) (st : St) :
  neverEnds self ->
  belowQuota st ->
  wp delaysResolve quotaGuard
     (matchSessions config zone fuel self key agent sessions)
     loopOutcome st.
Proof.
  intros Hself; revert st.
  induction sessions as [|session rest IH]; intros st B; cbn [matchSessions].
  - right; auto.
  - destruct (String.eqb _ _); [|apply IH; exact B].
    destruct (negb (automationEnabled agent)).
    + apply wp_bind. eapply wp_mono; [|apply quota_attemptLoop; assumption].
      intros r st1 [->|[-> B1]].
      * left; reflexivity.
      * apply IH; exact B1.
    + simpl. split; [quota_guard|]. apply IH; exact B.
Qed.

Lemma quota_hydrate (key : Key) (st : St) :
  wp delaysResolve quotaGuard (hydrate key)
     (fun r st' =>
        match r with
        | Returned _ => globals st' = globals st
        | Threw _ => True
        | _ => False
        end) st.
Proof.
  unfold hydrate; simpl.
  repeat (let o := fresh "o" in
          intros o _; split; [quota_guard|]; destruct o; simpl; auto).
  repeat (split; [quota_guard|]). reflexivity.
Qed.

Lemma quota_onWalletError (self : Prog unit) (error : Error) :
  neverEnds self -> neverEnds (onWalletError self error).
Proof.
  intros Hself st; unfold onWalletError.
  cbn [wp bind toolsLog emit await]. split; [quota_guard|].
  intros o Ho; simpl in Ho; subst o. split; [quota_guard|].
  cbn [bind]. apply Hself.
Qed.

Lemma quota_walletIteration (fuel : nat) (self : Prog unit) (key : Key) (st : St) :
  neverEnds self ->
  wp delaysResolve quotaGuard
     (walletIteration config msToTime zone fuel self key)
     (fun r _ => r = OutOfFuel \/ exists e, r = Threw e) st.
Proof.
  intros Hself; unfold walletIteration.
  cbn [wp bind getSessionCount].
  destruct (6 <=? sessionCount (globals st)) eqn:L.
  - cbn [wp bind toolsLog emit]. split; [quota_guard|].
    apply wp_bind. eapply wp_mono; [|apply quota_handleSessionLimit].
    intros r st1 (-> & _ & _).
    eapply wp_mono; [|apply Hself]. intros r st2 ->; auto.
  - apply Z.leb_gt in L.
    apply wp_bind. eapply wp_mono; [|apply quota_hydrate].
    intros [[agents sessions]|e| |] st1 H;
      [|right; eauto|destruct H|destruct H].
    destruct (Nat.eqb _ _).
    + cbn [wp bind await]. intros o Ho; simpl in Ho; subst o.
      split; [quota_guard|]. simpl; eauto.
    + destruct (find _ agents) as [targetAgent|]; [|simpl; eauto].
      apply wp_bind.
      eapply wp_mono; [|apply quota_matchSessions; [exact Hself|]].
      * intros r st2 [->|[-> B2]]; [left; reflexivity|].
        unfold coolDown. cbn [wp bind await].
        intros o Ho; simpl in Ho; subst o. split; [quota_guard|].
        cbn [bind]. eapply wp_mono; [|apply Hself]. intros r st3 ->; auto.
      * unfold belowQuota; rewrite H; exact L.
Qed.

Lemma quota_runWallet (fuel : nat) (key : Key) :
  neverEnds (runWallet config msToTime zone fuel key).
Proof.
  induction fuel as [|fuel IH]; intros st; cbn [runWallet].
  - reflexivity.
  - apply wp_tryCatch.
    eapply wp_mono; [|apply quota_walletIteration; exact IH].
    intros r st1 [->|[e ->]]; [reflexivity|].
    apply quota_onWalletError; exact IH.
Qed.

End Quota.

Transparent handleSessionLimit.

(** ** The wait for the next hour comes first *)




Lemma pays_tryCatch {A : Type} (p : Prog A) (h : Error -> Prog A) :
  paysFirst p -> (forall e, paysFirst (h e)) -> paysFirst (tryCatch p h).
Proof.
  intros Hp Hh st U. apply wp_tryCatch.
  eapply wp_mono; [|apply Hp; exact U].
  intros [a|e| |c] st1 [D|N]; try discriminate; simpl; auto.
  apply Hh; exact N.
Qed.




Opaque handleSessionLimit.

Section Gate.

Variable config : Config.
Variable msToTime : Z -> string.
Variable zone : TimeZone.











End Gate.

Transparent handleSessionLimit.

(** ** Histories read in the order of time *)

Lemma nth_error_rev_adjacent {X : Type} (h : list X) (i : nat) (x y : X) :
  nth_error (rev h) i = Some x ->
  nth_error (rev h) (S i) = Some y ->
  exists newer older, h = (newer ++ y :: x :: older)%list.
Proof.
  intros Hx Hy.
  destruct (nth_error_split _ _ Hy) as (l1 & l2 & E & Hlen).
  destruct (rev l1) as [|z l1'] eqn:R.
  - apply (f_equal (@List.length X)) in R. rewrite length_rev in R.
    simpl in R; lia.
  - assert (E1 : l1 = (rev l1' ++ [z])%list).
    { rewrite <- (rev_involutive l1), R; reflexivity. }
    subst l1. rewrite E in Hx.
    rewrite <- app_assoc in Hx. simpl in Hx.
    rewrite length_app in Hlen; simpl in Hlen.
    rewrite nth_error_app2 in Hx by lia.
    replace (i - List.length (rev l1'))%nat with O in Hx by lia.
    simpl in Hx. injection Hx as ->.
    exists (rev l2), l1'.
    rewrite <- (rev_involutive h), E.
    rewrite rev_app_distr. simpl.
    rewrite rev_app_distr, rev_involutive. simpl.
    rewrite <- !app_assoc. reflexivity.
Qed.

Lemma guarded_app (guard : list Entry -> Globals -> Event -> Prop)
    (newer older : list Entry) :
  guarded guard (newer ++ older) -> guarded guard older.
Proof.
  induction newer as [|[g e] newer IH]; simpl; auto.
  intros [_ H]; auto.
Qed.

(** In a history recorded by the rule, each entry follows from the one
    before it. *)
Lemma guarded_step (h : list Entry) (i : nat) (g1 g2 : Globals) (e1 e2 : Event) :
  guarded stepGuard h ->
  nth_error (rev h) i = Some (g1, e1) ->
  nth_error (rev h) (S i) = Some (g2, e2) ->
  counterStep g1 e1 g2.
Proof.
  intros G H1 H2.
  destruct (nth_error_rev_adjacent _ _ _ _ H1 H2) as (newer & older & ->).
  apply guarded_app in G. simpl in G. destruct G as [G _]. exact G.
Qed.




Lemma respects_any (env : Env) : respects anyAnswer env.
Proof. intros op i; exact I. Qed.

Lemma respects_delays (env : Env) :
  (forall i, delays env i = Ok tt) -> respects delaysResolve env.
Proof. intros H op i; destruct op; simpl; auto. Qed.





(** ** One turn of the retry loop *)

Lemma events_record (e : Event) (st : St) :
  events (record e st) = (events st ++ [e])%list.
Proof. unfold events, trace; simpl. rewrite map_app; reflexivity. Qed.

Lemma events_setGlobals (g : Globals) (st : St) :
  events (setGlobals g st) = events st.
Proof. reflexivity. Qed.

Lemma events_recordAll (es : list Event) (st : St) :
  events (recordAll es st) = (events st ++ es)%list.
Proof.
  revert st; induction es as [|e es IH]; intros st; simpl.
  - rewrite app_nil_r; reflexivity.
  - rewrite IH, events_record, <- app_assoc; reflexivity.
Qed.

Lemma globals_recordAll (es : list Event) (st : St) :
  globals (recordAll es st) = globals st.
Proof. revert st; induction es as [|e es IH]; intros st; simpl; auto. rewrite IH; reflexivity. Qed.

Lemma recordAll_app (es1 es2 : list Event) (st : St) :
  recordAll (es1 ++ es2) st = recordAll es2 (recordAll es1 st).
Proof. revert st; induction es1 as [|e es IH]; intros st; simpl; auto. Qed.

Section Attempts.

Variable config : Config.
Variable zone : TimeZone.
Variable env : Env.
Variable self : Prog unit.
Variable key : Key.
Variable agent : Agent.
Variable session : Session.

Local Abbreviation op := (startOp config key agent session).

Lemma run_startCall (st : St) :
  run env (startCall config key agent session) st =
  (match starts env (calls MStart (history st)) with
   | Ok b => Returned b
   | Err e => Threw e
   end,
   record (EvCall op (startReply (starts env (calls MStart (history st))))) st).
Proof.
  unfold startOp, startCall. destruct (isAutoMatch config); simpl;
    destruct (starts env (calls MStart (history st))); reflexivity.
Qed.

Lemma methodOf_start : methodOf op = MStart.
Proof. unfold startOp; destruct (isAutoMatch config); reflexivity. Qed.

(** The start call throws and the retry budget is not used up: a log line,
    ten seconds, and one more turn. *)
Lemma attempt_throws (retryCount : Z) (error : Error) (st : St) :
  starts env (calls MStart (history st)) = Err error ->
  delays env (calls MDelay (history st)) = Ok tt ->
  retryCount + 1 < maxRetries ->
  run env (attempt config zone self key agent session retryCount) st
  = (Returned (Continue (retryCount + 1)),
     recordAll
       [ EvCall op (Rejected error);
         EvLog ToolsLog ("Attempt " ++ show (retryCount + 1) ++ "/3: " ++ error);
         EvCall (Delay 10000 "Waiting before retrying...") (Fulfilled false) ]
       st).
Proof.
  intros Hs Hd Hr. unfold attempt.
  rewrite run_tryCatch, run_bind, run_startCall, Hs.
  unfold onAttemptError. apply Z.leb_gt in Hr. rewrite Hr.
  cbn -[String.append show]. rewrite methodOf_start.
  cbn -[String.append show]. rewrite Hd. reflexivity.
Qed.

(** The start call throws for the third time: two log lines and the loop
    is left. *)
Lemma attempt_throws_last (retryCount : Z) (error : Error) (st : St) :
  starts env (calls MStart (history st)) = Err error ->
  maxRetries <= retryCount + 1 ->
  run env (attempt config zone self key agent session retryCount) st
  = (Returned (Leave LoopDone),
     recordAll
       [ EvCall op (Rejected error);
         EvLog ToolsLog ("Attempt " ++ show (retryCount + 1) ++ "/3: " ++ error);
         EvLog ToolsLog "Failed to start match after 3 attempts. Skipping..." ]
       st).
Proof.
  intros Hs Hr. unfold attempt.
  rewrite run_tryCatch, run_bind, run_startCall, Hs.
  unfold onAttemptError. apply Z.leb_le in Hr. rewrite Hr.
  reflexivity.
Qed.

(** The start call returns a falsy value: nothing else happens and the
    retry counter stays as it is. *)
Lemma attempt_falsy (retryCount : Z) (st : St) :
  starts env (calls MStart (history st)) = Ok false ->
  run env (attempt config zone self key agent session retryCount) st
  = (Returned (Continue retryCount), record (EvCall op (Fulfilled false)) st).
Proof.
  intros Hs. unfold attempt.
  rewrite run_tryCatch, run_bind, run_startCall, Hs.
  reflexivity.
Qed.

Lemma attempt_truthy (retryCount : Z) (st : St) :
  starts env (calls MStart (history st)) = Ok true ->
  delays env (calls MDelay (history st)) = Ok tt ->
  sessionCount (globals st) + 1 < 6 ->
  run env (attempt config zone self key agent session retryCount) st
  = (Returned (Leave LoopDone), started env op st).
Proof.
  intros Hs Hd Hc. unfold attempt.
  rewrite run_tryCatch, run_bind, run_startCall, Hs.
  unfold onStarted. apply Z.leb_gt in Hc.
  cbn -[String.append show handleSessionLimit Z.add].
  rewrite Hc.
  cbn -[String.append show handleSessionLimit Z.add].
  rewrite methodOf_start. cbn -[String.append show Z.add].
  rewrite Hd. reflexivity.
Qed.

(** The start call returns a truthy value that brings the counter to the
    quota: the bookkeeping, the wait for the next hour, the reset, and then
    [self], still inside the [try]. *)
Lemma attempt_exhausts (retryCount : Z) (st : St) :
  starts env (calls MStart (history st)) = Ok true ->
  delays env (calls MDelay (history st)) = Ok tt ->
  6 <= sessionCount (globals st) + 1 ->
  run env (attempt config zone self key agent session retryCount) st
  = run env (tryCatch (self ;; Ret (Leave FnReturn)) (onAttemptError retryCount))
        (exhausted env zone op st).
Proof.
  intros Hs Hd Hc. unfold attempt.
  rewrite !run_tryCatch, run_bind, run_startCall, Hs.
  assert (P : forall t, (0 <? remainingTimeAt zone t) = true).
  { intros t. apply Z.ltb_lt. apply remainingTimeAt_pos. }
  assert (E : run env (onStarted zone self)
                (record (EvCall op (startReply (Ok true))) st)
              = run env (self ;; Ret (Leave FnReturn))
                    (exhausted env zone op st)).
  { unfold onStarted, handleSessionLimit. apply Z.leb_le in Hc.
    cbn -[String.append show Z.add remainingTimeAt ceilDiv].
    rewrite Hc.
    cbn -[String.append show Z.add remainingTimeAt ceilDiv].
    rewrite ?methodOf_start.
    cbn -[String.append show Z.add remainingTimeAt ceilDiv].
    rewrite ?P.
    cbn -[String.append show Z.add remainingTimeAt ceilDiv].
    rewrite ?methodOf_start.
    cbn -[String.append show Z.add remainingTimeAt ceilDiv].
    rewrite Hd.
    reflexivity. }
  cbv iota. rewrite E. reflexivity.
Qed.

End Attempts.

(** ** The retry loop *)

Section RetryLoop.

Variable config : Config.
Variable zone : TimeZone.
Variable env : Env.
Variable self : Prog unit.
Variable key : Key.
Variable agent : Agent.
Variable session : Session.

Local Abbreviation op := (startOp config key agent session).

Lemma calls_recordAll_failed (m : Method) (i : Z) (e : Error) (st : St) :
  calls m (history (recordAll (failedAttempt op i e) st))
  = (calls m (history st)
     + (if Method_eqb m MStart then 1 else 0)
     + (if Method_eqb m MDelay then 1 else 0))%nat.
Proof.
  unfold failedAttempt.
  cbn [recordAll record history calls globals].
  rewrite (methodOf_start config key agent session).
  destruct m; simpl; lia.
Qed.

(** One failed attempt that is not the last. *)
Lemma attemptLoop_retry (fuel : nat) (retryCount : Z) (error : Error) (st : St) :
  starts env (calls MStart (history st)) = Err error ->
  delays env (calls MDelay (history st)) = Ok tt ->
  0 <= retryCount -> retryCount + 1 < maxRetries ->
  run env (attemptLoop config zone (S fuel) self key agent session retryCount) st
  = run env (attemptLoop config zone fuel self key agent session (retryCount + 1))
        (recordAll (failedAttempt op (retryCount + 1) error) st).
Proof.
  intros Hs Hd H0 Hr. cbn [attemptLoop].
  assert (L : (retryCount <? maxRetries) = true) by (apply Z.ltb_lt; lia).
  rewrite L, run_bind.
  rewrite (attempt_throws config zone env self key agent session
             retryCount error st Hs Hd Hr).
  reflexivity.
Qed.

Lemma attemptLoop_give_up (fuel : nat) (error : Error) (st : St) :
  starts env (calls MStart (history st)) = Err error ->
  run env (attemptLoop config zone (S fuel) self key agent session 2) st
  = (Returned LoopDone, recordAll (lastFailedAttempt op error) st).
Proof.
  intros Hs. cbn [attemptLoop].
  change (2 <? maxRetries) with true. cbv iota. rewrite run_bind.
  rewrite (attempt_throws_last config zone env self key agent session
             2 error st Hs ltac:(unfold maxRetries; lia)).
  reflexivity.
Qed.

Lemma attemptLoop_started (fuel : nat) (retryCount : Z) (st : St) :
  starts env (calls MStart (history st)) = Ok true ->
  delays env (calls MDelay (history st)) = Ok tt ->
  retryCount < maxRetries ->
  sessionCount (globals st) + 1 < 6 ->
  run env (attemptLoop config zone (S fuel) self key agent session retryCount) st
  = (Returned LoopDone, started env op st).
Proof.
  intros Hs Hd Hr Hc. cbn [attemptLoop].
  apply Z.ltb_lt in Hr. rewrite Hr, run_bind.
  rewrite (attempt_truthy config zone env self key agent session
             retryCount st Hs Hd Hc).
  reflexivity.
Qed.

Lemma attemptLoop_spins (fuel : nat) (retryCount : Z) (st : St) :
  retryCount < maxRetries ->
  (forall i, starts env (calls MStart (history st) + i) = Ok false) ->
  run env (attemptLoop config zone fuel self key agent session retryCount) st
  = (OutOfFuel, recordAll (repeat (EvCall op (Fulfilled false)) fuel) st).
Proof.
  intros Hr; revert st; induction fuel as [|fuel IH]; intros st Hs.
  - reflexivity.
  - cbn [attemptLoop]. pose proof Hr as L. apply Z.ltb_lt in L.
    rewrite L, run_bind.
    rewrite (attempt_falsy config zone env self key agent session
               retryCount st).
    + rewrite IH; [reflexivity|].
      intros i. cbn [record history calls].
      rewrite (methodOf_start config key agent session).
      cbn [Method_eqb]. replace (S (calls MStart (history st)) + i)%nat
        with (calls MStart (history st) + S i)%nat by lia.
      apply Hs.
    + rewrite <- (Hs O). f_equal; lia.
Qed.

Lemma clockReads_recordAll_failed (i : Z) (e : Error) (st : St) :
  clockReads (history (recordAll (failedAttempt op i e) st))
  = clockReads (history st).
Proof.
  unfold startOp, failedAttempt. destruct (isAutoMatch config); reflexivity.
Qed.

Lemma events_started (st : St) :
  events (started env op st)
  = (events st
     ++ startedEvents op (clock env (clockReads (history st)))
                      (sessionCount (globals st) + 1))%list.
Proof.
  unfold started, startedEvents, events, trace.
  cbn [recordAll record setGlobals history globals rev].
  rewrite !map_app. cbn [map snd]. rewrite <- !app_assoc. reflexivity.
Qed.

Lemma startCalls_app (es1 es2 : list Event) :
  startCalls (es1 ++ es2) = (startCalls es1 + startCalls es2)%nat.
Proof. unfold startCalls. rewrite filter_app, length_app. reflexivity. Qed.

Lemma backoffWaits_app (es1 es2 : list Event) :
  backoffWaits (es1 ++ es2) = (backoffWaits es1 ++ backoffWaits es2)%list.
Proof.
  induction es1 as [|e es1 IH]; simpl; auto.
  destruct e as [| | |[] rep]; auto.
  destruct (String.eqb _ _); simpl; rewrite IH; reflexivity.
Qed.

Lemma count_failedAttempt (i : Z) (e : Error) :
  startCalls (failedAttempt op i e) = 1%nat
  /\ backoffWaits (failedAttempt op i e) = [10000].
Proof.
  unfold startOp, failedAttempt, startCalls.
  destruct (isAutoMatch config); split; reflexivity.
Qed.

Lemma count_lastFailedAttempt (e : Error) :
  startCalls (lastFailedAttempt op e) = 1%nat
  /\ backoffWaits (lastFailedAttempt op e) = [].
Proof.
  unfold startOp, lastFailedAttempt, startCalls.
  destruct (isAutoMatch config); split; reflexivity.
Qed.

Lemma count_startedEvents (t c : Z) :
  startCalls (startedEvents op t c) = 1%nat
  /\ backoffWaits (startedEvents op t c) = [].
Proof.
  unfold startOp, startedEvents, startCalls.
  destruct (isAutoMatch config); split; reflexivity.
Qed.

Lemma count_failedAttempts (errors : nat -> Error) (n : nat) :
  startCalls (failedAttempts op errors n) = n
  /\ backoffWaits (failedAttempts op errors n) = repeat 10000 n.
Proof.
  induction n as [|n [IH1 IH2]]; [split; reflexivity|].
  cbn [failedAttempts].
  destruct (count_failedAttempt (Z.of_nat (S n)) (errors n)) as [C1 C2].
  rewrite startCalls_app, backoffWaits_app, IH1, IH2, C1, C2.
  split; [lia|].
  clear. induction n as [|n IH]; simpl; [reflexivity|]. f_equal; exact IH.
Qed.





(** [N] failed attempts, fewer than three, and the loop is at its next
    turn. *)
Lemma attemptLoop_failures (N fuel : nat) (errors : nat -> Error) (st : St) :
  (N < 3)%nat ->
  (forall i, delays env i = Ok tt) ->
  (forall i, (i < N)%nat ->
             starts env (calls MStart (history st) + i) = Err (errors i)) ->
  run env (attemptLoop config zone (N + fuel) self key agent session 0) st
  = run env (attemptLoop config zone fuel self key agent session (Z.of_nat N))
        (recordAll (failedAttempts op errors N) st)
  /\ calls MStart (history (recordAll (failedAttempts op errors N) st))
     = (calls MStart (history st) + N)%nat
  /\ clockReads (history (recordAll (failedAttempts op errors N) st))
     = clockReads (history st).
Proof.
  intros HN Hd Hs.
  destruct N as [|[|[|N]]]; [| | |lia].
  - split; [reflexivity|split; [simpl; lia|reflexivity]].
  - pose proof (Hs O ltac:(lia)) as H0. rewrite Nat.add_0_r in H0.
    cbn [Nat.add failedAttempts app].
    rewrite (attemptLoop_retry fuel 0 _ st H0 (Hd _))
      by (unfold maxRetries; lia).
    split; [reflexivity|].
    rewrite calls_recordAll_failed, clockReads_recordAll_failed.
    split; [simpl; lia|reflexivity].
  - pose proof (Hs O ltac:(lia)) as H0. rewrite Nat.add_0_r in H0.
    pose proof (Hs 1%nat ltac:(lia)) as H1.
    cbn [Nat.add failedAttempts app]. rewrite recordAll_app.
    rewrite (attemptLoop_retry (S fuel) 0 _ st H0 (Hd _))
      by (unfold maxRetries; lia).
    rewrite (attemptLoop_retry fuel 1 (errors 1%nat) _) by
      (first [ apply Hd | unfold maxRetries; lia
             | rewrite calls_recordAll_failed; simpl; rewrite <- H1; f_equal; lia ]).
    split; [reflexivity|].
    rewrite !calls_recordAll_failed, !clockReads_recordAll_failed.
    split; [simpl; lia|reflexivity].
Qed.

End RetryLoop.


(** C9.  While the start function returns a falsy value without throwing,
    the retry loop goes round without end: whatever budget it is given it
    uses it up, making one start call per turn and nothing else - no log
    line, no backoff wait, no change of the variables - and after any number
    of turns it is the same loop with the same retry counter.  So the loop
    over the sessions never gets past a session that matches an agent
    without automation. *)
Theorem falsy_start_spins :
  forall (config : Config) (zone : TimeZone) (env : Env) (fuel : nat)
         (self : Prog unit) (key : Key) (agent : Agent) (session : Session)
         (retryCount : Z) (st : St),
    retryCount < maxRetries ->
    (forall i, starts env (calls MStart (history st) + i) = Ok false) ->
    let op := startOp config key agent session in
    let loop n c := attemptLoop config zone n self key agent session c in
    let r := run env (loop fuel retryCount) st in
    fst r = OutOfFuel
    /\ events (snd r) = (events st ++ repeat (EvCall op (Fulfilled false)) fuel)%list
    /\ globals (snd r) = globals st
    /\ backoffWaits (repeat (EvCall op (Fulfilled false)) fuel) = []
    /\ (forall n m,
          run env (loop (n + m)%nat retryCount) st
          = run env (loop m retryCount)
                (recordAll (repeat (EvCall op (Fulfilled false)) n) st))
    /\ (forall rest,
          sessionType (agentSessionType agent)
            = sessionType (sessionSessionType session) ->
          automationEnabled agent = false ->
          run env (matchSessions config zone fuel self key agent
                     (session :: rest)) st
          = (OutOfFuel, snd (run env (loop fuel 0) st))).
Proof.
  intros config zone env fuel self key agent session retryCount st Hr Hs op loop r.
  assert (R : forall n c st0,
             c < maxRetries ->
             (forall i, starts env (calls MStart (history st0) + i) = Ok false) ->
             run env (loop n c) st0
             = (OutOfFuel, recordAll (repeat (EvCall op (Fulfilled false)) n) st0)).
  { intros n c st0 Hc Hs0. apply attemptLoop_spins; assumption. }
  assert (S' : forall n,
             forall i, starts env
               (calls MStart
                  (history (recordAll (repeat (EvCall op (Fulfilled false)) n) st)) + i)
               = Ok false).
  { intros n. clear r R. revert st Hs. induction n as [|n IH]; intros st0 Hs0 i; [apply Hs0|].
    cbn [repeat recordAll]. apply IH. intros j.
    unfold op. cbn [record history calls].
    rewrite (methodOf_start config key agent session). cbn [Method_eqb].
    replace (S (calls MStart (history st0)) + j)%nat
      with (calls MStart (history st0) + S j)%nat by lia.
    apply Hs0. }
  unfold r. rewrite (R fuel retryCount st Hr Hs). cbn [fst snd].
  split; [reflexivity|]. split; [apply events_recordAll|].
  split; [apply globals_recordAll|]. split.
  { clear. unfold op, startOp. destruct (isAutoMatch config);
      induction fuel as [|fuel IH]; simpl; auto. }
  split.
  - intros n m. rewrite (R (n + m)%nat retryCount st Hr Hs).
    rewrite (R m retryCount _ Hr (S' n)).
    rewrite repeat_app, recordAll_app. reflexivity.
  - intros rest Ht Ha. cbn [matchSessions].
    rewrite Ht, String.eqb_refl, Ha. cbn [negb]. rewrite run_bind.
    fold (loop fuel 0).
    rewrite (R fuel 0 st ltac:(unfold maxRetries; lia) Hs). reflexivity.
Qed.

(** C6.  Along a run of [runWallet], in any environment, the counter read
    at an event is one more than at the event before when that was a start
    call with a truthy result, and the same when that was anything else but
    the end of the wait for the next hour - in particular after a start call
    that threw or returned a falsy value; the variables at the end of the
    run agree with the last event in the same way.  For an agent that has
    automation enabled the loop over the sessions makes no call at all: it
    writes one log line per matching session and leaves the variables as
    they are. *)
Theorem counter_counts_truthy_starts :
  forall (config : Config) (msToTime : Z -> string) (zone : TimeZone)
         (env : Env) (fuel : nat) (key : Key) (g : Globals),
    let st' := snd (run env (runWallet config msToTime zone fuel key)
                      (mkSt g [])) in
    (forall i g1 e1 g2 e2,
        nth_error (trace st') i = Some (g1, e1) ->
        nth_error (trace st') (S i) = Some (g2, e2) ->
        (isTruthyStart e1 = true -> sessionCount g2 = sessionCount g1 + 1)
        /\ (isStartCall e1 = true -> isTruthyStart e1 = false ->
            sessionCount g2 = sessionCount g1)
        /\ (isTruthyStart e1 = false -> isResetWaitDone e1 = false ->
            sessionCount g2 = sessionCount g1))
    /\ (forall g1 e1, nth_error (history st') O = Some (g1, e1) ->
                      counterStep g1 e1 (globals st'))
    /\ (forall self agent sessions st,
          automationEnabled agent = true ->
          exists n,
            run env (matchSessions config zone fuel self key agent sessions) st
            = (Returned LoopDone,
               recordAll
                 (repeat (EvLog ToolsLog "Already automated, skip to next agent...") n)
                 st)).
Proof.
  intros config msToTime zone env fuel key g st'.
  destruct (wp_sound anyAnswer stepGuard env
              (runWallet config msToTime zone fuel key)
              (fun _ st' => upToDate st') (mkSt g [])
              (respects_any env) I
              (keeps_runWallet config msToTime zone fuel key (mkSt g []) I))
    as [U G].
  fold st' in U, G.
  split; [|split].
  - intros i g1 e1 g2 e2 N1 N2.
    pose proof (guarded_step _ _ _ _ _ _ G N1 N2) as CS.
    unfold counterStep in CS.
    assert (X : isStartCall e1 = true -> isResetWaitDone e1 = false).
    { destruct e1 as [| | |[] rep]; simpl; try discriminate; auto. }
    destruct (isTruthyStart e1); [repeat split; intros; try discriminate; exact CS|].
    destruct (isResetWaitDone e1).
    + repeat split; intros; try discriminate. specialize (X H); discriminate.
    + repeat split; intros; auto; discriminate.
  - intros g1 e1 N. unfold upToDate, stepGuard in U.
    destruct (history st') as [|[g0 e0] h]; [discriminate|].
    injection N as <- <-. exact U.
  - intros self agent sessions st Ha.
    revert st; induction sessions as [|session rest IH]; intros st.
    + exists O; reflexivity.
    + cbn [matchSessions]. rewrite Ha. cbn [negb].
      destruct (String.eqb _ _).
      * rewrite run_bind. cbn [run toolsLog emit].
        destruct (IH (record (EvLog ToolsLog "Already automated, skip to next agent...") st))
          as [n E].
        exists (S n). rewrite E. reflexivity.
      * apply IH.
Qed.

(** C3 as the code has it.  When the delay runs to its end,
    [handleSessionLimit] returns with the counter at 0 and the last time at
    [null]; when the delay is rejected, the error is thrown on to the caller
    and the two variables are left as they were. *)
Theorem handleSessionLimit_resets_after_wait :
  forall (zone : TimeZone) (env : Env) (st : St),
    let r := run env (handleSessionLimit zone) st in
    match delays env (calls MDelay (history st)) with
    | Ok _ =>
        fst r = Returned tt
        /\ sessionCount (globals (snd r)) = 0
        /\ lastSessionTime (globals (snd r)) = None
    | Err e =>
        fst r = Threw e /\ globals (snd r) = globals st
    end.
Proof.
  intros zone env st r. unfold r, handleSessionLimit. simpl.
  pose proof (remainingTimeAt_pos zone (clock env (clockReads (history st))))
    as P.
  apply Z.ltb_lt in P. rewrite P. simpl.
  destruct (delays env (calls MDelay (history st))); simpl; auto.
Qed.

(** ** Several wallets *)

(** C7.  The two variables belong to the process, not to a wallet.  Let a
    wallet with key [key1] wait for a start call that then returns a truthy
    value: the shared counter goes up by one and the shared time stamp is
    set.  A wallet with any other key [key2] that now enters [runWallet]
    reads that same counter at its gate: if it has reached 6 the second
    wallet writes that the limit is reached and waits for the next hour
    without having connected or started anything, although none of the
    sessions counted was its own; below 6 it goes on and connects. *)
Theorem wallets_share_the_counter :
  forall (config : Config) (msToTime : Z -> string) (zone : TimeZone) (env : Env)
         (key1 key2 : Key) (agent : Agent) (session : Session)
         (fuel1 fuel2 : nat) (self : Prog unit) (retryCount : Z) (st : St),
    retryCount < maxRetries ->
    starts env (calls MStart (history st)) = Ok true ->
    exists s1,
      advance env (attemptLoop config zone (S fuel1) self key1 agent
                     session retryCount) st = (Pending s1, st)
      /\ pendingOp s1 = startOp config key1 agent session
      /\ let st1 := snd (resume env s1 st) in
         let wallet2 := advance env
                          (runWallet config msToTime zone (S fuel2) key2) st1 in
         sessionCount (globals st1) = sessionCount (globals st) + 1
         /\ lastSessionTime (globals st1)
            = Some (clock env (clockReads (history st)))
         /\ globals (snd wallet2) = globals st1
         /\ (6 <= sessionCount (globals st) + 1 ->
             exists s2 ms now,
               fst wallet2 = Pending s2
               /\ pendingOp s2 = Delay ms resetWaitMsg
               /\ events (snd wallet2)
                  = (events st1
                     ++ [ EvLog ToolsLog
                            ("Session limit reached ("
                             ++ show (sessionCount (globals st) + 1)
                             ++ "/6). Waiting for the next hour...");
                          EvNow now;
                          EvLog ToolsLog
                            ("Session limit reached ("
                             ++ show (sessionCount (globals st) + 1)
                             ++ "/6). Waiting for "
                             ++ show (ceilDiv ms 60000)
                             ++ " minutes until the next hour...") ])%list)
         /\ (sessionCount (globals st) + 1 < 6 ->
             exists s2,
               fst wallet2 = Pending s2
               /\ pendingOp s2 = Connect key2
               /\ snd wallet2 = st1).
Proof.
  intros config msToTime zone env key1 key2 agent session fuel1 fuel2
         self retryCount st Hr Hs.
  apply Z.ltb_lt in Hr.
  assert (P : forall t, (0 <? remainingTimeAt zone t) = true).
  { intros t. apply Z.ltb_lt. apply remainingTimeAt_pos. }
  cbn [attemptLoop]. rewrite Hr.
  unfold attempt, startCall, startOp.
  destruct (isAutoMatch config);
    cbn [bind tryCatch await advance];
    (eexists; split; [reflexivity|]; split; [reflexivity|]);
    unfold resume; cbn [pendingOp resumeWith answer methodOf];
    rewrite Hs; cbn -[String.append show Z.add Z.leb remainingTimeAt];
    destruct (6 <=? sessionCount (globals st) + 1) eqn:L;
    cbn -[String.append show Z.add Z.leb remainingTimeAt];
    rewrite ?P;
    cbn -[String.append show Z.add Z.leb remainingTimeAt];
    rewrite ?L;
    cbn -[String.append show Z.add Z.leb remainingTimeAt];
    rewrite ?P;
    cbn -[String.append show Z.add Z.leb remainingTimeAt];
    (repeat split; try reflexivity);
    try (intros H; apply Z.leb_gt in L; lia);
    try (intros H; apply Z.leb_le in L; lia).
  all: intros _.
  all: try (do 3 eexists; split; [reflexivity|]; split; [reflexivity|];
            unfold events, trace;
            cbn -[String.append show Z.add Z.leb remainingTimeAt];
            rewrite !map_app; cbn -[String.append show Z.add Z.leb remainingTimeAt];
            rewrite <- !app_assoc; reflexivity).
  all: eexists; split; [reflexivity|]; split; reflexivity.
Qed.

(** ** The supervisor *)

(** A round that finds no key ends in the restart of line 188. *)
Lemma startBot_restarts (env : Env) (fuel : nat) (st : St) :
  noKeys (files env (calls MReadFile (history st))) ->
  delays env (calls MDelay (history st)) = Ok tt ->
  run env (startBot (S fuel)) st
  = run env (startBot fuel)
        (recordAll (failedRound (files env (calls MReadFile (history st)))) st).
Proof.
  intros Hk Hd. cbn [startBot].
  rewrite run_tryCatch.
  cbn [bind emit displayLog run].
  rewrite run_bind, run_loadKeys.
  cbn [record history calls].
  destruct (files env (calls MReadFile (history st))) as [content|e];
    cbn [noKeys] in Hk.
  - rewrite Hk.
    cbn -[String.append]. rewrite Hd. reflexivity.
  - cbn -[String.append]. rewrite Hd. reflexivity.
Qed.

Lemma calls_failedRound (m : Method) (read : Outcome JsString) (st : St) :
  calls m (history (recordAll (failedRound read) st))
  = (calls m (history st)
     + (if Method_eqb m MReadFile then 1 else 0)
     + (if Method_eqb m MDelay then 1 else 0))%nat.
Proof. destruct m; simpl; lia. Qed.

Lemma startBot_never_exits (env : Env) (fuel : nat) (st : St) :
  (forall i, noKeys (files env i)) ->
  (forall i, delays env i = Ok tt) ->
  fst (run env (startBot fuel) st) = OutOfFuel
  /\ calls MReadFile (history (snd (run env (startBot fuel) st)))
     = (calls MReadFile (history st) + fuel)%nat
  /\ calls MDelay (history (snd (run env (startBot fuel) st)))
     = (calls MDelay (history st) + fuel)%nat.
Proof.
  intros Hk Hd; revert st; induction fuel as [|fuel IH]; intros st.
  - simpl. repeat split; lia.
  - rewrite startBot_restarts by auto.
    destruct (IH (recordAll (failedRound (files env (calls MReadFile (history st)))) st))
      as (R & C1 & C2).
    rewrite R, C1, C2, !calls_failedRound. simpl. repeat split; lia.
Qed.

(** C4 as the code has it.  When [data.txt] cannot be read, or holds no
    key, the supervisor does not leave the process: it reports a critical
    error, waits five seconds and starts again, reading the file once more.
    The process exits with status 1 only when the wait before the restart
    itself fails.  While the file stays that way and the waits run to their
    end this goes on for ever, one read and one wait per round. *)
Theorem startBot_restarts_without_keys :
  forall (env : Env) (fuel : nat) (st : St),
    let read := files env (calls MReadFile (history st)) in
    noKeys read ->
    (delays env (calls MDelay (history st)) = Ok tt ->
       run env (main (S fuel)) st
       = run env (main fuel) (recordAll (failedRound read) st))
    /\ (forall e, delays env (calls MDelay (history st)) = Err e ->
          fst (run env (main (S fuel)) st) = Exited 1)
    /\ ((forall i, noKeys (files env i)) -> (forall i, delays env i = Ok tt) ->
        fst (run env (main fuel) st) = OutOfFuel
        /\ calls MReadFile (history (snd (run env (main fuel) st)))
           = (calls MReadFile (history st) + fuel)%nat
        /\ calls MDelay (history (snd (run env (main fuel) st)))
           = (calls MDelay (history st) + fuel)%nat).
Proof.
  intros env fuel st read Hk. split; [|split].
  - intros Hd. unfold main. rewrite !run_tryCatch.
    rewrite startBot_restarts by auto. reflexivity.
  - intros e He. unfold main. rewrite run_tryCatch.
    cbn [startBot]. rewrite run_tryCatch.
    cbn [bind emit displayLog run].
    rewrite run_bind, run_loadKeys. cbn [record history calls].
    unfold read in Hk.
    destruct (files env (calls MReadFile (history st))) as [content|e'];
      cbn [noKeys] in Hk.
    + rewrite Hk. cbn -[String.append]. rewrite He. reflexivity.
    + cbn -[String.append]. rewrite He. reflexivity.
  - intros Hall Hd.
    destruct (startBot_never_exits env fuel st Hall Hd) as (R & C1 & C2).
    unfold main. rewrite !run_tryCatch.
    destruct (run env (startBot fuel) st) as [r st1].
    cbn [fst snd] in *. subst r. auto.
Qed.

(** * Further properties of the code *)

(** ** Configuration, keys and the wait for the next hour *)

(** X1.  [loadConfig] never throws and leaves the two variables alone.
    When [config.json] is read and parsed it returns the parsed value, be it
    [null], having awaited these two calls and nothing else.  When the read fails the
    parser is not called.  When the read or the parser fails, one line with
    the message of the error goes to the error console and the process exits
    with status 1. *)
Theorem loadConfig_returns_or_exits :
  forall (env : Env) (st : St),
    let r := run env loadConfig st in
    let failure e :=
      EvLog ConsoleError (crossMark ++ " Failed to load config.json: " ++ e) in
    globals (snd r) = globals st
    /\ match files env (calls MReadFile (history st)) with
       | Err e =>
           fst r = Exited 1
           /\ events (snd r)
              = (events st
                 ++ [EvCall (ReadFile "config.json") (Rejected e); failure e])%list
       | Ok data =>
           match parses env (calls MJsonParse (history st)) with
           | Ok parsed =>
               fst r = Returned parsed
               /\ events (snd r)
                  = (events st
                     ++ [EvCall (ReadFile "config.json") (Fulfilled true);
                         EvCall (JsonParse data)
                                (replyOf (JsonParse data) (Ok parsed))])%list
           | Err e =>
               fst r = Exited 1
               /\ events (snd r)
                  = (events st
                     ++ [EvCall (ReadFile "config.json") (Fulfilled true);
                         EvCall (JsonParse data) (Rejected e); failure e])%list
           end
       end.
Proof.
  intros env st r failure. unfold r, failure, loadConfig.
  cbn -[String.append crossMark].
  destruct (files env (calls MReadFile (history st))) as [data|e];
    cbn -[String.append crossMark].
  - destruct (parses env (calls MJsonParse (history st))) as [config|e];
      cbn -[String.append crossMark];
      (split; [reflexivity|]); (split; [reflexivity|]);
      unfold events, trace; cbn -[String.append crossMark];
      rewrite !map_app, <- !app_assoc; reflexivity.
  - split; [reflexivity|]. split; [reflexivity|].
    unfold events, trace; cbn -[String.append crossMark].
    rewrite !map_app, <- !app_assoc; reflexivity.
Qed.

Lemma twoDigits (r : Z) :
  0 <= r < 60 ->
  padStart 2 "0" (show r) = (if r <? 10 then "0" ++ show r else show r)
  /\ String.length (padStart 2 "0" (show r)) = 2%nat.
Proof.
  intros Hr.
  assert (E : r = Z.of_nat (Z.to_nat r)) by lia.
  assert (L : (Z.to_nat r < 60)%nat) by lia.
  rewrite E. generalize dependent (Z.to_nat r). intros k _ Hk.
  do 60 (destruct k as [|k]; [vm_compute; split; reflexivity|]).
  lia.
Qed.

Lemma countdown_lines (ticks : nat) (n : Z) :
  0 <= n ->
  countdown ticks n
  = map (fun k => fst (fst (countdownTick (n - Z.of_nat k))))
        (seq 0 (Nat.min ticks (S (Z.to_nat n)))).
Proof.
  revert n; induction ticks as [|ticks IH]; intros n Hn; [reflexivity|].
  cbn [countdown]. unfold countdownTick at 1.
  destruct (n - 1 <? 0) eqn:L.
  - apply Z.ltb_lt in L. assert (n = 0) by lia. subst n.
    change (S (Z.to_nat 0)) with 1%nat.
    rewrite <- Nat.succ_min_distr, Nat.min_0_r. reflexivity.
  - apply Z.ltb_ge in L.
    rewrite IH by lia.
    replace (S (Z.to_nat n)) with (S (S (Z.to_nat (n - 1)))) by lia.
    rewrite <- Nat.succ_min_distr.
    cbn [seq map]. rewrite Z.sub_0_r.
    f_equal.
    rewrite <- seq_shift, map_map.
    apply map_ext. intros k. do 3 f_equal. lia.
Qed.

(** X3.  The countdown of lines 46-56 for a wait of [remainingTime]
    milliseconds.  Left to itself it writes one line per tick for the seconds
    [n], [n - 1], ..., [0], where [n] is the wait in whole seconds, and then
    clears its interval: it never writes more than [n + 1] lines.  A line
    shows the minutes and the seconds that are left, the seconds in two
    digits. *)
Theorem countdown_runs_down_to_zero :
  forall (remainingTime : Z) (ticks : nat),
    0 <= remainingTime ->
    let n := remainingTime / 1000 in
    let line s := fst (fst (countdownTick s)) in
    countdownFor remainingTime ticks
    = map (fun k => line (n - Z.of_nat k))
          (seq 0 (Nat.min ticks (S (Z.to_nat n))))
    /\ (List.length (countdownFor remainingTime ticks) <= S (Z.to_nat n))%nat
    /\ (forall s, 0 <= s ->
          let seconds := s mod 60 in
          let field := if seconds <? 10 then "0" ++ show seconds else show seconds in
          line s = "Waiting for the next hour to start... [" ++ show (s / 60)
                   ++ ":" ++ field ++ " remaining]"
          /\ String.length field = 2%nat
          /\ 60 * (s / 60) + seconds = s).
Proof.
  intros remainingTime ticks H n line.
  assert (Hn : 0 <= n) by (apply Z.div_pos; lia).
  assert (E : countdownFor remainingTime ticks
              = map (fun k => line (n - Z.of_nat k))
                    (seq 0 (Nat.min ticks (S (Z.to_nat n)))))
    by (apply countdown_lines; exact Hn).
  split; [exact E|]. split.
  - rewrite E, length_map, length_seq. lia.
  - intros s Hs seconds field.
    pose proof (Z.mod_pos_bound s 60 ltac:(lia)) as B. fold seconds in B.
    destruct (twoDigits seconds B) as [T1 T2]. fold field in T1.
    split; [|split].
    + unfold line, countdownTick. cbn [fst].
      rewrite Z.rem_mod_nonneg by lia. fold seconds. rewrite T1. reflexivity.
    + rewrite <- T1. exact T2.
    + pose proof (Z.div_mod s 60 ltac:(lia)). unfold seconds. lia.
Qed.

Lemma split_at_separator (sep : CodeUnit) (a b : JsString) :
  split sep (a ++ sep :: b)%list = (split sep a ++ split sep b)%list.
Proof.
  induction a as [|c a IH]; cbn [split app].
  - rewrite N.eqb_refl. reflexivity.
  - destruct (c =? sep)%N.
    + rewrite IH. reflexivity.
    + rewrite IH. pose proof (split_not_nil sep a) as Hne.
      destruct (split sep a); [congruence|reflexivity].
Qed.

(** X4.  The keys of two texts joined by a newline are the keys of the
    first text followed by the keys of the second; a newline at the end of a
    text adds no key. *)
Theorem loadKeys_of_joined_texts :
  forall (envA envB env : Env) (stA stB st : St) (a b : JsString),
    files envA (calls MReadFile (history stA)) = Ok a ->
    files envB (calls MReadFile (history stB)) = Ok b ->
    files env (calls MReadFile (history st)) = Ok (a ++ newline :: b)%list ->
    exists keysA keysB,
      fst (run envA loadKeys stA) = Returned keysA
      /\ fst (run envB loadKeys stB) = Returned keysB
      /\ fst (run env loadKeys st) = Returned (keysA ++ keysB)%list
      /\ (b = [] -> keysB = []).
Proof.
  intros envA envB env stA stB st a b Ha Hb Hab.
  exists (filter (fun key => nonEmpty (trim key)) (split newline a)),
         (filter (fun key => nonEmpty (trim key)) (split newline b)).
  unfold loadKeys. cbn [tryCatch bind await run answer methodOf].
  rewrite Ha, Hb, Hab. cbn [run fst tryCatch bind].
  rewrite split_at_separator, filter_app.
  repeat split. intros ->. reflexivity.
Qed.

Lemma minDuration_min (sessions : list Session) (start : Z) :
  start <= 60 ->
  fold_left
    (fun minDuration session =>
       let duration := durationPerRound (sessionSessionType session)
                       * rounds (sessionSessionType session) in
       if duration <? minDuration then duration else minDuration)
    sessions start
  = Z.min start (minDuration sessions).
Proof.
  intros Hs. unfold minDuration.
  rewrite !minDuration_fold.
  induction (map sessionDuration sessions) as [|d ds IH]; cbn [fold_right]; lia.
Qed.

(** X5.  The cool-down of two lists of sessions taken together is the
    smaller of their cool-downs, and the cool-down does not depend on the
    order of the sessions. *)
Theorem minDuration_of_sessions_together :
  forall (first second : list Session),
    minDuration (first ++ second) = Z.min (minDuration first) (minDuration second)
    /\ (Permutation first second -> minDuration first = minDuration second).
Proof.
  intros first second. split.
  - unfold minDuration at 1. rewrite fold_left_app.
    fold (minDuration first). apply minDuration_min.
    unfold minDuration. rewrite minDuration_fold.
    apply (leastOf60And_le (map sessionDuration first)).
  - intros P. unfold minDuration. rewrite !minDuration_fold.
    induction P; cbn [map fold_right]; lia.
Qed.

(** ** How [runWallet] and the process can end *)

Lemma guarded_noGuard (h : list Entry) : guarded noGuard h.
Proof. induction h as [|[g e] h IH]; simpl; [exact I|split; [exact I|exact IH]]. Qed.

Lemma settles_handleSessionLimit (zone : TimeZone) (st : St) :
  wp anyAnswer noGuard (handleSessionLimit zone) (fun r _ => settles r) st.
Proof.
  unfold handleSessionLimit; simpl.
  intros t; split; [exact I|].
  destruct (0 <? remainingTimeAt zone t); simpl; auto.
  split; [exact I|].
  intros o _; split; [exact I|]. destruct o; simpl; auto.
Qed.

Lemma settles_hydrate (key : Key) (st : St) :
  wp anyAnswer noGuard (hydrate key) (fun r _ => settles r) st.
Proof.
  unfold hydrate; simpl.
  repeat (let o := fresh "o" in
          intros o _; split; [exact I|]; destruct o; simpl; auto).
  repeat (split; [exact I|]). exact I.
Qed.

Opaque handleSessionLimit.

Section NeverFulfils.

Variable config : Config.
Variable msToTime : Z -> string.
Variable zone : TimeZone.

Lemma stays_onAttemptError (retryCount : Z) (error : Error) (st : St) :
  wp anyAnswer noGuard (onAttemptError retryCount error)
     (fun r _ => staysInLoop r) st.
Proof.
  unfold onAttemptError; simpl. split; [exact I|].
  destruct (maxRetries <=? retryCount + 1); simpl.
  - split; exact I.
  - intros o _; split; [exact I|]. destruct o; exact I.
Qed.

Lemma stays_onStarted (self : Prog unit) (st : St) :
  neverFulfils self ->
  wp anyAnswer noGuard (onStarted zone self) (fun r _ => staysInLoop r) st.
Proof.
  intros Hself. unfold onStarted.
  cbn [wp bind getSessionCount setSessionCount dateNow setLastSessionTime
       toolsLog emit setGlobals record globals history sessionCount].
  intros t; split; [exact I|]. split; [exact I|].
  destruct (6 <=? sessionCount (globals st) + 1).
  - cbn [wp bind toolsLog emit]. split; [exact I|].
    apply wp_bind. eapply wp_mono; [|apply settles_handleSessionLimit].
    intros [[]|e| |c] st1 H; try destruct H; [|exact I].
    apply wp_bind. eapply wp_mono; [|apply Hself].
    intros [[]|e| |c] st2 H; try destruct H; exact I.
  - cbn [wp bind await]. intros o _; split; [exact I|]. destruct o; exact I.
Qed.

Lemma stays_attempt (self : Prog unit) (key : Key) (agent : Agent)
    (session : Session) (retryCount : Z) (st : St) :
  neverFulfils self ->
  wp anyAnswer noGuard (attempt config zone self key agent session retryCount)
     (fun r _ => staysInLoop r) st.
Proof.
  intros Hself. unfold attempt. apply wp_tryCatch.
  unfold startCall; destruct (isAutoMatch config);
    cbn [wp bind await]; intros o _; (split; [exact I|]);
    destruct o as [[|]|e]; cbn [bind wp];
    try exact I;
    try apply stays_onAttemptError;
    (eapply wp_mono; [|apply stays_onStarted; exact Hself]);
    intros [[rc|[|]]|e| |c] st1 H; try destruct H; try exact I;
    apply stays_onAttemptError.
Qed.

Lemma stays_attemptLoop (fuel : nat) (self : Prog unit) (key : Key)
    (agent : Agent) (session : Session) (retryCount : Z) (st : St) :
  neverFulfils self ->
  wp anyAnswer noGuard
     (attemptLoop config zone fuel self key agent session retryCount)
     (fun r _ => staysInFunction r) st.
Proof.
  intros Hself; revert retryCount st.
  induction fuel as [|fuel IH]; intros retryCount st; cbn [attemptLoop].
  - exact I.
  - destruct (retryCount <? maxRetries); [|exact I].
    apply wp_bind. eapply wp_mono; [|apply stays_attempt; exact Hself].
    intros [[rc|[|]]|e| |c] st1 H; try destruct H; try exact I.
    apply IH.
Qed.

Lemma stays_matchSessions (fuel : nat) (self : Prog unit) (key : Key)
    (agent : Agent) (sessions : list Session) (st : St) :
  neverFulfils self ->
  wp anyAnswer noGuard
     (matchSessions config zone fuel self key agent sessions)
     (fun r _ => staysInFunction r) st.
Proof.
  intros Hself; revert st.
  induction sessions as [|session rest IH]; intros st; cbn [matchSessions].
  - exact I.
  - destruct (String.eqb _ _); [|apply IH].
    destruct (negb (automationEnabled agent)).
    + apply wp_bind. eapply wp_mono; [|apply stays_attemptLoop; exact Hself].
      intros [[|]|e| |c] st1 H; try destruct H; try exact I.
      apply IH.
    + simpl. split; [exact I|]. apply IH.
Qed.

Lemma noValue_walletIteration (fuel : nat) (self : Prog unit) (key : Key) (st : St) :
  neverFulfils self ->
  wp anyAnswer noGuard (walletIteration config msToTime zone fuel self key)
     (fun r _ => noValue r) st.
Proof.
  intros Hself; unfold walletIteration.
  cbn [wp bind getSessionCount].
  destruct (6 <=? sessionCount (globals st)).
  - cbn [wp bind toolsLog emit]. split; [exact I|].
    apply wp_bind. eapply wp_mono; [|apply settles_handleSessionLimit].
    intros [[]|e| |c] st1 H; try destruct H; [|exact I].
    eapply wp_mono; [|apply Hself].
    intros [[]|e| |c] st2 H; try destruct H; exact I.
  - apply wp_bind. eapply wp_mono; [|apply settles_hydrate].
    intros [[agents sessions]|e| |c] st1 H; try destruct H; [|exact I].
    destruct (Nat.eqb _ _).
    + cbn [wp bind await]. intros o _. split; [exact I|]. destruct o; exact I.
    + destruct (find _ agents) as [targetAgent|]; [|exact I].
      apply wp_bind.
      eapply wp_mono; [|apply stays_matchSessions; exact Hself].
      intros [[|]|e| |c] st2 H; try destruct H; try exact I.
      unfold coolDown. cbn [wp bind await].
      intros o _. split; [exact I|]. destruct o as [[]|e]; cbn [bind wp]; [|exact I].
      eapply wp_mono; [|apply Hself].
      intros [[]|e| |c] st3 H; try destruct H; exact I.
Qed.

Lemma neverFulfils_onWalletError (self : Prog unit) (error : Error) :
  neverFulfils self -> neverFulfils (onWalletError self error).
Proof.
  intros Hself st; unfold onWalletError.
  cbn [wp bind toolsLog emit await]. split; [exact I|].
  intros o _. split; [exact I|].
  destruct o as [[]|e]; cbn [bind wp].
  - apply Hself.
  - unfold walletOutcome, retryWaitRejected. cbn [record history replyOf].
    eexists _, _, _. reflexivity.
Qed.

Lemma neverFulfils_runWallet (fuel : nat) (key : Key) :
  neverFulfils (runWallet config msToTime zone fuel key).
Proof.
  induction fuel as [|fuel IH]; intros st; cbn [runWallet].
  - exact I.
  - apply wp_tryCatch.
    eapply wp_mono; [|apply noValue_walletIteration; exact IH].
    intros [[]|e| |c] st1 H; try destruct H; try exact I.
    apply neverFulfils_onWalletError; exact IH.
Qed.

End NeverFulfils.

Transparent handleSessionLimit.

(** X6.  A call of [runWallet] never returns a value and never leaves
    the process, in any environment.  It can only be rejected, and then by
    the ten-second wait of its own [catch] (line 166): the last thing it did
    was to await that wait, which was rejected with the error the call is
    rejected with. *)
Theorem runWallet_never_fulfils :
  forall (config : Config) (msToTime : Z -> string) (zone : TimeZone)
         (env : Env) (fuel : nat) (key : Key) (st : St),
    let r := run env (runWallet config msToTime zone fuel key) st in
    (forall a, fst r <> Returned a)
    /\ (forall code, fst r <> Exited code)
    /\ (forall e, fst r = Threw e ->
          exists g message earlier,
            history (snd r)
            = (g, EvCall (Delay 10000 ("Error: " ++ message ++ ". Retrying in 10s..."))
                         (Rejected e)) :: earlier).
Proof.
  intros config msToTime zone env fuel key st r.
  destruct (wp_sound anyAnswer noGuard env
              (runWallet config msToTime zone fuel key)
              walletOutcome st (respects_any env) (guarded_noGuard _)
              (neverFulfils_runWallet config msToTime zone fuel key st))
    as [W _].
  fold r in W. destruct (fst r) as [a|e| |c]; simpl in W.
  - destruct W.
  - repeat split; try discriminate. intros e' E; injection E as <-. exact W.
  - repeat split; discriminate.
  - destruct W.
Qed.

Lemma botOutcome_startBot (fuel : nat) (st : St) :
  wp anyAnswer noGuard (startBot fuel) botOutcome st.
Proof.
  revert st; induction fuel as [|fuel IH]; intros st; cbn [startBot].
  - exact I.
  - assert (H : forall e st1,
              wp anyAnswer noGuard
                 (displayLog ("Critical error: " ++ e) ;;
                  await (Delay 5000 "Restarting bot...") ;;
                  startBot fuel) botOutcome st1).
    { intros e st1. cbn [wp bind displayLog emit await]. split; [exact I|].
      intros o _. split; [exact I|].
      destruct o as [[]|e']; cbn [bind wp]; [apply IH|].
      unfold botOutcome, restartWaitRejected. cbn [record history replyOf].
      eexists _, _. reflexivity. }
    apply wp_tryCatch. unfold loadKeys.
    cbn [wp bind tryCatch displayLog emit await].
    split; [exact I|]. split; [exact I|].
    intros o _. split; [exact I|].
    destruct o as [data|e]; cbn [bind tryCatch wp]; [|apply H].
    destruct (Nat.eqb _ _); cbn [bind wp]; [apply H|].
    split; [exact I|]. intros o _. split; [exact I|].
    destruct o as [[]|e]; cbn [bind wp]; [|apply H].
    unfold botOutcome, walletsJoined. cbn [record history replyOf truthy].
    eexists _, _, _. reflexivity.
Qed.

(** X7.  The process as started by lines 192-195 never ends in an
    uncaught error.  It exits only with status 1, and only when the five
    seconds before a restart (line 187) were rejected: the error of that wait
    is what the last line on the error console reports.  [startBot] returns
    only when the promise of line 184 is fulfilled. *)
Theorem main_exits_only_after_failed_restart :
  forall (env : Env) (fuel : nat) (st : St),
    let r := run env (main fuel) st in
    (forall e, fst r <> Threw e)
    /\ (forall code, fst r = Exited code ->
          code = 1
          /\ exists g g' e earlier,
               history (snd r)
               = (g, EvLog ConsoleError ("Fatal error: " ++ e))
                 :: (g', EvCall (Delay 5000 "Restarting bot...") (Rejected e))
                 :: earlier)
    /\ (forall a, fst r = Returned a ->
          exists g keys earlier,
            history (snd r)
            = (g, EvCall (JoinWallets keys) (Fulfilled false)) :: earlier).
Proof.
  intros env fuel st r.
  assert (W : wp anyAnswer noGuard (main fuel) processOutcome st).
  { unfold main. apply wp_tryCatch.
    eapply wp_mono; [|apply botOutcome_startBot].
    intros [[]|e| |c] st1 H; [exact H| |exact I|destruct H].
    - destruct H as (g & earlier & H).
      cbn [wp bind consoleError emit]. split; [exact I|].
      unfold processOutcome. split; [reflexivity|].
      exists (globals st1), e, st1. split; [|reflexivity].
      exists g, earlier. exact H. }
  destruct (wp_sound anyAnswer noGuard env (main fuel) processOutcome st
              (respects_any env) (guarded_noGuard _) W) as [P _].
  fold r in P. destruct (fst r) as [a|e| |c]; simpl in P.
  - split; [discriminate|]. split; [discriminate|]. intros _ _. exact P.
  - destruct P.
  - split; [discriminate|]. split; discriminate.
  - destruct P as (-> & g & e & st1 & (g' & earlier & H1) & H2).
    split; [discriminate|]. split; [|discriminate].
    intros code E; injection E as <-. split; [reflexivity|].
    exists g, g', e, earlier. rewrite H2, H1. reflexivity.
Qed.

(** ** A wallet calls its own wallet *)

Section CallsOwn.

Variable config : Config.
Variable msToTime : Z -> string.
Variable zone : TimeZone.
Variable key : Key.

Lemma own_Ret {A : Type} (a : A) : callsOwn config key (Ret a).
Proof. intros st; exact I. Qed.

Lemma own_Throw {A : Type} (e : Error) : callsOwn config key (@Throw A e).
Proof. intros st; exact I. Qed.

Lemma own_bind {A B : Type} (p : Prog A) (f : A -> Prog B) :
  callsOwn config key p -> (forall a, callsOwn config key (f a)) ->
  callsOwn config key (bind p f).
Proof.
  intros Hp Hf st. apply wp_bind.
  eapply wp_mono; [|apply Hp].
  intros [a|e| |c] st1 _; simpl; auto. apply Hf.
Qed.

Lemma own_tryCatch {A : Type} (p : Prog A) (h : Error -> Prog A) :
  callsOwn config key p -> (forall e, callsOwn config key (h e)) ->
  callsOwn config key (tryCatch p h).
Proof.
  intros Hp Hh st. apply wp_tryCatch.
  eapply wp_mono; [|apply Hp].
  intros [a|e| |c] st1 _; simpl; auto. apply Hh.
Qed.

Lemma own_toolsLog (msg : string) : callsOwn config key (toolsLog msg).
Proof. intros st; simpl; split; exact I. Qed.

Lemma own_emit (panel : Panel) : callsOwn config key (emit (EvDisplay panel)).
Proof. intros st; simpl; split; exact I. Qed.

Lemma own_await (op : Op) : ownCall config key op -> callsOwn config key (await op).
Proof.
  intros H st; simpl. intros o _; split; [exact H|]. destruct o; exact I.
Qed.

Lemma own_getSessionCount : callsOwn config key getSessionCount.
Proof. intros st; exact I. Qed.

Lemma own_handleSessionLimit : callsOwn config key (handleSessionLimit zone).
Proof.
  intros st; unfold handleSessionLimit; simpl.
  intros t; split; [exact I|].
  destruct (0 <? remainingTimeAt zone t); simpl; auto.
  split; [exact I|]. intros o _; split; [exact I|]. destruct o; exact I.
Qed.

Lemma own_onAttemptError (retryCount : Z) (error : Error) :
  callsOwn config key (onAttemptError retryCount error).
Proof.
  unfold onAttemptError.
  apply own_bind; [apply own_toolsLog|]. intros _.
  destruct (maxRetries <=? retryCount + 1).
  - apply own_bind; [apply own_toolsLog|]. intros; apply own_Ret.
  - apply own_bind; [apply own_await; exact I|]. intros; apply own_Ret.
Qed.

Lemma own_onStarted (self : Prog unit) :
  callsOwn config key self -> callsOwn config key (onStarted zone self).
Proof.
  intros Hself st. unfold onStarted.
  cbn [wp bind getSessionCount setSessionCount dateNow setLastSessionTime
       toolsLog emit setGlobals record globals history sessionCount].
  intros t; split; [exact I|]. split; [exact I|].
  destruct (6 <=? sessionCount (globals st) + 1).
  - cbn [wp bind toolsLog emit]. split; [exact I|].
    apply (own_bind (handleSessionLimit zone)
             (fun _ => self ;; Ret (Leave FnReturn))).
    + apply own_handleSessionLimit.
    + intros _. apply own_bind; [exact Hself|]. intros; apply own_Ret.
  - cbn [wp bind await]. intros o _; split; [exact I|]. destruct o; exact I.
Qed.

Lemma own_startCall (agent : Agent) (session : Session) :
  targets config agent session ->
  callsOwn config key (startCall config key agent session).
Proof.
  intros T. unfold startCall.
  destruct (isAutoMatch config) eqn:M; apply own_await; simpl; rewrite ?M; auto.
Qed.

Lemma own_attempt (self : Prog unit) (agent : Agent) (session : Session)
    (retryCount : Z) :
  callsOwn config key self ->
  targets config agent session ->
  callsOwn config key (attempt config zone self key agent session retryCount).
Proof.
  intros Hself T. unfold attempt.
  apply own_tryCatch; [|apply own_onAttemptError].
  apply own_bind; [apply own_startCall; exact T|].
  intros [|]; [apply own_onStarted; exact Hself|apply own_Ret].
Qed.

Lemma own_attemptLoop (fuel : nat) (self : Prog unit) (agent : Agent)
    (session : Session) (retryCount : Z) :
  callsOwn config key self ->
  targets config agent session ->
  callsOwn config key
    (attemptLoop config zone fuel self key agent session retryCount).
Proof.
  intros Hself T; revert retryCount; induction fuel as [|fuel IH]; intros retryCount.
  - intros st; exact I.
  - cbn [attemptLoop]. destruct (retryCount <? maxRetries); [|apply own_Ret].
    apply own_bind; [apply own_attempt; assumption|].
    intros [retryCount'|how]; [apply IH|apply own_Ret].
Qed.

Lemma own_matchSessions (fuel : nat) (self : Prog unit) (agent : Agent)
    (sessions : list Session) :
  callsOwn config key self ->
  name agent = agentName config ->
  callsOwn config key (matchSessions config zone fuel self key agent sessions).
Proof.
  intros Hself Hname; induction sessions as [|session rest IH]; cbn [matchSessions].
  - apply own_Ret.
  - destruct (String.eqb _ _) eqn:E; [|exact IH].
    destruct (automationEnabled agent) eqn:Auto; cbn [negb].
    + apply own_bind; [apply own_toolsLog|]. intros _; exact IH.
    + apply own_bind.
      * apply own_attemptLoop; [exact Hself|].
        apply String.eqb_eq in E. repeat split; assumption.
      * intros [|]; [exact IH|apply own_Ret].
Qed.

Lemma own_hydrate : callsOwn config key (hydrate key).
Proof.
  unfold hydrate.
  repeat (apply own_bind; [apply own_await; reflexivity|intros ?]).
  repeat (apply own_bind; [apply own_emit|intros ?]).
  apply own_Ret.
Qed.

Lemma own_onWalletError (self : Prog unit) (error : Error) :
  callsOwn config key self -> callsOwn config key (onWalletError self error).
Proof.
  intros Hself; unfold onWalletError.
  apply own_bind; [apply own_toolsLog|intros _].
  apply own_bind; [apply own_await; exact I|intros _].
  exact Hself.
Qed.

Lemma own_walletIteration (fuel : nat) (self : Prog unit) :
  callsOwn config key self ->
  callsOwn config key (walletIteration config msToTime zone fuel self key).
Proof.
  intros Hself; unfold walletIteration.
  apply own_bind; [apply own_getSessionCount|intros c].
  destruct (6 <=? c).
  - apply own_bind; [apply own_toolsLog|intros _].
    apply own_bind; [apply own_handleSessionLimit|intros _].
    exact Hself.
  - apply own_bind; [apply own_hydrate|intros [agents sessions]].
    destruct (Nat.eqb _ _).
    + apply own_bind; [apply own_await; exact I|intros _].
      apply own_Throw.
    + destruct (find _ agents) as [targetAgent|] eqn:F; [|apply own_Throw].
      apply find_some in F. destruct F as [_ F]. apply String.eqb_eq in F.
      apply own_bind; [apply own_matchSessions; assumption|].
      intros [|]; [|apply own_Ret].
      apply own_bind; [apply own_await; exact I|intros _; exact Hself].
Qed.

Lemma own_runWallet (fuel : nat) :
  callsOwn config key (runWallet config msToTime zone fuel key).
Proof.
  induction fuel as [|fuel IH]; cbn [runWallet].
  - intros st; exact I.
  - apply own_tryCatch.
    + apply own_walletIteration; exact IH.
    + intros e; apply own_onWalletError; exact IH.
Qed.

End CallsOwn.

Lemma guarded_own (config : Config) (key : Key) (h : list Entry) :
  guarded (ownGuard config key) h ->
  Forall (ownEvent config key) (map snd (rev h)).
Proof.
  induction h as [|[g e] h IH]; simpl; intros G; [constructor|].
  destruct G as [G1 G2]. rewrite map_app. apply Forall_app. split; auto.
  constructor; [exact G1|constructor].
Qed.

(** X8.  Whatever the environment answers, the loop of a wallet awaits
    only delays, methods of its own wallet, and start calls: never a file
    read, a parse or the join of the supervisor.  Every start call is for
    the agent named in the configuration, which has no automation, and for a
    session of the type of that agent; it is [startAutoMatch] with
    [config.maxGames] and [config.fee] when [config.matchMode] is ["auto"],
    and [startMatch] otherwise. *)
Theorem runWallet_calls_its_own_wallet :
  forall (config : Config) (msToTime : Z -> string) (zone : TimeZone)
         (env : Env) (fuel : nat) (key : Key) (g : Globals),
    let st' := snd (run env (runWallet config msToTime zone fuel key)
                      (mkSt g [])) in
    forall op reply, In (EvCall op reply) (events st') ->
      match op with
      | Delay _ _ => True
      | Connect k | GetBalance k | Login k | GetAgents k | GetSessions k
      | GetFractalInfo k => k = key
      | StartMatch k agent session =>
          matchMode config <> "auto" /\ k = key
          /\ name agent = agentName config
          /\ automationEnabled agent = false
          /\ sessionType (agentSessionType agent)
             = sessionType (sessionSessionType session)
      | StartAutoMatch k agent session games cost =>
          matchMode config = "auto" /\ k = key
          /\ name agent = agentName config
          /\ automationEnabled agent = false
          /\ sessionType (agentSessionType agent)
             = sessionType (sessionSessionType session)
          /\ games = maxGames config /\ cost = fee config
      | ReadFile _ | JsonParse _ | JoinWallets _ => False
      end.
Proof.
  intros config msToTime zone env fuel key g st' op reply Hin.
  destruct (wp_sound anyAnswer (ownGuard config key) env
              (runWallet config msToTime zone fuel key)
              (fun _ _ => True) (mkSt g [])
              (respects_any env) I
              (own_runWallet config msToTime zone key fuel (mkSt g [])))
    as [_ G].
  fold st' in G. apply guarded_own in G.
  rewrite Forall_forall in G. specialize (G _ Hin).
  destruct op; simpl in G; auto.
  - destruct G as (M & K & T1 & T2 & T3).
    repeat split; auto. unfold isAutoMatch in M.
    apply String.eqb_neq in M. exact M.
  - destruct G as (M & K & (T1 & T2 & T3) & G1 & G2).
    repeat split; auto. unfold isAutoMatch in M.
    apply String.eqb_eq in M. exact M.
Qed.

(** ** [lastSessionTime] is write-only *)

Lemma alike_bind {A B : Type} (p1 p2 : Prog A) (f1 f2 : A -> Prog B) :
  alike p1 p2 -> (forall a, alike (f1 a) (f2 a)) ->
  alike (bind p1 f1) (bind p2 f2).
Proof.
  intros H Hf; induction H; cbn [bind]; try (constructor; auto); auto.
Qed.

Lemma alike_tryCatch {A : Type} (p1 p2 : Prog A) (h1 h2 : Error -> Prog A) :
  alike p1 p2 -> (forall e, alike (h1 e) (h2 e)) ->
  alike (tryCatch p1 h1) (tryCatch p2 h2).
Proof.
  intros H Hh; induction H; cbn [tryCatch]; try (constructor; auto); auto.
Qed.

Lemma calls_events (m : Method) (h1 h2 : list Entry) :
  map snd h1 = map snd h2 -> calls m h1 = calls m h2.
Proof.
  revert h2; induction h1 as [|[g1 e1] h1 IH]; intros [|[g2 e2] h2] E;
    try discriminate; [reflexivity|].
  simpl in E. injection E as -> E. simpl. rewrite (IH _ E). reflexivity.
Qed.

Lemma clockReads_events (h1 h2 : list Entry) :
  map snd h1 = map snd h2 -> clockReads h1 = clockReads h2.
Proof.
  revert h2; induction h1 as [|[g1 e1] h1 IH]; intros [|[g2 e2] h2] E;
    try discriminate; [reflexivity|].
  simpl in E. injection E as -> E. simpl. rewrite (IH _ E). reflexivity.
Qed.

Lemma alike_run {A : Type} (env : Env) (p1 p2 : Prog A) :
  alike p1 p2 ->
  forall st1 st2, sameButLastTime st1 st2 ->
    fst (run env p1 st1) = fst (run env p2 st2)
    /\ sameButLastTime (snd (run env p1 st1)) (snd (run env p2 st2)).
Proof.
  intros H; induction H as [a|e| |c|k1 k2 Hk IH|g1 g2 k1 k2 Hg Hk IH
                            |e k1 k2 Hk IH|k1 k2 Hk IH|op k1 k2 Hk IH];
    intros st1 st2 [S1 S2]; cbn [run]; try (split; [reflexivity|split; assumption]).
  - apply IH; [exact S1|split; assumption].
  - apply IH. split; [exact Hg|exact S2].
  - apply IH. split; [exact S1|]. simpl. rewrite S2. reflexivity.
  - rewrite (clockReads_events _ _ S2). apply IH.
    split; [exact S1|]. simpl. rewrite S2. reflexivity.
  - rewrite (calls_events _ _ _ S2). apply IH.
    split; [exact S1|]. simpl. rewrite S2. reflexivity.
Qed.

Lemma alike_await (op : Op) : alike (await op) (await op).
Proof. alike_call. Qed.

Lemma alike_emit (e : Event) : alike (emit e) (emit e).
Proof. unfold emit. repeat constructor. Qed.

Lemma alike_getSessionCount : alike getSessionCount getSessionCount.
Proof.
  unfold getSessionCount. constructor. intros g1 g2 S. rewrite S. constructor.
Qed.

Lemma alike_setSessionCount (c : Z) : alike (setSessionCount c) (setSessionCount c).
Proof.
  unfold setSessionCount. constructor. intros g1 g2 S.
  constructor; [reflexivity|constructor].
Qed.

Lemma alike_setLastSessionTime (t : option Z) :
  alike (setLastSessionTime t) (setLastSessionTime t).
Proof.
  unfold setLastSessionTime. constructor. intros g1 g2 S.
  constructor; [exact S|constructor].
Qed.

Lemma alike_dateNow : alike dateNow dateNow.
Proof. unfold dateNow. constructor. intros t. constructor. Qed.

Lemma alike_handleSessionLimit (zone : TimeZone) :
  alike (handleSessionLimit zone) (handleSessionLimit zone).
Proof.
  unfold handleSessionLimit.
  apply alike_bind; [apply alike_dateNow|intros now].
  apply alike_bind.
  - destruct (0 <? remainingTimeAt zone now); [|constructor].
    apply alike_bind; [apply alike_getSessionCount|intros c].
    apply alike_bind; [apply alike_emit|intros _]. apply alike_await.
  - intros _. apply alike_bind; [apply alike_setSessionCount|intros _].
    apply alike_setLastSessionTime.
Qed.

Section Alike.

Variable config : Config.
Variable msToTime : Z -> string.
Variable zone : TimeZone.

Lemma alike_onAttemptError (retryCount : Z) (error : Error) :
  alike (onAttemptError retryCount error) (onAttemptError retryCount error).
Proof.
  unfold onAttemptError.
  apply alike_bind; [apply alike_emit|intros _].
  destruct (maxRetries <=? retryCount + 1).
  - apply alike_bind; [apply alike_emit|intros _]. constructor.
  - apply alike_bind; [apply alike_await|intros _]. constructor.
Qed.

Lemma alike_onStarted (self1 self2 : Prog unit) :
  alike self1 self2 ->
  alike (onStarted zone self1) (onStarted zone self2).
Proof.
  intros Hself. unfold onStarted.
  apply alike_bind; [apply alike_getSessionCount|intros c].
  apply alike_bind; [apply alike_setSessionCount|intros _].
  apply alike_bind; [apply alike_dateNow|intros t].
  apply alike_bind; [apply alike_setLastSessionTime|intros _].
  apply alike_bind; [apply alike_getSessionCount|intros c1].
  apply alike_bind; [apply alike_emit|intros _].
  apply alike_bind; [apply alike_getSessionCount|intros c2].
  destruct (6 <=? c2).
  - apply alike_bind; [apply alike_emit|intros _].
    apply alike_bind; [apply alike_handleSessionLimit|intros _].
    apply alike_bind; [exact Hself|intros _]. constructor.
  - apply alike_bind; [apply alike_await|intros _]. constructor.
Qed.

Lemma alike_attempt (self1 self2 : Prog unit) (key : Key) (agent : Agent)
    (session : Session) (retryCount : Z) :
  alike self1 self2 ->
  alike (attempt config zone self1 key agent session retryCount)
        (attempt config zone self2 key agent session retryCount).
Proof.
  intros Hself. unfold attempt.
  apply alike_tryCatch; [|intros e; apply alike_onAttemptError].
  apply alike_bind.
  - unfold startCall.
    destruct (isAutoMatch config); alike_call.
  - intros [|]; [apply alike_onStarted; exact Hself|constructor].
Qed.

Lemma alike_attemptLoop (fuel : nat) (self1 self2 : Prog unit) (key : Key)
    (agent : Agent) (session : Session) (retryCount : Z) :
  alike self1 self2 ->
  alike (attemptLoop config zone fuel self1 key agent session retryCount)
        (attemptLoop config zone fuel self2 key agent session retryCount).
Proof.
  intros Hself; revert retryCount; induction fuel as [|fuel IH]; intros retryCount;
    cbn [attemptLoop]; [constructor|].
  destruct (retryCount <? maxRetries); [|constructor].
  apply alike_bind; [apply alike_attempt; exact Hself|].
  intros [retryCount'|how]; [apply IH|constructor].
Qed.

Lemma alike_matchSessions (fuel : nat) (self1 self2 : Prog unit) (key : Key)
    (agent : Agent) (sessions : list Session) :
  alike self1 self2 ->
  alike (matchSessions config zone fuel self1 key agent sessions)
        (matchSessions config zone fuel self2 key agent sessions).
Proof.
  intros Hself; induction sessions as [|session rest IH]; cbn [matchSessions];
    [constructor|].
  destruct (String.eqb _ _); [|exact IH].
  destruct (negb (automationEnabled agent)).
  - apply alike_bind; [apply alike_attemptLoop; exact Hself|].
    intros [|]; [exact IH|constructor].
  - apply alike_bind; [apply alike_emit|intros _; exact IH].
Qed.

Lemma alike_hydrate (key : Key) : alike (hydrate key) (hydrate key).
Proof.
  unfold hydrate.
  repeat (apply alike_bind; [apply alike_await|intros ?]).
  repeat (apply alike_bind; [apply alike_emit|intros ?]).
  constructor.
Qed.

Lemma alike_onWalletError (self1 self2 : Prog unit) (error : Error) :
  alike self1 self2 ->
  alike (onWalletError self1 error) (onWalletError self2 error).
Proof.
  intros Hself; unfold onWalletError.
  apply alike_bind; [apply alike_emit|intros _].
  apply alike_bind; [apply alike_await|intros _].
  exact Hself.
Qed.

Lemma alike_walletIteration (fuel : nat) (self1 self2 : Prog unit) (key : Key) :
  alike self1 self2 ->
  alike (walletIteration config msToTime zone fuel self1 key)
        (walletIteration config msToTime zone fuel self2 key).
Proof.
  intros Hself; unfold walletIteration.
  apply alike_bind; [apply alike_getSessionCount|intros c].
  destruct (6 <=? c).
  - apply alike_bind; [apply alike_emit|intros _].
    apply alike_bind; [apply alike_handleSessionLimit|intros _].
    exact Hself.
  - apply alike_bind; [apply alike_hydrate|intros [agents sessions]].
    destruct (Nat.eqb _ _).
    + apply alike_bind; [apply alike_await|intros _]. constructor.
    + destruct (find _ agents) as [targetAgent|]; [|constructor].
      apply alike_bind; [apply alike_matchSessions; exact Hself|].
      intros [|]; [|constructor].
      apply alike_bind; [unfold coolDown; alike_call|intros _; exact Hself].
Qed.

Lemma alike_runWallet (fuel : nat) (key : Key) :
  alike (runWallet config msToTime zone fuel key)
        (runWallet config msToTime zone fuel key).
Proof.
  induction fuel as [|fuel IH]; cbn [runWallet]; [constructor|].
  apply alike_tryCatch.
  - apply alike_walletIteration; exact IH.
  - intros e; apply alike_onWalletError; exact IH.
Qed.

End Alike.

(** X9.  [lastSessionTime] is written and never read: two runs of
    [runWallet] that differ only in the value it begins with end in the same
    way, record the same events and leave the same counter. *)
Theorem lastSessionTime_is_never_read :
  forall (config : Config) (msToTime : Z -> string) (zone : TimeZone)
         (env : Env) (fuel : nat) (key : Key)
         (count : Z) (last1 last2 : option Z),
    let r1 := run env (runWallet config msToTime zone fuel key)
                  (mkSt (mkGlobals count last1) []) in
    let r2 := run env (runWallet config msToTime zone fuel key)
                  (mkSt (mkGlobals count last2) []) in
    fst r1 = fst r2
    /\ events (snd r1) = events (snd r2)
    /\ sessionCount (globals (snd r1)) = sessionCount (globals (snd r2)).
Proof.
  intros config msToTime zone env fuel key count last1 last2 r1 r2.
  destruct (alike_run env _ _ (alike_runWallet config msToTime zone fuel key)
              (mkSt (mkGlobals count last1) []) (mkSt (mkGlobals count last2) [])
              ltac:(split; reflexivity)) as [R [S1 S2]].
  fold r1 in R, S1, S2. fold r2 in R, S1, S2.
  split; [exact R|]. split; [|exact S1].
  unfold events, trace. rewrite !map_rev. f_equal. exact S2.
Qed.

(** ** The steps of an iteration *)

Lemma run_hydrate (env : Env) (key : Key) (st : St)
    (agents : list Agent) (sessions : list Session) :
  hydrates env st agents sessions ->
  run env (hydrate key) st = (Returned (agents, sessions), recordAll (hydrated key) st).
Proof.
  intros (H1 & H2 & H3 & H4 & H5 & H6). unfold hydrate.
  cbn. rewrite H1. cbn. rewrite H2. cbn. rewrite H3. cbn. rewrite H4. cbn.
  rewrite H5. cbn. rewrite H6. reflexivity.
Qed.

Lemma calls_hydrated (key : Key) (st : St) :
  calls MDelay (history (recordAll (hydrated key) st)) = calls MDelay (history st)
  /\ calls MStart (history (recordAll (hydrated key) st)) = calls MStart (history st)
  /\ clockReads (history (recordAll (hydrated key) st)) = clockReads (history st).
Proof. repeat split. Qed.

(** What the [catch] of [runWallet] does when its wait runs to its end. *)
Lemma run_onWalletError (env : Env) (self : Prog unit) (error : Error) (st : St) :
  delays env (calls MDelay (history st)) = Ok tt ->
  run env (onWalletError self error) st
  = run env self (recordAll (retried error) st).
Proof.
  intros Hd. unfold onWalletError, retried, retryLine.
  cbn -[String.append String.eqb]. rewrite Hd. reflexivity.
Qed.

(** X10.  A wallet without agents.  When the hydration goes well and
    the list of agents is empty, the iteration waits ten seconds (line 89),
    throws, and the [catch] writes its line and waits ten more seconds before
    [runWallet] is called again; no match is started. *)
Theorem no_agents_waits_and_retries :
  forall (config : Config) (msToTime : Z -> string) (zone : TimeZone)
         (env : Env) (fuel : nat) (key : Key) (st : St)
         (sessions : list Session),
    sessionCount (globals st) < 6 ->
    hydrates env st [] sessions ->
    delays env (calls MDelay (history st)) = Ok tt ->
    delays env (S (calls MDelay (history st))) = Ok tt ->
    let round :=
      (hydrated key
       ++ [ EvCall (Delay 10000 "No agents available. Please create an agent first")
                   (Fulfilled false);
            EvLog ToolsLog "Error: No agents available. Retrying in 10s...";
            EvCall (Delay 10000 "Error: No agents available. Retrying in 10s...")
                   (Fulfilled false) ])%list in
    run env (runWallet config msToTime zone (S fuel) key) st
    = run env (runWallet config msToTime zone fuel key) (recordAll round st)
    /\ startCalls round = 0%nat.
Proof.
  intros config msToTime zone env fuel key st sessions Hc Hh Hd1 Hd2 round.
  split; [|reflexivity].
  cbn [runWallet]. rewrite run_tryCatch. unfold walletIteration.
  rewrite run_bind. cbn [getSessionCount run].
  apply Z.leb_gt in Hc. rewrite Hc.
  rewrite run_bind, (run_hydrate env key st [] sessions Hh).
  cbn [List.length Nat.eqb]. rewrite run_bind.
  cbn [await run answer methodOf]. 
  destruct (calls_hydrated key st) as (C1 & _ & _). rewrite C1, Hd1.
  cbn [run replyOf truthy].
  rewrite run_onWalletError.
  - unfold round. rewrite recordAll_app. reflexivity.
  - cbn [record history calls methodOf Method_eqb]. rewrite C1. exact Hd2.
Qed.

(** X11.  A wallet that has agents, none of them with the configured
    name.  The iteration throws right after the hydration, the [catch]
    writes its line with the name that was looked for, waits ten seconds and
    [runWallet] is called again; no match is started. *)
Theorem missing_target_agent_retries :
  forall (config : Config) (msToTime : Z -> string) (zone : TimeZone)
         (env : Env) (fuel : nat) (key : Key) (st : St)
         (agents : list Agent) (sessions : list Session),
    sessionCount (globals st) < 6 ->
    hydrates env st agents sessions ->
    agents <> [] ->
    (forall agent, In agent agents -> name agent <> agentName config) ->
    delays env (calls MDelay (history st)) = Ok tt ->
    let error := "Target agent " ++ agentName config ++ " not found" in
    let line := "Error: " ++ error ++ ". Retrying in 10s..." in
    let round :=
      (hydrated key
       ++ [ EvLog ToolsLog line;
            EvCall (Delay 10000 line) (Fulfilled false) ])%list in
    run env (runWallet config msToTime zone (S fuel) key) st
    = run env (runWallet config msToTime zone fuel key) (recordAll round st)
    /\ startCalls round = 0%nat.
Proof.
  intros config msToTime zone env fuel key st agents sessions
         Hc Hh Hne Hnone Hd error line round.
  split; [|reflexivity].
  cbn [runWallet]. rewrite run_tryCatch. unfold walletIteration.
  rewrite run_bind. cbn [getSessionCount run].
  apply Z.leb_gt in Hc. rewrite Hc.
  rewrite run_bind, (run_hydrate env key st agents sessions Hh).
  destruct agents as [|a agents']; [congruence|].
  cbn [List.length Nat.eqb].
  destruct (find _ (a :: agents')) as [target|] eqn:F.
  - apply find_some in F. destruct F as [Hin F]. apply String.eqb_eq in F.
    destruct (Hnone target Hin F).
  - cbn [run]. rewrite run_onWalletError.
    + unfold round, retried, retryLine, line, error. rewrite recordAll_app.
      reflexivity.
    + destruct (calls_hydrated key st) as (C1 & _ & _). rewrite C1. exact Hd.
Qed.

Lemma walletIteration_targets (config : Config) (msToTime : Z -> string)
    (zone : TimeZone) (env : Env) (fuel : nat) (self : Prog unit) (key : Key)
    (st : St) (before after : list Agent) (agent : Agent)
    (sessions : list Session) :
  sessionCount (globals st) < 6 ->
  hydrates env st (before ++ agent :: after) sessions ->
  (forall other, In other before -> name other <> agentName config) ->
  name agent = agentName config ->
  run env (walletIteration config msToTime zone fuel self key) st
  = run env
      (how <- matchSessions config zone fuel self key agent sessions ;;
       match how with
       | FnReturn => Ret tt
       | LoopDone => coolDown msToTime sessions ;; self
       end)
      (recordAll (hydrated key) st).
Proof.
  intros Hc Hh Hbefore Hname.
  unfold walletIteration.
  rewrite run_bind. cbn [getSessionCount run].
  apply Z.leb_gt in Hc. rewrite Hc.
  rewrite run_bind, (run_hydrate env key st _ sessions Hh).
  assert (L : Nat.eqb (List.length (before ++ agent :: after)) 0 = false).
  { apply Nat.eqb_neq. rewrite length_app. simpl. lia. }
  rewrite L.
  assert (F : find (fun a => String.eqb (name a) (agentName config))
                   (before ++ agent :: after) = Some agent).
  { clear - Hbefore Hname. induction before as [|b before IH]; simpl.
    - rewrite Hname, String.eqb_refl. reflexivity.
    - destruct (String.eqb (name b) (agentName config)) eqn:E.
      + apply String.eqb_eq in E. destruct (Hbefore b (or_introl eq_refl) E).
      + apply IH. intros other Hin. apply Hbefore. right; exact Hin. }
  rewrite F. reflexivity.
Qed.

(** X12.  The target is the first agent with the configured name.
    After a hydration that goes well the iteration goes through the sessions
    for that agent, whatever agents come after it in the list, and then
    through the cool-down. *)
Theorem target_agent_is_first_of_that_name :
  forall (config : Config) (msToTime : Z -> string) (zone : TimeZone)
         (env : Env) (fuel : nat) (self : Prog unit) (key : Key) (st : St)
         (before after : list Agent) (agent : Agent) (sessions : list Session),
    sessionCount (globals st) < 6 ->
    hydrates env st (before ++ agent :: after) sessions ->
    (forall other, In other before -> name other <> agentName config) ->
    name agent = agentName config ->
    run env (walletIteration config msToTime zone fuel self key) st
    = run env
        (how <- matchSessions config zone fuel self key agent sessions ;;
         match how with
         | FnReturn => Ret tt
         | LoopDone => coolDown msToTime sessions ;; self
         end)
        (recordAll (hydrated key) st).
Proof.
  intros config msToTime zone env fuel self key st before after agent
         sessions Hc Hh Hbefore Hname.
  apply (walletIteration_targets config msToTime zone env fuel self key st
           before after agent sessions); assumption.
Qed.

(** X13.  The hydration stops at the first call that fails.  When the
    calls before call [k] of lines 77-82 go well and call [k] is rejected,
    the calls after it are not made and the display is not updated; the
    error is the one of call [k].  Below the quota [runWallet] then writes
    the line of its [catch], waits ten seconds and is called again. *)
Theorem hydration_stops_at_first_failure :
  forall (config : Config) (msToTime : Z -> string) (zone : TimeZone)
         (env : Env) (fuel : nat) (key : Key) (st : St)
         (k : nat) (op : Op) (e : Error),
    nth_error (hydrationCalls key) k = Some op ->
    (forall j earlier, (j < k)%nat ->
        nth_error (hydrationCalls key) j = Some earlier ->
        exists b, nextReply env st earlier = Fulfilled b) ->
    nextReply env st op = Rejected e ->
    let made :=
      map (fun call => EvCall call (nextReply env st call))
          (firstn (S k) (hydrationCalls key)) in
    run env (hydrate key) st = (Threw e, recordAll made st)
    /\ (sessionCount (globals st) < 6 ->
        delays env (calls MDelay (history st)) = Ok tt ->
        run env (runWallet config msToTime zone (S fuel) key) st
        = run env (runWallet config msToTime zone fuel key)
              (recordAll (made ++ retried e) st)).
Proof.
  intros config msToTime zone env fuel key st k op e Hk Hprev Hop made.
  assert (R : run env (hydrate key) st = (Threw e, recordAll made st)
              /\ calls MDelay (history (recordAll made st))
                 = calls MDelay (history st)).
  { unfold made, hydrate, hydrationCalls, nextReply in *.
    destruct k as [|[|[|[|[|[|k]]]]]];
      [| | | | | |simpl in Hk; destruct k; discriminate Hk];
      injection Hk as <-;
      try use_earlier Hprev 0%nat; try use_earlier Hprev 1%nat;
      try use_earlier Hprev 2%nat; try use_earlier Hprev 3%nat;
      try use_earlier Hprev 4%nat;
      clear Hprev; unfold replyOf in *; cbn in Hop; cbn;
      repeat (match goal with
              | F : match ?o with Ok _ => _ | Err _ => _ end = _ |- _ =>
                  destruct o eqn:?;
                  first [discriminate F | injection F as <- | clear F]
              end);
      repeat (cbn; match goal with
                   | E : ?o = _ |- context [?o] => rewrite E
                   end);
      split; reflexivity. }
  destruct R as [R C]. split; [exact R|].
  intros Hc Hd.
  cbn [runWallet]. rewrite run_tryCatch. unfold walletIteration.
  rewrite run_bind. cbn [getSessionCount run].
  apply Z.leb_gt in Hc. rewrite Hc.
  rewrite run_bind, R.
  rewrite run_onWalletError by (rewrite C; exact Hd).
  rewrite recordAll_app. reflexivity.
Qed.

(** X14.  The wait at the gate (line 73) is interrupted.  The error
    goes to the [catch] of [runWallet], which writes its line, waits ten
    seconds and calls [runWallet] again with the variables as they were: the
    counter is still at the quota, and no method of the wallet was called. *)
Theorem interrupted_gate_wait_is_retried :
  forall (config : Config) (msToTime : Z -> string) (zone : TimeZone)
         (env : Env) (fuel : nat) (key : Key) (st : St) (e : Error),
    6 <= sessionCount (globals st) ->
    delays env (calls MDelay (history st)) = Err e ->
    delays env (S (calls MDelay (history st))) = Ok tt ->
    let now := clock env (clockReads (history st)) in
    let round :=
      (gateEvents zone (sessionCount (globals st)) now
       ++ [ EvCall (Delay (remainingTimeAt zone now) resetWaitMsg) (Rejected e) ]
       ++ retried e)%list in
    run env (runWallet config msToTime zone (S fuel) key) st
    = run env (runWallet config msToTime zone fuel key) (recordAll round st)
    /\ globals (recordAll round st) = globals st
    /\ filter isCall round
       = [ EvCall (Delay (remainingTimeAt zone now) resetWaitMsg) (Rejected e);
           EvCall (Delay 10000 (retryLine e)) (Fulfilled false) ].
Proof.
  intros config msToTime zone env fuel key st e Hc Hd1 Hd2 now round.
  split; [|split; [apply globals_recordAll|reflexivity]].
  cbn [runWallet]. rewrite run_tryCatch. unfold walletIteration.
  rewrite run_bind. cbn [getSessionCount run].
  apply Z.leb_le in Hc. rewrite Hc.
  unfold handleSessionLimit.
  pose proof (remainingTimeAt_pos zone now) as P. apply Z.ltb_lt in P.
  cbn -[String.append show remainingTimeAt ceilDiv onWalletError].
  fold now. rewrite P.
  cbn -[String.append show remainingTimeAt ceilDiv onWalletError].
  rewrite Hd1.
  cbn -[String.append show remainingTimeAt ceilDiv onWalletError].
  rewrite run_onWalletError by exact Hd2.
  reflexivity.
Qed.

Lemma matchSessions_skips (config : Config) (zone : TimeZone) (fuel : nat)
    (self : Prog unit) (key : Key) (agent : Agent) (sessions : list Session) :
  matchSessions config zone fuel self key agent sessions
  = matchSessions config zone fuel self key agent
      (filter (ofAgentType agent) sessions).
Proof.
  induction sessions as [|session rest IH]; [reflexivity|].
  cbn [matchSessions filter]. unfold ofAgentType at 1.
  destruct (String.eqb _ _) eqn:E; [|exact IH].
  cbn [matchSessions]. unfold ofAgentType in E. rewrite E.
  rewrite <- IH. reflexivity.
Qed.

(** X15.  The loop over the sessions does with a list of sessions what
    it does with the sessions of the agent's type in it: a session of another
    type costs neither a call nor a log line.  Without any session of that
    type the loop does nothing at all. *)
Theorem sessions_of_other_types_are_skipped :
  forall (config : Config) (zone : TimeZone) (env : Env) (fuel : nat)
         (self : Prog unit) (key : Key) (agent : Agent)
         (sessions : list Session) (st : St),
    matchSessions config zone fuel self key agent sessions
    = matchSessions config zone fuel self key agent
        (filter (ofAgentType agent) sessions)
    /\ (filter (ofAgentType agent) sessions = [] ->
        run env (matchSessions config zone fuel self key agent sessions) st
        = (Returned LoopDone, st)).
Proof.
  intros config zone env fuel self key agent sessions st.
  split; [apply matchSessions_skips|].
  intros H. rewrite matchSessions_skips, H. reflexivity.
Qed.

(** ** Starts that fail and waits that are interrupted *)

Section Failures.

Variable config : Config.
Variable zone : TimeZone.
Variable env : Env.
Variable self : Prog unit.
Variable key : Key.
Variable agent : Agent.

Lemma attemptLoop_three_failures (session : Session) (fuel : nat)
    (errors : nat -> Error) (st : St) :
  (forall i, delays env i = Ok tt) ->
  (forall i, starts env i = Err (errors i)) ->
  (3 <= fuel)%nat ->
  exists new,
    run env (attemptLoop config zone fuel self key agent session 0) st
    = (Returned LoopDone, recordAll new st)
    /\ startCalls new = 3%nat
    /\ backoffWaits new = [10000; 10000]
    /\ List.length (filter isSkipLine new) = 1%nat.
Proof.
  intros Hd Hs Hf.
  set (errs := fun i => errors (calls MStart (history st) + i)%nat).
  destruct (attemptLoop_failures config zone env self key agent session
              2 (fuel - 2) errs st ltac:(lia) Hd
              ltac:(intros i _; apply Hs)) as (F & FC & _).
  replace (2 + (fuel - 2))%nat with fuel in F by lia.
  destruct (fuel - 2)%nat as [|f] eqn:Ef; [lia|].
  exists (failedAttempts (startOp config key agent session) errs 2
          ++ lastFailedAttempt (startOp config key agent session)
               (errors (calls MStart (history st) + 2)%nat))%list.
  rewrite F.
  rewrite (attemptLoop_give_up config zone env self key agent session f
             (errors (calls MStart (history st) + 2)%nat))
    by (rewrite FC; apply Hs).
  rewrite recordAll_app.
  destruct (count_failedAttempts config key agent session errs 2) as [C1 C2].
  destruct (count_lastFailedAttempt config key agent session
              (errors (calls MStart (history st) + 2)%nat)) as [C3 C4].
  rewrite startCalls_app, backoffWaits_app, C1, C2, C3, C4.
  split; [reflexivity|]. split; [reflexivity|]. split; [reflexivity|].
  unfold startOp. destruct (isAutoMatch config); reflexivity.
Qed.

Lemma matchSessions_failures (sessions : list Session) (fuel : nat)
    (errors : nat -> Error) (st : St) :
  automationEnabled agent = false ->
  (forall i, delays env i = Ok tt) ->
  (forall i, starts env i = Err (errors i)) ->
  (3 <= fuel)%nat ->
  exists new,
    run env (matchSessions config zone fuel self key agent sessions) st
    = (Returned LoopDone, recordAll new st)
    /\ startCalls new = (3 * List.length (filter (ofAgentType agent) sessions))%nat
    /\ backoffWaits new
       = repeat 10000 (2 * List.length (filter (ofAgentType agent) sessions))
    /\ List.length (filter isSkipLine new)
       = List.length (filter (ofAgentType agent) sessions).
Proof.
  intros Ha Hd Hs Hf. revert st.
  induction sessions as [|session rest IH]; intros st.
  - exists []. repeat split.
  - cbn [matchSessions filter]. fold (ofAgentType agent session).
    destruct (ofAgentType agent session); [|apply IH].
    rewrite Ha. cbn [negb]. rewrite run_bind.
    destruct (attemptLoop_three_failures session fuel errors st Hd Hs Hf)
      as (new1 & R1 & S1 & B1 & K1).
    rewrite R1.
    destruct (IH (recordAll new1 st)) as (new2 & R2 & S2 & B2 & K2).
    rewrite R2. exists (new1 ++ new2)%list.
    rewrite recordAll_app, startCalls_app, backoffWaits_app, filter_app,
            length_app, S1, S2, B1, B2, K1, K2.
    cbn [List.length].
    repeat split; try lia.
    replace (2 * S (List.length (filter (ofAgentType agent) rest)))%nat
      with (S (S (2 * List.length (filter (ofAgentType agent) rest)))) by lia.
    reflexivity.
Qed.

End Failures.

(** X16.  The retry budget is per session.  With a start function that
    always throws and delays that run to their end, the loop over the
    sessions makes three start calls, two backoff waits and one skip line for
    each session of the agent's type, goes through the whole list and is left
    normally, the variables untouched. *)
Theorem failing_starts_cost_three_attempts_per_session :
  forall (config : Config) (zone : TimeZone) (env : Env) (fuel : nat)
         (self : Prog unit) (key : Key) (agent : Agent)
         (sessions : list Session) (errors : nat -> Error) (st : St),
    automationEnabled agent = false ->
    (forall i, delays env i = Ok tt) ->
    (forall i, starts env i = Err (errors i)) ->
    (3 <= fuel)%nat ->
    let r := run env (matchSessions config zone fuel self key agent sessions) st in
    let matching := List.length (filter (ofAgentType agent) sessions) in
    exists new,
      fst r = Returned LoopDone
      /\ events (snd r) = (events st ++ new)%list
      /\ globals (snd r) = globals st
      /\ startCalls new = (3 * matching)%nat
      /\ backoffWaits new = repeat 10000 (2 * matching)
      /\ List.length (filter isSkipLine new) = matching.
Proof.
  intros config zone env fuel self key agent sessions errors st
         Ha Hd Hs Hf r matching.
  destruct (matchSessions_failures config zone env self key agent sessions
              fuel errors st Ha Hd Hs Hf) as (new & R & S1 & B1 & K1).
  exists new. unfold r. rewrite R. cbn [fst snd].
  rewrite events_recordAll, globals_recordAll. repeat split; assumption.
Qed.

Section Interrupted.

Variable config : Config.
Variable zone : TimeZone.
Variable env : Env.
Variable self : Prog unit.
Variable key : Key.
Variable agent : Agent.
Variable session : Session.

Local Abbreviation op := (startOp config key agent session).

(** The two seconds of line 130 are rejected: the [catch] of the retry
    loop takes the error for a failed attempt. *)
Lemma attempt_pause_rejected (retryCount : Z) (e : Error) (st : St) :
  starts env (calls MStart (history st)) = Ok true ->
  delays env (calls MDelay (history st)) = Err e ->
  delays env (S (calls MDelay (history st))) = Ok tt ->
  sessionCount (globals st) + 1 < 6 ->
  retryCount + 1 < maxRetries ->
  run env (attempt config zone self key agent session retryCount) st
  = (Returned (Continue (retryCount + 1)),
     recordAll
       [ EvCall (Delay 2000 "Waiting before next match") (Rejected e);
         EvLog ToolsLog ("Attempt " ++ show (retryCount + 1) ++ "/3: " ++ e);
         EvCall (Delay 10000 "Waiting before retrying...") (Fulfilled false) ]
       (counted op (clock env (clockReads (history st))) st)).
Proof.
  intros Hs Hd1 Hd2 Hc Hr. unfold attempt.
  rewrite run_tryCatch, run_bind, run_startCall, Hs.
  unfold onStarted, onAttemptError.
  apply Z.leb_gt in Hc. apply Z.leb_gt in Hr.
  cbn -[String.append show handleSessionLimit Z.add].
  rewrite Hc.
  cbn -[String.append show handleSessionLimit Z.add].
  rewrite methodOf_start. cbn -[String.append show Z.add].
  rewrite Hd1. cbn -[String.append show Z.add].
  rewrite Hr. cbn -[String.append show Z.add].
  rewrite methodOf_start. cbn -[String.append show Z.add].
  rewrite Hd2. reflexivity.
Qed.

(** The wait for the next hour of line 126 is rejected: the same [catch]
    takes it for a failed attempt, and the counter keeps the value that
    called for the wait. *)
Lemma attempt_reset_wait_rejected (retryCount : Z) (e : Error) (st : St) :
  starts env (calls MStart (history st)) = Ok true ->
  delays env (calls MDelay (history st)) = Err e ->
  delays env (S (calls MDelay (history st))) = Ok tt ->
  6 <= sessionCount (globals st) + 1 ->
  retryCount + 1 < maxRetries ->
  let t := clock env (clockReads (history st)) in
  let t' := clock env (S (clockReads (history st))) in
  run env (attempt config zone self key agent session retryCount) st
  = (Returned (Continue (retryCount + 1)),
     recordAll
       ([ EvLog ToolsLog "Session limit reached. Waiting for the next hour..." ]
        ++ tl (gateEvents zone (sessionCount (globals st) + 1) t')
        ++ [ EvCall (Delay (remainingTimeAt zone t') resetWaitMsg) (Rejected e);
             EvLog ToolsLog ("Attempt " ++ show (retryCount + 1) ++ "/3: " ++ e);
             EvCall (Delay 10000 "Waiting before retrying...") (Fulfilled false) ])
       (counted op t st)).
Proof.
  intros Hs Hd1 Hd2 Hc Hr t t'. unfold attempt.
  rewrite run_tryCatch, run_bind, run_startCall, Hs.
  assert (P : forall now, (0 <? remainingTimeAt zone now) = true).
  { intros now. apply Z.ltb_lt. apply remainingTimeAt_pos. }
  unfold onStarted, onAttemptError, handleSessionLimit.
  apply Z.leb_le in Hc. apply Z.leb_gt in Hr.
  cbn -[String.append show Z.add remainingTimeAt ceilDiv].
  rewrite Hc.
  cbn -[String.append show Z.add remainingTimeAt ceilDiv].
  rewrite ?methodOf_start.
  cbn -[String.append show Z.add remainingTimeAt ceilDiv].
  rewrite ?P.
  cbn -[String.append show Z.add remainingTimeAt ceilDiv].
  rewrite ?methodOf_start.
  cbn -[String.append show Z.add remainingTimeAt ceilDiv].
  rewrite Hd1.
  cbn -[String.append show Z.add remainingTimeAt ceilDiv].
  rewrite Hr.
  cbn -[String.append show Z.add remainingTimeAt ceilDiv].
  rewrite ?methodOf_start.
  cbn -[String.append show Z.add remainingTimeAt ceilDiv].
  rewrite Hd2. reflexivity.
Qed.

(** The wait of line 140, in the [catch], is rejected: nothing catches it
    inside the loop. *)
Lemma attempt_backoff_rejected (retryCount : Z) (e1 e2 : Error) (st : St) :
  starts env (calls MStart (history st)) = Err e1 ->
  delays env (calls MDelay (history st)) = Err e2 ->
  retryCount + 1 < maxRetries ->
  run env (attempt config zone self key agent session retryCount) st
  = (Threw e2,
     recordAll
       [ EvCall op (Rejected e1);
         EvLog ToolsLog ("Attempt " ++ show (retryCount + 1) ++ "/3: " ++ e1);
         EvCall (Delay 10000 "Waiting before retrying...") (Rejected e2) ]
       st).
Proof.
  intros Hs Hd Hr. unfold attempt.
  rewrite run_tryCatch, run_bind, run_startCall, Hs.
  unfold onAttemptError. apply Z.leb_gt in Hr. rewrite Hr.
  cbn -[String.append show]. rewrite methodOf_start.
  cbn -[String.append show]. rewrite Hd. reflexivity.
Qed.

End Interrupted.

Lemma events_counted (op : Op) (t : Z) (st : St) :
  events (counted op t st)
  = (events st
     ++ [ EvCall op (Fulfilled true); EvNow t;
          EvLog ToolsLog ("Sessions used: " ++ show (sessionCount (globals st) + 1)
                          ++ "/6") ])%list.
Proof.
  unfold counted, events, trace.
  cbn [record setGlobals history globals rev].
  rewrite !map_app. cbn [map snd]. rewrite <- !app_assoc. reflexivity.
Qed.

Lemma attemptLoop_turn (config : Config) (zone : TimeZone) (fuel : nat)
    (self : Prog unit) (key : Key) (agent : Agent) (session : Session)
    (retryCount : Z) :
  retryCount < maxRetries ->
  attemptLoop config zone (S fuel) self key agent session retryCount
  = (step <- attempt config zone self key agent session retryCount ;;
     match step with
     | Continue retryCount' =>
         attemptLoop config zone fuel self key agent session retryCount'
     | Leave how => Ret how
     end).
Proof.
  intros H. apply Z.ltb_lt in H. cbn [attemptLoop]. rewrite H. reflexivity.
Qed.

(** X17.  The two seconds after a start (line 130) are interrupted.
    The [catch] of the retry loop takes the error for a failed attempt: it
    writes "Attempt 1/3", waits ten seconds, and the same session is started
    a second time.  Both starts are counted. *)
Theorem rejected_pause_repeats_the_start :
  forall (config : Config) (zone : TimeZone) (env : Env) (fuel : nat)
         (self : Prog unit) (key : Key) (agent : Agent) (session : Session)
         (st : St) (e : Error),
    starts env (calls MStart (history st)) = Ok true ->
    starts env (S (calls MStart (history st))) = Ok true ->
    delays env (calls MDelay (history st)) = Err e ->
    delays env (S (calls MDelay (history st))) = Ok tt ->
    delays env (S (S (calls MDelay (history st)))) = Ok tt ->
    sessionCount (globals st) + 2 < 6 ->
    let r := run env (attemptLoop config zone (S (S fuel)) self key agent
                        session 0) st in
    let op := startOp config key agent session in
    let c := sessionCount (globals st) in
    let t := clock env (clockReads (history st)) in
    let t' := clock env (S (clockReads (history st))) in
    fst r = Returned LoopDone
    /\ events (snd r)
       = (events st
          ++ [ EvCall op (Fulfilled true);
               EvNow t;
               EvLog ToolsLog ("Sessions used: " ++ show (c + 1) ++ "/6");
               EvCall (Delay 2000 "Waiting before next match") (Rejected e);
               EvLog ToolsLog ("Attempt 1/3: " ++ e);
               EvCall (Delay 10000 "Waiting before retrying...") (Fulfilled false);
               EvCall op (Fulfilled true);
               EvNow t';
               EvLog ToolsLog ("Sessions used: " ++ show (c + 2) ++ "/6");
               EvCall (Delay 2000 "Waiting before next match") (Fulfilled false) ])%list
    /\ sessionCount (globals (snd r)) = c + 2
    /\ lastSessionTime (globals (snd r)) = Some t'.
Proof.
  intros config zone env fuel self key agent session st e
         Hs1 Hs2 Hd1 Hd2 Hd3 Hc r op c t t'.
  unfold r.
  rewrite (attemptLoop_turn config zone (S fuel)) by reflexivity.
  rewrite run_bind.
  rewrite (attempt_pause_rejected config zone env self key agent session
             0 e st Hs1 Hd1 Hd2 ltac:(lia) ltac:(unfold maxRetries; lia)).
  cbv iota beta.
  set (st1 := recordAll _ (counted _ _ st)).
  assert (M : methodOf (startOp config key agent session) = MStart)
    by apply methodOf_start.
  assert (K1 : calls MStart (history st1) = S (calls MStart (history st))).
  { unfold st1, counted. cbn [recordAll record setGlobals history calls methodOf
                              Method_eqb]. rewrite M. reflexivity. }
  assert (K2 : calls MDelay (history st1) = S (S (calls MDelay (history st)))).
  { unfold st1, counted. cbn [recordAll record setGlobals history calls methodOf
                              Method_eqb]. rewrite M. reflexivity. }
  assert (K3 : clockReads (history st1) = S (clockReads (history st))).
  { unfold st1, counted. cbn [recordAll record setGlobals history clockReads].
    destruct (startOp config key agent session); reflexivity. }
  assert (K4 : globals st1 = mkGlobals (c + 1) (Some t)).
  { unfold st1. rewrite globals_recordAll. reflexivity. }
  rewrite (attemptLoop_started config zone env self key agent session
             fuel (0 + 1) st1)
    by (rewrite ?K1, ?K2, ?K4; cbn [sessionCount]; unfold maxRetries, c in *;
        first [assumption | lia]).
  cbn [fst snd]. split; [reflexivity|].
  rewrite events_started. unfold st1 at 1.
  rewrite events_recordAll, events_counted, K3, K4. cbn [sessionCount].
  fold op c t t'.
  replace (c + 1 + 1) with (c + 2) by lia.
  split; [rewrite <- !app_assoc; reflexivity|].
  unfold started. rewrite globals_recordAll.
  cbn [setGlobals globals sessionCount lastSessionTime]. rewrite K3, K4.
  cbn [sessionCount]. split; [lia|reflexivity].
Qed.

(** X18.  The wait for the next hour after the start that
    reached the quota (line 126) is interrupted.  The [catch] of the retry
    loop takes the error for a failed attempt; the counter is not reset, and
    after the backoff wait the next thing the loop awaits is a start call for
    the same session, with the counter at 6 or more. *)
Theorem rejected_reset_wait_starts_again_at_quota :
  forall (config : Config) (zone : TimeZone) (env : Env) (fuel : nat)
         (self : Prog unit) (key : Key) (agent : Agent) (session : Session)
         (st : St) (e : Error),
    starts env (calls MStart (history st)) = Ok true ->
    delays env (calls MDelay (history st)) = Err e ->
    delays env (S (calls MDelay (history st))) = Ok tt ->
    6 <= sessionCount (globals st) + 1 ->
    let op := startOp config key agent session in
    let c := sessionCount (globals st) + 1 in
    let t := clock env (clockReads (history st)) in
    let t' := clock env (S (clockReads (history st))) in
    exists st1 s,
      run env (attemptLoop config zone (S (S fuel)) self key agent session 0) st
      = run env (attemptLoop config zone (S fuel) self key agent session 1) st1
      /\ events st1
         = (events st
            ++ [ EvCall op (Fulfilled true);
                 EvNow t;
                 EvLog ToolsLog ("Sessions used: " ++ show c ++ "/6");
                 EvLog ToolsLog "Session limit reached. Waiting for the next hour...";
                 EvNow t';
                 EvLog ToolsLog
                   ("Session limit reached (" ++ show c ++ "/6). Waiting for "
                    ++ show (ceilDiv (remainingTimeAt zone t') 60000)
                    ++ " minutes until the next hour...");
                 EvCall (Delay (remainingTimeAt zone t') resetWaitMsg) (Rejected e);
                 EvLog ToolsLog ("Attempt 1/3: " ++ e);
                 EvCall (Delay 10000 "Waiting before retrying...") (Fulfilled false) ])%list
      /\ globals st1 = mkGlobals c (Some t)
      /\ advance env (attemptLoop config zone (S fuel) self key agent session 1)
                 st1 = (Pending s, st1)
      /\ pendingOp s = op.
Proof.
  intros config zone env fuel self key agent session st e
         Hs Hd1 Hd2 Hc op c t t'.
  pose proof (attempt_reset_wait_rejected config zone env self key agent
                session 0 e st Hs Hd1 Hd2 Hc ltac:(unfold maxRetries; lia)) as A.
  cbv zeta in A. fold t t' op c in A.
  match type of A with _ = (_, ?x) => set (st1 := x) in * end.
  assert (P : exists s,
             advance env (attemptLoop config zone (S fuel) self key agent
                            session 1) st1 = (Pending s, st1)
             /\ pendingOp s = op).
  { rewrite attemptLoop_turn by reflexivity.
    unfold attempt, startCall, op, startOp.
    destruct (isAutoMatch config); cbn [bind tryCatch await advance];
      eexists; split; reflexivity. }
  destruct P as (s & P1 & P2).
  exists st1, s. split; [|split; [|split; [|split; assumption]]].
  - rewrite (attemptLoop_turn config zone (S fuel)) by reflexivity.
    rewrite run_bind, A. reflexivity.
  - unfold st1. rewrite events_recordAll, events_counted. fold c op.
    unfold gateEvents. cbn [tl app]. rewrite <- !app_assoc. reflexivity.
  - unfold st1. rewrite globals_recordAll. reflexivity.
Qed.

(** X19.  The backoff wait of line 140 is interrupted.  It is awaited
    in the [catch], so nothing in the loop catches its error: the loop over
    the sessions is left with that error and the sessions that remain are not
    tried. *)
Theorem rejected_backoff_leaves_the_sessions :
  forall (config : Config) (zone : TimeZone) (env : Env) (fuel : nat)
         (self : Prog unit) (key : Key) (agent : Agent) (session : Session)
         (rest : list Session) (st : St) (e1 e2 : Error),
    ofAgentType agent session = true ->
    automationEnabled agent = false ->
    starts env (calls MStart (history st)) = Err e1 ->
    delays env (calls MDelay (history st)) = Err e2 ->
    run env (matchSessions config zone (S fuel) self key agent
               (session :: rest)) st
    = (Threw e2,
       recordAll
         [ EvCall (startOp config key agent session) (Rejected e1);
           EvLog ToolsLog ("Attempt 1/3: " ++ e1);
           EvCall (Delay 10000 "Waiting before retrying...") (Rejected e2) ]
         st).
Proof.
  intros config zone env fuel self key agent session rest st e1 e2
         Ht Ha Hs Hd.
  cbn [matchSessions]. unfold ofAgentType in Ht. rewrite Ht, Ha.
  cbn [negb]. rewrite run_bind.
  rewrite attemptLoop_turn by reflexivity.
  rewrite run_bind.
  rewrite (attempt_backoff_rejected config zone env self key agent session
             0 e1 e2 st Hs Hd ltac:(unfold maxRetries; lia)).
  reflexivity.
Qed.

(** X20.  The supervisor with keys.  When [data.txt] holds at least
    one key, [startBot] reports the number of keys and waits for the wallet
    loops.  When that wait is rejected it reports a critical error, waits
    five seconds and starts again from the top, reading the file once more;
    when it is fulfilled [startBot] returns. *)
Theorem startBot_supervises_the_wallets :
  forall (env : Env) (fuel : nat) (st : St) (content : JsString),
    files env (calls MReadFile (history st)) = Ok content ->
    let keys := filter (fun key => nonEmpty (trim key)) (split newline content) in
    keys <> [] ->
    let begun :=
      [ EvDisplay PanelInit;
        EvLog DisplayLog "Starting FractionAI Battle BOT...";
        EvCall (ReadFile "./data.txt") (Fulfilled true);
        EvLog DisplayLog ("Loaded " ++ show (Z.of_nat (List.length keys))
                          ++ " wallet(s)") ] in
    match joins env (calls MJoinWallets (history st)) with
    | Ok _ =>
        run env (startBot (S fuel)) st
        = (Returned tt,
           recordAll (begun ++ [EvCall (JoinWallets keys) (Fulfilled false)]) st)
    | Err e =>
        delays env (calls MDelay (history st)) = Ok tt ->
        run env (startBot (S fuel)) st
        = run env (startBot fuel)
            (recordAll
               (begun
                ++ [ EvCall (JoinWallets keys) (Rejected e);
                     EvLog DisplayLog ("Critical error: " ++ e);
                     EvCall (Delay 5000 "Restarting bot...") (Fulfilled false) ])
               st)
    end.
Proof.
  intros env fuel st content Hf keys Hk begun.
  assert (E : keptLines content = keys).
  { unfold keptLines, keys. apply filter_ext. intros line.
    symmetry. apply nonEmpty_trim. }
  assert (L : Nat.eqb (List.length keys) 0 = false).
  { apply Nat.eqb_neq. destruct keys; [congruence|simpl; lia]. }
  cbn [startBot]. rewrite run_tryCatch.
  cbn [bind emit displayLog run].
  rewrite run_bind, run_loadKeys.
  cbn [record history calls]. rewrite Hf, E. cbv beta iota.
  match goal with
  | |- context [Nat.eqb ?n 0] =>
      let L' := fresh "L" in
      assert (L' : Nat.eqb n 0 = false) by exact L; rewrite L'
  end.
  cbn -[String.append show keys].
  destruct (joins env (calls MJoinWallets (history st))) as [[]|e].
  - reflexivity.
  - intros Hd. cbn -[String.append show keys]. rewrite Hd. reflexivity.
Qed.

Lemma advance_runWallet_open (config : Config) (msToTime : Z -> string)
    (zone : TimeZone) (env : Env) (fuel : nat) (key : Key) (st : St) :
  sessionCount (globals st) < 6 ->
  exists s,
    advance env (runWallet config msToTime zone (S fuel) key) st
    = (Pending s, st)
    /\ pendingOp s = Connect key.
Proof.
  intros Hc. apply Z.leb_gt in Hc.
  cbn [runWallet]. unfold walletIteration.
  cbn [bind tryCatch getSessionCount advance]. rewrite Hc.
  unfold hydrate. cbn [bind tryCatch await advance].
  eexists; split; reflexivity.
Qed.

Lemma advance_runWallet_closed (config : Config) (msToTime : Z -> string)
    (zone : TimeZone) (env : Env) (fuel : nat) (key : Key) (st : St) :
  6 <= sessionCount (globals st) ->
  let now := clock env (clockReads (history st)) in
  exists s,
    advance env (runWallet config msToTime zone (S fuel) key) st
    = (Pending s, recordAll (gateEvents zone (sessionCount (globals st)) now) st)
    /\ pendingOp s = Delay (remainingTimeAt zone now) resetWaitMsg.
Proof.
  intros Hc now. apply Z.leb_le in Hc.
  pose proof (remainingTimeAt_pos zone now) as P. apply Z.ltb_lt in P.
  cbn [runWallet]. unfold walletIteration, handleSessionLimit.
  cbn -[String.append show remainingTimeAt ceilDiv]. rewrite Hc.
  cbn -[String.append show remainingTimeAt ceilDiv]. fold now. rewrite P.
  cbn -[String.append show remainingTimeAt ceilDiv].
  eexists; split; reflexivity.
Qed.

(** X21.  Line 183 starts one loop per key, in the order of the keys,
    each running up to its first [await].  Below the quota every loop stops at
    the [connect] of its own wallet and nothing is recorded.  At the quota
    every loop stops at its own wait for the next hour, each having read the
    clock for itself; no call has been answered and the variables are as
    they were. *)
Theorem wallets_are_launched_in_key_order :
  forall (config : Config) (msToTime : Z -> string) (zone : TimeZone)
         (env : Env) (fuel : nat) (keys : list Key) (st : St),
    let pool := launch env (map (runWallet config msToTime zone (S fuel)) keys)
                       st in
    (sessionCount (globals st) < 6 ->
       shared pool = st
       /\ map waitingFor (tasks pool) = map (fun key => Some (Connect key)) keys)
    /\ (6 <= sessionCount (globals st) ->
          globals (shared pool) = globals st
          /\ filter isCall (events (shared pool)) = filter isCall (events st)
          /\ map waitingFor (tasks pool)
             = map (fun i =>
                      Some (Delay (remainingTimeAt zone
                                     (clock env (clockReads (history st) + i)))
                                  resetWaitMsg))
                   (seq 0 (List.length keys))).
Proof.
  intros config msToTime zone env fuel keys st pool. subst pool. split.
  - intros Hc. induction keys as [|key rest [IH1 IH2]]; [split; reflexivity|].
    cbn [map launch].
    destruct (advance_runWallet_open config msToTime zone env fuel key st Hc)
      as (s & A & O).
    rewrite A. cbn [shared tasks map waitingFor]. rewrite IH1, IH2, O.
    split; reflexivity.
  - revert st. induction keys as [|key rest IH]; intros st Hc;
      [repeat split; reflexivity|].
    cbn [map launch].
    destruct (advance_runWallet_closed config msToTime zone env fuel key st Hc)
      as (s & A & O).
    cbv zeta in A, O. rewrite A.
    set (st1 := recordAll _ st) in *.
    assert (G : globals st1 = globals st) by apply globals_recordAll.
    assert (K : clockReads (history st1) = S (clockReads (history st)))
      by reflexivity.
    destruct (IH st1 ltac:(rewrite G; exact Hc)) as (I1 & I2 & I3).
    cbn [shared tasks map waitingFor List.length seq].
    rewrite I1, I2, I3, G, O, K. split; [reflexivity|]. split.
    + unfold st1. rewrite events_recordAll, filter_app.
      unfold gateEvents. cbn [filter isCall]. rewrite app_nil_r. reflexivity.
    + rewrite Nat.add_0_r. f_equal.
      rewrite <- seq_shift, map_map. apply map_ext. intros i.
      do 4 f_equal. lia.
Qed.

(** X22.  The module needs its configuration before anything else.  When
    [config.json] cannot be read or parsed the process exits with status 1
    right after the error line.  When it holds [null], line 18 throws at the
    top level of the module, where nothing catches it.  In all three cases
    the supervisor is not started and [data.txt] is not read.  Otherwise the
    supervisor starts after the two calls. *)
Theorem app_needs_its_configuration :
  forall (env : Env) (fuel : nat) (st : St),
    let read := ReadFile "config.json" in
    let failure e :=
      EvLog ConsoleError (crossMark ++ " Failed to load config.json: " ++ e) in
    match files env (calls MReadFile (history st)) with
    | Err e =>
        run env (appJs fuel) st
        = (Exited 1, recordAll [EvCall read (Rejected e); failure e] st)
    | Ok data =>
        match parses env (calls MJsonParse (history st)) with
        | Err e =>
            run env (appJs fuel) st
            = (Exited 1,
               recordAll [ EvCall read (Fulfilled true);
                           EvCall (JsonParse data) (Rejected e); failure e ] st)
        | Ok None =>
            run env (appJs fuel) st
            = (Threw nullConfigError,
               recordAll [ EvCall read (Fulfilled true);
                           EvCall (JsonParse data) (Fulfilled false) ] st)
        | Ok (Some _) =>
            run env (appJs fuel) st
            = run env (main fuel)
                (recordAll [ EvCall read (Fulfilled true);
                             EvCall (JsonParse data) (Fulfilled true) ] st)
        end
    end.
Proof.
  intros env fuel st read failure. unfold appJs, loadConfig, read, failure.
  rewrite run_bind, run_tryCatch, run_bind.
  cbn -[String.append crossMark main nullConfigError].
  destruct (files env (calls MReadFile (history st))) as [data|e];
    cbn -[String.append crossMark main nullConfigError]; [|reflexivity].
  destruct (parses env (calls MJsonParse (history st))) as [[config|]|e];
    cbn -[String.append crossMark main nullConfigError]; reflexivity.
Qed.

Section Started.

Variable config : Config.
Variable zone : TimeZone.
Variable env : Env.
Variable self : Prog unit.
Variable key : Key.
Variable agent : Agent.

Lemma starts_of_startedEvents (session : Session) (t c : Z) :
  filter isStartCall (startedEvents (startOp config key agent session) t c)
  = [EvCall (startOp config key agent session) (Fulfilled true)].
Proof. unfold startOp. destruct (isAutoMatch config); reflexivity. Qed.

Lemma matchSessions_started (sessions : list Session) (fuel : nat) (st : St) :
  automationEnabled agent = false ->
  (forall i, delays env i = Ok tt) ->
  (forall i, starts env i = Ok true) ->
  sessionCount (globals st)
  + Z.of_nat (List.length (filter (ofAgentType agent) sessions)) < 6 ->
  exists st',
    run env (matchSessions config zone (S fuel) self key agent sessions) st
    = (Returned LoopDone, st')
    /\ sessionCount (globals st')
       = sessionCount (globals st)
         + Z.of_nat (List.length (filter (ofAgentType agent) sessions))
    /\ exists new,
         events st' = (events st ++ new)%list
         /\ filter isStartCall new
            = map (fun session =>
                     EvCall (startOp config key agent session) (Fulfilled true))
                  (filter (ofAgentType agent) sessions)
         /\ backoffWaits new = [].
Proof.
  intros Ha Hd Hs. revert st.
  induction sessions as [|session rest IH]; intros st Hc.
  - exists st. split; [reflexivity|]. split; [simpl; lia|].
    exists []. rewrite app_nil_r. repeat split.
  - cbn [matchSessions filter] in *. fold (ofAgentType agent session) in *.
    destruct (ofAgentType agent session); [|apply IH; exact Hc].
    cbn [List.length] in Hc.
    rewrite Ha. cbn [negb]. rewrite run_bind.
    rewrite (attemptLoop_started config zone env self key agent session
               fuel 0 st (Hs _) (Hd _) ltac:(unfold maxRetries; lia) ltac:(lia)).
    set (st1 := started env (startOp config key agent session) st).
    assert (G : sessionCount (globals st1) = sessionCount (globals st) + 1).
    { unfold st1, started. rewrite globals_recordAll. reflexivity. }
    destruct (IH st1 ltac:(rewrite G; lia)) as (st' & R & C & new & E & F & B).
    exists st'. split; [exact R|]. split; [rewrite C, G; cbn [List.length]; lia|].
    exists (startedEvents (startOp config key agent session)
              (clock env (clockReads (history st)))
              (sessionCount (globals st) + 1) ++ new)%list.
    rewrite E. unfold st1. rewrite events_started, <- app_assoc.
    split; [reflexivity|].
    rewrite filter_app, backoffWaits_app, starts_of_startedEvents, F, B.
    cbn [map app].
    destruct (count_startedEvents config key agent session
                (clock env (clockReads (history st)))
                (sessionCount (globals st) + 1)) as [_ B1].
    rewrite B1. split; reflexivity.
Qed.

End Started.

(** X23.  With a start function that succeeds, delays that run to
    their end and room below the quota, the loop over the sessions starts
    each session of the agent's type exactly once, in the order of the list,
    without any backoff wait, and the counter goes up by the number of those
    sessions. *)
Theorem truthy_starts_are_made_once_per_session :
  forall (config : Config) (zone : TimeZone) (env : Env) (fuel : nat)
         (self : Prog unit) (key : Key) (agent : Agent)
         (sessions : list Session) (st : St),
    automationEnabled agent = false ->
    (forall i, delays env i = Ok tt) ->
    (forall i, starts env i = Ok true) ->
    let matching := filter (ofAgentType agent) sessions in
    sessionCount (globals st) + Z.of_nat (List.length matching) < 6 ->
    let r := run env (matchSessions config zone (S fuel) self key agent
                        sessions) st in
    fst r = Returned LoopDone
    /\ sessionCount (globals (snd r))
       = sessionCount (globals st) + Z.of_nat (List.length matching)
    /\ exists new,
         events (snd r) = (events st ++ new)%list
         /\ filter isStartCall new
            = map (fun session =>
                     EvCall (startOp config key agent session) (Fulfilled true))
                  matching
         /\ backoffWaits new = [].
Proof.
  intros config zone env fuel self key agent sessions st Ha Hd Hs
         matching Hc r.
  destruct (matchSessions_started config zone env self key agent sessions
              fuel st Ha Hd Hs Hc) as (st' & R & C & N).
  unfold r. rewrite R. cbn [fst snd]. split; [reflexivity|]. split; assumption.
Qed.

(** X24.  The start that reaches the quota ends the loop over the
    sessions.  After the wait for the next hour and the reset, [runWallet] is
    called from inside the loop (line 127), and unless that call throws, what
    it does is all that happens: the sessions that remain in the list are not
    started by this iteration. *)
Theorem reaching_the_quota_leaves_the_session_list :
  forall (config : Config) (zone : TimeZone) (env : Env) (fuel : nat)
         (self : Prog unit) (key : Key) (agent : Agent) (session : Session)
         (rest : list Session) (st : St),
    ofAgentType agent session = true ->
    automationEnabled agent = false ->
    starts env (calls MStart (history st)) = Ok true ->
    delays env (calls MDelay (history st)) = Ok tt ->
    6 <= sessionCount (globals st) + 1 ->
    let st1 := exhausted env zone (startOp config key agent session) st in
    (forall e, fst (run env self st1) <> Threw e) ->
    run env (matchSessions config zone (S fuel) self key agent
               (session :: rest)) st
    = (match fst (run env self st1) with
       | Returned _ => Returned FnReturn
       | Threw e => Threw e
       | OutOfFuel => OutOfFuel
       | Exited code => Exited code
       end,
       snd (run env self st1))
    /\ sessionCount (globals st1) = 0.
Proof.
  intros config zone env fuel self key agent session rest st
         Ht Ha Hs Hd Hc st1 Hself.
  split; [|reflexivity].
  cbn [matchSessions]. unfold ofAgentType in Ht. rewrite Ht, Ha.
  cbn [negb]. rewrite run_bind.
  rewrite attemptLoop_turn by reflexivity.
  rewrite run_bind.
  rewrite (attempt_exhausts config zone env self key agent session 0 st
             Hs Hd Hc).
  fold st1. rewrite run_tryCatch, run_bind.
  destruct (run env self st1) as [[[]|e| |c] st2]; cbn [fst snd] in *;
    try reflexivity.
  destruct (Hself e eq_refl).
Qed.

(** X25.  The quota is checked before a start call is made, not when
    it is answered.  Two wallets that wait for their start calls with the
    counter at 5 both get their match: the second start is answered with the
    counter at 6 and takes it to 7, and both wallets then wait for the next
    hour. *)
Theorem two_wallets_pass_the_quota :
  forall (config : Config) (zone : TimeZone) (env : Env)
         (key1 key2 : Key) (agent1 agent2 : Agent) (session1 session2 : Session)
         (fuel1 fuel2 : nat) (self1 self2 : Prog unit)
         (next1 next2 : LoopExit -> Prog unit) (st : St),
    sessionCount (globals st) = 5 ->
    starts env (calls MStart (history st)) = Ok true ->
    starts env (S (calls MStart (history st))) = Ok true ->
    let wallet1 :=
      how <- attemptLoop config zone (S fuel1) self1 key1 agent1 session1 0 ;;
      next1 how in
    let wallet2 :=
      how <- attemptLoop config zone (S fuel2) self2 key2 agent2 session2 0 ;;
      next2 how in
    let waiting := launch env [wallet1; wallet2] st in
    let pool := stepTasks env [0; 1]%nat waiting in
    let t := clock env (clockReads (history st)) in
    shared waiting = st
    /\ map waitingFor (tasks waiting)
       = [ Some (startOp config key1 agent1 session1);
           Some (startOp config key2 agent2 session2) ]
    /\ sessionCount (globals (shared pool)) = 7
    /\ filter (fun entry => isStartCall (snd entry)) (trace (shared pool))
       = (filter (fun entry => isStartCall (snd entry)) (trace st)
          ++ [ (globals st,
                EvCall (startOp config key1 agent1 session1) (Fulfilled true));
               (mkGlobals 6 (Some t),
                EvCall (startOp config key2 agent2 session2) (Fulfilled true)) ])%list
    /\ exists wait1 wait2,
         map waitingFor (tasks pool)
         = [ Some (Delay wait1 resetWaitMsg); Some (Delay wait2 resetWaitMsg) ].
Proof.
  intros config zone env key1 key2 agent1 agent2 session1 session2
         fuel1 fuel2 self1 self2 next1 next2 st Hc Hs1 Hs2
         wallet1 wallet2 waiting pool t.
  assert (P : forall now, (0 <? remainingTimeAt zone now) = true).
  { intros now. apply Z.ltb_lt. apply remainingTimeAt_pos. }
  subst pool waiting wallet1 wallet2.
  rewrite !attemptLoop_turn by reflexivity.
  unfold attempt, startCall, startOp, stepTasks, stepTask, resume.
  destruct (isAutoMatch config);
    cbn -[String.append show Z.add Z.leb remainingTimeAt ceilDiv];
    rewrite Hs1;
    cbn -[String.append show Z.add Z.leb remainingTimeAt ceilDiv];
    rewrite Hc; change (6 <=? 5 + 1) with true;
    cbn -[String.append show Z.add Z.leb remainingTimeAt ceilDiv];
    rewrite ?P;
    cbn -[String.append show Z.add Z.leb remainingTimeAt ceilDiv];
    rewrite Hs2;
    cbn -[String.append show Z.add Z.leb remainingTimeAt ceilDiv];
    change (6 <=? 5 + 1 + 1) with true;
    cbn -[String.append show Z.add Z.leb remainingTimeAt ceilDiv];
    rewrite ?P;
    cbn -[String.append show Z.add Z.leb remainingTimeAt ceilDiv];
    (split; [reflexivity|]); (split; [reflexivity|]);
    (split; [reflexivity|]);
    (split; [|eexists _, _; reflexivity]);
    unfold trace;
    cbn -[String.append show Z.add Z.leb remainingTimeAt ceilDiv];
    rewrite !filter_app;
    cbn -[String.append show Z.add Z.leb remainingTimeAt ceilDiv];
    rewrite ?app_nil_r, <- ?app_assoc; cbn [app];
    destruct st as [[c l] h]; cbn in *; subst c; reflexivity.
Qed.

Lemma wp_guard_mono (allowed : forall op : Op, Outcome (Resp op) -> Prop)
    (guard guard' : list Entry -> Globals -> Event -> Prop)
    {A : Type} (p : Prog A) (Q : Result A -> St -> Prop) :
  (forall h g e, guard h g e -> guard' h g e) ->
  forall st, wp allowed guard p Q st -> wp allowed guard' p Q st.
Proof.
  intros HG; induction p; simpl; intros st W; auto.
  - destruct W; auto.
  - intros t; destruct (W t); auto.
  - intros o Ho; destruct (W o Ho); auto.
Qed.

(** With delays that run to their end a call of [runWallet] uses up any
    budget, from any state. *)
Lemma runWallet_runs_on (config : Config) (msToTime : Z -> string) (zone : TimeZone)
    (env : Env) (fuel : nat) (key : Key) (st : St) :
  (forall i, delays env i = Ok tt) ->
  fst (run env (runWallet config msToTime zone fuel key) st) = OutOfFuel.
Proof.
  intros Hd.
  apply (wp_sound delaysResolve noGuard env
           (runWallet config msToTime zone fuel key)
           (fun r _ => r = OutOfFuel) st
           (respects_delays env Hd) (guarded_noGuard _)).
  apply (wp_guard_mono delaysResolve quotaGuard noGuard); [intros; exact I|].
  apply quota_runWallet.
Qed.

Lemma runWallet_turn (config : Config) (msToTime : Z -> string) (zone : TimeZone)
    (fuel : nat) (key : Key) :
  runWallet config msToTime zone (S fuel) key
  = tryCatch
      (walletIteration config msToTime zone fuel
         (runWallet config msToTime zone fuel key) key)
      (onWalletError (runWallet config msToTime zone fuel key)).
Proof. reflexivity. Qed.

(** X26.  One whole iteration.  Below the quota, with a hydration that
    goes well, an agent of the configured name without automation, a start
    function that succeeds and delays that run to their end, [runWallet]
    hydrates the wallet, starts each session of the agent's type once, waits
    the cool-down of line 156 and is called again; the counter has gone up by
    the number of sessions started. *)
Theorem an_iteration_ends_in_the_cool_down :
  forall (config : Config) (msToTime : Z -> string) (zone : TimeZone)
         (env : Env) (fuel : nat) (key : Key) (st : St)
         (before after : list Agent) (agent : Agent) (sessions : list Session),
    sessionCount (globals st) < 6 ->
    hydrates env st (before ++ agent :: after) sessions ->
    (forall other, In other before -> name other <> agentName config) ->
    name agent = agentName config ->
    automationEnabled agent = false ->
    (forall i, delays env i = Ok tt) ->
    (forall i, starts env i = Ok true) ->
    let matching := filter (ofAgentType agent) sessions in
    sessionCount (globals st) + Z.of_nat (List.length matching) < 6 ->
    let wait := minDuration sessions * 1000 in
    exists st' new,
      run env (runWallet config msToTime zone (S (S fuel)) key) st
      = run env (runWallet config msToTime zone (S fuel) key) st'
      /\ sessionCount (globals st')
         = sessionCount (globals st) + Z.of_nat (List.length matching)
      /\ events st'
         = (events st ++ hydrated key ++ new
            ++ [ EvCall (Delay wait ("Processing completed. Waiting for "
                                     ++ msToTime wait))
                        (Fulfilled false) ])%list
      /\ filter isStartCall new
         = map (fun session =>
                  EvCall (startOp config key agent session) (Fulfilled true))
               matching
      /\ backoffWaits new = [].
Proof.
  intros config msToTime zone env fuel key st before after agent sessions
         Hc Hh Hbefore Hname Ha Hd Hs matching Hq wait.
  set (self := runWallet config msToTime zone (S fuel) key).
  destruct (matchSessions_started config zone env self key agent sessions
              fuel (recordAll (hydrated key) st) Ha Hd Hs
              ltac:(rewrite globals_recordAll; exact Hq))
    as (st1 & R & C & new & E & F & B).
  rewrite globals_recordAll in C. rewrite events_recordAll in E.
  exists (record (EvCall (Delay wait ("Processing completed. Waiting for "
                                      ++ msToTime wait)) (Fulfilled false)) st1),
         new.
  split; [|split; [exact C|split; [|split; assumption]]].
  - rewrite runWallet_turn, run_tryCatch. fold self.
    rewrite (walletIteration_targets config msToTime zone env (S fuel) self
               key st before after agent sessions Hc Hh Hbefore Hname).
    rewrite run_bind, R. unfold coolDown.
    cbn [bind await run answer methodOf]. rewrite Hd.
    cbn [run replyOf truthy bind]. fold wait.
    pose proof (runWallet_runs_on config msToTime zone env (S fuel) key
                  (record (EvCall (Delay wait ("Processing completed. Waiting for "
                                               ++ msToTime wait))
                                  (Fulfilled false)) st1) Hd) as O.
    fold self in O.
    destruct (run env self _) as [r st2]. cbn [fst] in O. subst r. reflexivity.
  - rewrite events_record, E, <- !app_assoc. reflexivity.
Qed.

(** ** The theorems at work *)

Import Sample.



(** The cool-down at work on the two lists of durations. *)
Lemma coolDown_witness :
  map sessionDuration [mkSession arena; mkSession duel; mkSession league]
    = [200; 45; 90]
  /\ minDuration [mkSession arena; mkSession duel; mkSession league] = 45
  /\ map sessionDuration [mkSession arena; mkSession marathon] = [200; 300]
  /\ minDuration [mkSession arena; mkSession marathon] = 60.
Proof.
  split; [reflexivity|]. split.
  - apply (coolDown_is_least_duration msToTime busyEnv initialSt
             [mkSession arena; mkSession duel; mkSession league]).
    reflexivity.
  - split; [reflexivity|].
    apply (coolDown_is_least_duration msToTime busyEnv initialSt
             [mkSession arena; mkSession marathon]).
    reflexivity.
Defined.

(** The counter at work: entry 9 of the run is the first start, entry 10 reads one
    session. *)
Lemma counter_witness :
  nth_error (trace (snd (run busyEnv (runWallet config msToTime utc 2 key1)
                           initialSt))) 9
    = Some (initialGlobals,
            EvCall (StartMatch key1 bob (mkSession arena)) (Fulfilled true))
  /\ nth_error (trace (snd (run busyEnv (runWallet config msToTime utc 2 key1)
                              initialSt))) 10
     = Some (mkGlobals 1 None, EvNow 0)
  /\ sessionCount (mkGlobals 1 None) = sessionCount initialGlobals + 1.
Proof.
  split; [reflexivity|]. split; [reflexivity|].
  apply (proj1 (counter_counts_truthy_starts config msToTime utc busyEnv 2 key1
                  initialGlobals)
           9%nat initialGlobals
           (EvCall (StartMatch key1 bob (mkSession arena)) (Fulfilled true))
           (mkGlobals 1 None) (EvNow 0));
    reflexivity.
Defined.

(** Two wallets at work: the start of the first wallet closes the gate of the
    second. *)
Lemma shared_counter_witness :
  0 < maxRetries
  /\ starts busyEnv (calls MStart (history nearQuota)) = Ok true
  /\ exists s1,
       advance busyEnv
         (attemptLoop config utc 1 (Ret tt) key1 bob (mkSession arena) 0)
         nearQuota = (Pending s1, nearQuota)
       /\ sessionCount (globals (snd (resume busyEnv s1 nearQuota))) = 6
       /\ exists s2 ms,
            fst (advance busyEnv (runWallet config msToTime utc 1 key2)
                   (snd (resume busyEnv s1 nearQuota))) = Pending s2
            /\ pendingOp s2 = Delay ms resetWaitMsg.
Proof.
  split; [reflexivity|]. split; [reflexivity|].
  destruct (wallets_share_the_counter config msToTime utc busyEnv key1 key2 bob
              (mkSession arena) 0 0 (Ret tt) 0 nearQuota
              ltac:(reflexivity) ltac:(reflexivity))
    as (s1 & A & _ & C & _ & _ & G & _).
  exists s1. split; [exact A|]. split; [exact C|].
  destruct (G ltac:(cbv; discriminate)) as (s2 & ms & now & P & O & _).
  exists s2, ms. split; assumption.
Defined.

(** The wait for the next hour at work.  In New York at 01:30 on the night
    of 3 November 2024, before the clocks go back, the wait is ninety
    minutes and ends at 02:00:00.000 of the local clock; under UTC, half an
    hour after the epoch, the wait is the half hour that is left and no hour
    begins before its end. *)
Lemma next_hour_witness :
  remainingTimeAt newYork2024 1730611800000 = 5400000
  /\ LocalTime newYork2024 1730611800000 = 1730597400000
  /\ LocalTime newYork2024 (1730611800000 + 5400000) = 1730599200000
  /\ getHours newYork2024 1730611800000 = 1
  /\ getHours newYork2024 (1730611800000 + 5400000) = 2
  /\ In (EvCall (Delay 5400000 resetWaitMsg) (Fulfilled false))
        (events (snd (run (clockEnv 1730611800000)
                        (handleSessionLimit newYork2024) atQuota)))
  /\ remainingTimeAt utc 1800000 = 1800000
  /\ (forall t, 1800000 < t < 1800000 + 1800000 ->
                (LocalTime utc t) mod msPerHour <> 0).
Proof.
  pose proof (handleSessionLimit_waits_for_next_hour newYork2024
                (clockEnv 1730611800000) atQuota) as H.
  cbv zeta in H. destruct H as (_ & _ & D & _ & P & E & _).
  specialize (P (fullHourAhead newYork2024)).
  specialize (D P).
  specialize (E ltac:(vm_compute; reflexivity)).
  destruct E as (E1 & E2 & _).
  pose proof (handleSessionLimit_waits_for_next_hour utc (clockEnv 1800000)
                initialSt) as U.
  cbv zeta in U. destruct U as (_ & _ & _ & _ & _ & _ & U).
  specialize (U ltac:(intros; reflexivity) ltac:(reflexivity)).
  destruct U as (_ & U1 & U2).
  split; [reflexivity|]. split; [reflexivity|].
  split; [exact E1|]. split; [reflexivity|]. split; [exact E2|].
  split; [exact D|]. split; [exact U1|exact U2].
Defined.

(** In the Chatham Islands at 02:50 on the night of 7 April 2024, five
    minutes after the clocks have gone back, the next full hour is 03:00,
    which [Date] reads as the 03:00 that has passed: the time computed is
    fifty minutes below zero, nothing is awaited and the counter is cleared
    at once, ten minutes before the wall clock shows 03:00. *)
Lemma no_wait_in_a_repeated_hour :
  LocalTime chatham2024 1712412300000 = 1712458200000
  /\ getHours chatham2024 1712412300000 = 2
  /\ MinFromTime (LocalTime chatham2024 1712412300000) = 50
  /\ nextFullHour (LocalTime chatham2024 1712412300000) = 1712458800000
  /\ LocalTime chatham2024 (1712412300000 + 600000) = 1712458800000
  /\ remainingTimeAt chatham2024 1712412300000 = -3000000
  /\ remainingTimeAt chatham2024 1712412300000 <> 600000
  /\ run (clockEnv 1712412300000) (handleSessionLimit chatham2024) atQuota
     = (Returned tt,
        mkSt (mkGlobals 0 None) [(globals atQuota, EvNow 1712412300000)])
  /\ filter isResetWait
        (events (snd (run (clockEnv 1712412300000)
                        (handleSessionLimit chatham2024) atQuota)))
     = [].
Proof. vm_compute. repeat split. discriminate. Qed.

(** The spinning loop at work: fifty turns and no end. *)
Lemma falsy_start_witness :
  0 < maxRetries
  /\ (forall i, starts falsyEnv (calls MStart (history initialSt) + i) = Ok false)
  /\ fst (run falsyEnv
            (attemptLoop config utc 50 (Ret tt) key1 bob (mkSession arena) 0)
            initialSt) = OutOfFuel
  /\ events (snd (run falsyEnv
                    (attemptLoop config utc 50 (Ret tt) key1 bob
                       (mkSession arena) 0)
                    initialSt))
     = repeat (EvCall (StartMatch key1 bob (mkSession arena)) (Fulfilled false)) 50.
Proof.
  assert (H : forall i,
             starts falsyEnv (calls MStart (history initialSt) + i) = Ok false)
    by (intros; reflexivity).
  split; [reflexivity|]. split; [exact H|].
  destruct (falsy_start_spins config utc falsyEnv 50 (Ret tt) key1 bob
              (mkSession arena) 0 initialSt ltac:(reflexivity) H)
    as (R & E & _).
  split; [exact R|exact E].
Defined.

(** The supervisor at work: four rounds without a key file, and the exit when the wait
    before the restart fails. *)
Lemma startBot_witness :
  noKeys (files busyEnv (calls MReadFile (history initialSt)))
  /\ (forall i, noKeys (files busyEnv i))
  /\ (forall i, delays busyEnv i = Ok tt)
  /\ fst (run busyEnv (main 4) initialSt) = OutOfFuel
  /\ calls MReadFile (history (snd (run busyEnv (main 4) initialSt))) = 4%nat
  /\ delays interruptedEnv (calls MDelay (history initialSt)) = Err "interrupted"
  /\ fst (run interruptedEnv (main 1) initialSt) = Exited 1.
Proof.
  assert (K : forall i, noKeys (files busyEnv i)) by (intros; exact I).
  assert (D : forall i, delays busyEnv i = Ok tt) by (intros; reflexivity).
  split; [exact I|]. split; [exact K|]. split; [exact D|].
  destruct (startBot_restarts_without_keys busyEnv 4 initialSt I) as (_ & _ & A).
  destruct (A K D) as (R & C & _).
  split; [exact R|]. split; [exact C|]. split; [reflexivity|].
  destruct (startBot_restarts_without_keys interruptedEnv 0 initialSt I)
    as (_ & B & _).
  apply (B "interrupted"). reflexivity.
Defined.

(** The reset does not survive an interrupted wait: when the delay is
    rejected,
    [handleSessionLimit] throws and the counter is still 6, the last time
    still set. *)
Lemma interrupted_wait_keeps_counter :
  fst (run interruptedEnv (handleSessionLimit utc) atQuota) = Threw "interrupted"
  /\ sessionCount (globals (snd (run interruptedEnv (handleSessionLimit utc) atQuota)))
     = 6
  /\ lastSessionTime (globals (snd (run interruptedEnv (handleSessionLimit utc) atQuota)))
     = Some 5
  /\ ~ (sessionCount
          (globals (snd (run interruptedEnv (handleSessionLimit utc) atQuota))) = 0
        /\ lastSessionTime
             (globals (snd (run interruptedEnv (handleSessionLimit utc) atQuota)))
           = None).
Proof.
  repeat split; try reflexivity.
  intros [H _]; vm_compute in H; discriminate H.
Qed.

(** Missing keys do not end the process: without a key file, and with a
    key file that holds blank lines only, the process has not exited after
    four rounds; it has read the file four times and waited four times. *)
Lemma missing_keys_do_not_exit :
  fst (run busyEnv (main 4) initialSt) = OutOfFuel
  /\ calls MReadFile (history (snd (run busyEnv (main 4) initialSt))) = 4%nat
  /\ calls MDelay (history (snd (run busyEnv (main 4) initialSt))) = 4%nat
  /\ fst (run blankEnv (main 4) initialSt) = OutOfFuel
  /\ calls MReadFile (history (snd (run blankEnv (main 4) initialSt))) = 4%nat
  /\ events (snd (run busyEnv (main 1) initialSt))
     = [ EvDisplay PanelInit;
         EvLog DisplayLog "Starting FractionAI Battle BOT...";
         EvCall (ReadFile "./data.txt") (Rejected "ENOENT");
         EvLog DisplayLog
           "Critical error: Please create data.txt with your private keys (one per line)";
         EvCall (Delay 5000 "Restarting bot...") (Fulfilled false) ]
  /\ ~ (exists code, fst (run busyEnv (main 4) initialSt) = Exited code)
  /\ ~ (exists code, fst (run blankEnv (main 4) initialSt) = Exited code).
Proof.
  repeat split; try reflexivity; intros [code H]; vm_compute in H; discriminate H.
Qed.

(** Two wallets on one event loop, one session each, the counter two short
    of the quota.  The first wallet starts its match, then the second; the
    first ends its iteration, comes back to its gate and waits for the next
    hour, having started one match itself. *)
Example two_wallets_one_quota :
  let pool :=
    stepTasks oneSessionEnv
      [0; 0; 0; 0; 0; 0; 0; 1; 1; 1; 1; 1; 1; 1; 0; 0]%nat
      (launch oneSessionEnv
         [runWallet config msToTime utc 3 key1; runWallet config msToTime utc 3 key2]
         twoShort) in
  sessionCount (globals (shared pool)) = 6
  /\ map (fun t => match t with
                   | Pending s => Some (pendingOp s)
                   | Settled _ => None
                   end) (tasks pool)
     = [ Some (Delay 3597000 resetWaitMsg); Some (Delay 3598000 resetWaitMsg) ]
  /\ filter isStartCall (events (shared pool))
     = [ EvCall (StartMatch key1 bob (mkSession arena)) (Fulfilled true);
         EvCall (StartMatch key2 bob (mkSession arena)) (Fulfilled true) ].
Proof. vm_compute. repeat split. Qed.


(** When the wait for the next hour is interrupted, the error is caught by
    the retry loop, which waits ten seconds and starts a match again with
    the counter still at 6. *)
Example interrupted_wait_retries_at_quota :
  filter (fun entry => isStartCall (snd entry))
    (trace (snd (run interruptedOnceEnv
                   (attemptLoop config utc 2 (Ret tt) key1 bob (mkSession arena) 0)
                   nearQuota)))
  = [ (mkGlobals 5 (Some 5),
       EvCall (StartMatch key1 bob (mkSession arena)) (Fulfilled true));
      (mkGlobals 6 (Some 0),
       EvCall (StartMatch key1 bob (mkSession arena)) (Fulfilled true)) ].
Proof. vm_compute. reflexivity. Qed.

(** ** The further properties at work *)

(** The countdown of a wait of two and a half seconds. *)
Lemma countdown_witness :
  0 <= 2500
  /\ countdownFor 2500 10
     = [ "Waiting for the next hour to start... [0:02 remaining]";
         "Waiting for the next hour to start... [0:01 remaining]";
         "Waiting for the next hour to start... [0:00 remaining]" ].
Proof.
  assert (H : 0 <= 2500) by lia.
  split; [exact H|].
  destruct (countdown_runs_down_to_zero 2500 10 H) as [E _].
  rewrite E. reflexivity.
Defined.

(** Two key files put together. *)
Lemma joined_texts_witness :
  files (fileEnv key1) (calls MReadFile (history initialSt)) = Ok key1
  /\ files (fileEnv key2) (calls MReadFile (history initialSt)) = Ok key2
  /\ files (fileEnv twoKeys) (calls MReadFile (history initialSt))
     = Ok (key1 ++ newline :: key2)%list
  /\ fst (run (fileEnv twoKeys) loadKeys initialSt) = Returned [key1; key2].
Proof.
  split; [reflexivity|]. split; [reflexivity|]. split; [reflexivity|].
  destruct (loadKeys_of_joined_texts (fileEnv key1) (fileEnv key2)
              (fileEnv twoKeys) initialSt initialSt initialSt key1 key2
              eq_refl eq_refl eq_refl)
    as (keysA & keysB & A & B & AB & _).
  rewrite AB. injection A as <-. injection B as <-. reflexivity.
Defined.

(** The cool-down of two lists and of the same sessions in another
    order. *)
Lemma together_witness :
  Permutation [mkSession arena; mkSession duel] [mkSession duel; mkSession arena]
  /\ minDuration [mkSession arena; mkSession duel]
     = minDuration [mkSession duel; mkSession arena].
Proof.
  assert (P : Permutation [mkSession arena; mkSession duel]
                          [mkSession duel; mkSession arena])
    by apply perm_swap.
  split; [exact P|].
  apply (minDuration_of_sessions_together
           [mkSession arena; mkSession duel] [mkSession duel; mkSession arena]).
  exact P.
Defined.

(** A wallet loop that ends: at the quota, with every delay interrupted,
    the call is rejected with the error of the last wait. *)
Lemma never_fulfils_witness :
  fst (run interruptedEnv (runWallet config msToTime utc 1 key1) atQuota)
  = Threw "interrupted"
  /\ exists g message earlier,
       history (snd (run interruptedEnv (runWallet config msToTime utc 1 key1) atQuota))
       = (g, EvCall (Delay 10000 ("Error: " ++ message ++ ". Retrying in 10s..."))
                    (Rejected "interrupted")) :: earlier.
Proof.
  assert (R : fst (run interruptedEnv (runWallet config msToTime utc 1 key1) atQuota)
              = Threw "interrupted") by reflexivity.
  split; [exact R|].
  destruct (runWallet_never_fulfils config msToTime utc interruptedEnv 1 key1 atQuota)
    as (_ & _ & T).
  apply T. exact R.
Defined.

(** The process exits when the wait before the restart is interrupted. *)
Lemma main_exit_witness :
  fst (run interruptedEnv (main 1) initialSt) = Exited 1
  /\ exists g g' e earlier,
       history (snd (run interruptedEnv (main 1) initialSt))
       = (g, EvLog ConsoleError ("Fatal error: " ++ e))
         :: (g', EvCall (Delay 5000 "Restarting bot...") (Rejected e))
         :: earlier.
Proof.
  assert (R : fst (run interruptedEnv (main 1) initialSt) = Exited 1)
    by reflexivity.
  split; [exact R|].
  destruct (main_exits_only_after_failed_restart interruptedEnv 1 initialSt)
    as (_ & E & _).
  destruct (E 1 R) as [_ H]. exact H.
Defined.

(** The first start call of a run. *)
Lemma own_wallet_witness :
  In (EvCall (StartMatch key1 bob (mkSession arena)) (Fulfilled true))
     (events (snd (run busyEnv (runWallet config msToTime utc 2 key1)
                     (mkSt initialGlobals []))))
  /\ matchMode config <> "auto"
  /\ name bob = agentName config
  /\ automationEnabled bob = false.
Proof.
  assert (H : In (EvCall (StartMatch key1 bob (mkSession arena)) (Fulfilled true))
                 (events (snd (run busyEnv (runWallet config msToTime utc 2 key1)
                                 (mkSt initialGlobals []))))).
  { apply (nth_error_In _ 9). vm_compute. reflexivity. }
  split; [exact H|].
  pose proof (runWallet_calls_its_own_wallet config msToTime utc busyEnv 2 key1
                initialGlobals _ _ H) as (M & _ & N & A & _).
  split; [exact M|]. split; [exact N|exact A].
Defined.

(** A wallet without agents. *)
Lemma no_agents_witness :
  sessionCount (globals initialSt) < 6
  /\ hydrates (envOf [] (fun _ => Ok tt)) initialSt [] sixSessions
  /\ calls MDelay
       (history (snd (run (envOf [] (fun _ => Ok tt))
                        (runWallet config msToTime utc 1 key1) initialSt)))
     = 2%nat.
Proof.
  assert (C : sessionCount (globals initialSt) < 6) by reflexivity.
  assert (H : hydrates (envOf [] (fun _ => Ok tt)) initialSt [] sixSessions)
    by (repeat split).
  split; [exact C|]. split; [exact H|].
  destruct (no_agents_waits_and_retries config msToTime utc
              (envOf [] (fun _ => Ok tt)) 0 key1 initialSt sixSessions
              C H eq_refl eq_refl) as [R _].
  rewrite R. reflexivity.
Defined.

(** A wallet whose agents have other names. *)
Lemma missing_target_witness :
  sessionCount (globals initialSt) < 6
  /\ hydrates (envOf [alice] (fun _ => Ok tt)) initialSt [alice] sixSessions
  /\ [alice] <> []
  /\ (forall agent, In agent [alice] -> name agent <> agentName config)
  /\ calls MConnect
       (history (snd (run (envOf [alice] (fun _ => Ok tt))
                        (runWallet config msToTime utc 1 key1) initialSt)))
     = 1%nat.
Proof.
  assert (C : sessionCount (globals initialSt) < 6) by reflexivity.
  assert (H : hydrates (envOf [alice] (fun _ => Ok tt)) initialSt [alice] sixSessions)
    by (repeat split).
  assert (N : [alice] <> []) by discriminate.
  assert (O : forall agent, In agent [alice] -> name agent <> agentName config).
  { intros agent [<-|[]]. discriminate. }
  split; [exact C|]. split; [exact H|]. split; [exact N|]. split; [exact O|].
  destruct (missing_target_agent_retries config msToTime utc
              (envOf [alice] (fun _ => Ok tt)) 0 key1 initialSt [alice]
              sixSessions C H N O eq_refl) as [R _].
  rewrite R. reflexivity.
Defined.

(** Two agents called bob: the first one is the target. *)
Lemma first_of_name_witness :
  sessionCount (globals initialSt) < 6
  /\ hydrates (envOf [alice; bob; bobAgain] (fun _ => Ok tt)) initialSt
       ([alice] ++ bob :: [bobAgain]) sixSessions
  /\ (forall other, In other [alice] -> name other <> agentName config)
  /\ name bob = agentName config
  /\ run (envOf [alice; bob; bobAgain] (fun _ => Ok tt))
         (walletIteration config msToTime utc 0 (Ret tt) key1) initialSt
     = run (envOf [alice; bob; bobAgain] (fun _ => Ok tt))
         (how <- matchSessions config utc 0 (Ret tt) key1 bob sixSessions ;;
          match how with
          | FnReturn => Ret tt
          | LoopDone => coolDown msToTime sixSessions ;; Ret tt
          end)
         (recordAll (hydrated key1) initialSt).
Proof.
  assert (C : sessionCount (globals initialSt) < 6) by reflexivity.
  assert (H : hydrates (envOf [alice; bob; bobAgain] (fun _ => Ok tt)) initialSt
                ([alice] ++ bob :: [bobAgain]) sixSessions)
    by (repeat split).
  assert (O : forall other, In other [alice] -> name other <> agentName config).
  { intros other [<-|[]]. discriminate. }
  split; [exact C|]. split; [exact H|]. split; [exact O|].
  split; [reflexivity|].
  apply (target_agent_is_first_of_that_name config msToTime utc
           (envOf [alice; bob; bobAgain] (fun _ => Ok tt)) 0 (Ret tt) key1
           initialSt [alice] [bobAgain] bob sixSessions C H O eq_refl).
Defined.

(** A refused login: two calls go well, the third is the last. *)
Lemma refused_login_witness :
  nth_error (hydrationCalls key1) 2 = Some (Login key1)
  /\ nextReply refusedEnv initialSt (Login key1) = Rejected "unauthorized"
  /\ run refusedEnv (hydrate key1) initialSt
     = (Threw "unauthorized",
        recordAll [ EvCall (Connect key1) (Fulfilled false);
                    EvCall (GetBalance key1) (Fulfilled false);
                    EvCall (Login key1) (Rejected "unauthorized") ] initialSt).
Proof.
  split; [reflexivity|]. split; [reflexivity|].
  assert (P : forall j earlier, (j < 2)%nat ->
                nth_error (hydrationCalls key1) j = Some earlier ->
                exists b, nextReply refusedEnv initialSt earlier = Fulfilled b).
  { intros [|[|j]] earlier Hj N; try lia;
      injection N as <-; exists false; reflexivity. }
  destruct (hydration_stops_at_first_failure config msToTime utc refusedEnv 0 key1
              initialSt 2 (Login key1) "unauthorized" eq_refl P eq_refl)
    as [R _].
  exact R.
Defined.

(** The wait at the gate is interrupted once. *)
Lemma gate_retry_witness :
  6 <= sessionCount (globals atQuota)
  /\ delays interruptedOnceEnv (calls MDelay (history atQuota)) = Err "interrupted"
  /\ delays interruptedOnceEnv (S (calls MDelay (history atQuota))) = Ok tt
  /\ calls MConnect
       (history (snd (run interruptedOnceEnv (runWallet config msToTime utc 1 key1)
                        atQuota)))
     = 0%nat.
Proof.
  assert (C : 6 <= sessionCount (globals atQuota)) by (cbv; discriminate).
  split; [exact C|]. split; [reflexivity|]. split; [reflexivity|].
  destruct (interrupted_gate_wait_is_retried config msToTime utc interruptedOnceEnv
              0 key1 atQuota "interrupted" C eq_refl eq_refl) as [R _].
  rewrite R. reflexivity.
Defined.

(** Sessions of another type cost nothing. *)
Lemma other_types_witness :
  filter (ofAgentType bob) [mkSession duel; mkSession league] = []
  /\ run busyEnv
       (matchSessions config utc 1 (Ret tt) key1 bob [mkSession duel; mkSession league])
       initialSt
     = (Returned LoopDone, initialSt).
Proof.
  assert (F : filter (ofAgentType bob) [mkSession duel; mkSession league] = [])
    by reflexivity.
  split; [exact F|].
  apply (sessions_of_other_types_are_skipped config utc busyEnv 1 (Ret tt) key1 bob
           [mkSession duel; mkSession league] initialSt).
  exact F.
Defined.

(** Two sessions of the agent's type among three, every start goes
    well. *)
Lemma once_per_session_witness :
  automationEnabled bob = false
  /\ (forall i, delays busyEnv i = Ok tt)
  /\ (forall i, starts busyEnv i = Ok true)
  /\ sessionCount (globals initialSt)
     + Z.of_nat (List.length (filter (ofAgentType bob) mixedSessions)) < 6
  /\ sessionCount
       (globals (snd (run busyEnv
                        (matchSessions config utc 1 (Ret tt) key1 bob mixedSessions)
                        initialSt)))
     = 2.
Proof.
  assert (D : forall i, delays busyEnv i = Ok tt) by (intros; reflexivity).
  assert (S0 : forall i, starts busyEnv i = Ok true) by (intros; reflexivity).
  assert (C : sessionCount (globals initialSt)
              + Z.of_nat (List.length (filter (ofAgentType bob) mixedSessions)) < 6)
    by reflexivity.
  split; [reflexivity|]. split; [exact D|]. split; [exact S0|]. split; [exact C|].
  destruct (truthy_starts_are_made_once_per_session config utc busyEnv 0 (Ret tt)
              key1 bob mixedSessions initialSt eq_refl D S0 C) as (_ & G & _).
  rewrite G. reflexivity.
Defined.

(** Six sessions, every start throws: eighteen attempts. *)
Lemma three_attempts_witness :
  automationEnabled bob = false
  /\ (forall i, delays downEnv i = Ok tt)
  /\ (forall i, starts downEnv i = Err "down")
  /\ (3 <= 3)%nat
  /\ exists new,
       events (snd (run downEnv
                      (matchSessions config utc 3 (Ret tt) key1 bob sixSessions)
                      initialSt)) = new
       /\ startCalls new = 18%nat.
Proof.
  assert (D : forall i, delays downEnv i = Ok tt) by (intros; reflexivity).
  assert (S0 : forall i, starts downEnv i = Err ((fun _ => "down") i))
    by (intros; reflexivity).
  split; [reflexivity|]. split; [exact D|]. split; [exact S0|].
  split; [lia|].
  destruct (failing_starts_cost_three_attempts_per_session config utc downEnv 3
              (Ret tt) key1 bob sixSessions (fun _ => "down") initialSt
              eq_refl D S0 ltac:(lia)) as (new & _ & E & _ & C & _).
  exists new. split; [exact E|exact C].
Defined.

(** The pause after a start is interrupted: the session is started
    twice. *)
Lemma repeated_start_witness :
  starts interruptedOnceEnv (calls MStart (history initialSt)) = Ok true
  /\ delays interruptedOnceEnv (calls MDelay (history initialSt)) = Err "interrupted"
  /\ sessionCount (globals initialSt) + 2 < 6
  /\ sessionCount
       (globals (snd (run interruptedOnceEnv
                        (attemptLoop config utc 2 (Ret tt) key1 bob (mkSession arena) 0)
                        initialSt)))
     = 2.
Proof.
  split; [reflexivity|]. split; [reflexivity|]. split; [reflexivity|].
  destruct (rejected_pause_repeats_the_start config utc interruptedOnceEnv 0 (Ret tt)
              key1 bob (mkSession arena) initialSt "interrupted"
              eq_refl eq_refl eq_refl eq_refl eq_refl eq_refl)
    as (_ & _ & C & _).
  exact C.
Defined.

(** The wait for the next hour after the sixth start is interrupted: the
    loop is at a start call again, the counter at 6. *)
Lemma start_at_quota_witness :
  starts interruptedOnceEnv (calls MStart (history nearQuota)) = Ok true
  /\ delays interruptedOnceEnv (calls MDelay (history nearQuota)) = Err "interrupted"
  /\ delays interruptedOnceEnv (S (calls MDelay (history nearQuota))) = Ok tt
  /\ 6 <= sessionCount (globals nearQuota) + 1
  /\ exists st1 s,
       globals st1 = mkGlobals 6 (Some 0)
       /\ advance interruptedOnceEnv
            (attemptLoop config utc 1 (Ret tt) key1 bob (mkSession arena) 1) st1
          = (Pending s, st1)
       /\ pendingOp s = StartMatch key1 bob (mkSession arena).
Proof.
  assert (C : 6 <= sessionCount (globals nearQuota) + 1) by (cbv; discriminate).
  split; [reflexivity|]. split; [reflexivity|]. split; [reflexivity|].
  split; [exact C|].
  destruct (rejected_reset_wait_starts_again_at_quota config utc interruptedOnceEnv 0
              (Ret tt) key1 bob (mkSession arena) nearQuota "interrupted"
              eq_refl eq_refl eq_refl C)
    as (st1 & s & _ & _ & G & A & O).
  exists st1, s. split; [exact G|]. split; [exact A|exact O].
Defined.

(** The start throws and the backoff wait is interrupted: the other five
    sessions are not tried. *)
Lemma backoff_witness :
  ofAgentType bob (mkSession arena) = true
  /\ automationEnabled bob = false
  /\ starts stormEnv (calls MStart (history initialSt)) = Err "down"
  /\ delays stormEnv (calls MDelay (history initialSt)) = Err "interrupted"
  /\ fst (run stormEnv (matchSessions config utc 1 (Ret tt) key1 bob sixSessions)
            initialSt)
     = Threw "interrupted"
  /\ startCalls
       (events (snd (run stormEnv
                       (matchSessions config utc 1 (Ret tt) key1 bob sixSessions)
                       initialSt)))
     = 1%nat.
Proof.
  split; [reflexivity|]. split; [reflexivity|]. split; [reflexivity|].
  split; [reflexivity|].
  pose proof (rejected_backoff_leaves_the_sessions config utc stormEnv 0 (Ret tt)
                key1 bob (mkSession arena) (repeat (mkSession arena) 5)
                initialSt "down" "interrupted" eq_refl eq_refl eq_refl eq_refl)
    as R.
  change (mkSession arena :: repeat (mkSession arena) 5) with sixSessions in R.
  rewrite R. split; reflexivity.
Defined.

(** The sixth start in the middle of the list. *)
Lemma quota_in_mid_list_witness :
  ofAgentType bob (mkSession arena) = true
  /\ automationEnabled bob = false
  /\ starts busyEnv (calls MStart (history nearQuota)) = Ok true
  /\ delays busyEnv (calls MDelay (history nearQuota)) = Ok tt
  /\ 6 <= sessionCount (globals nearQuota) + 1
  /\ (forall e,
        fst (run busyEnv (@Diverge unit)
               (exhausted busyEnv utc (startOp config key1 bob (mkSession arena))
                  nearQuota)) <> Threw e)
  /\ startCalls
       (events (snd (run busyEnv
                       (matchSessions config utc 1 Diverge key1 bob sixSessions)
                       nearQuota)))
     = 1%nat.
Proof.
  assert (C : 6 <= sessionCount (globals nearQuota) + 1) by (cbv; discriminate).
  assert (N : forall e,
             fst (run busyEnv (@Diverge unit)
                    (exhausted busyEnv utc (startOp config key1 bob (mkSession arena))
                       nearQuota)) <> Threw e)
    by (intros e; discriminate).
  split; [reflexivity|]. split; [reflexivity|]. split; [reflexivity|].
  split; [reflexivity|]. split; [exact C|]. split; [exact N|].
  destruct (reaching_the_quota_leaves_the_session_list config utc busyEnv 0 Diverge
              key1 bob (mkSession arena) (repeat (mkSession arena) 5) nearQuota
              eq_refl eq_refl eq_refl eq_refl C N) as [R _].
  change (mkSession arena :: repeat (mkSession arena) 5) with sixSessions in R.
  rewrite R. reflexivity.
Defined.

(** Two keys in the file and a wallet loop that fails: the supervisor
    starts again. *)
Lemma supervisor_witness :
  files (fileEnv twoKeys) (calls MReadFile (history initialSt)) = Ok twoKeys
  /\ filter (fun key => nonEmpty (trim key)) (split newline twoKeys) <> []
  /\ delays (fileEnv twoKeys) (calls MDelay (history initialSt)) = Ok tt
  /\ calls MJoinWallets
       (history (snd (run (fileEnv twoKeys) (startBot 1) initialSt)))
     = 1%nat.
Proof.
  assert (K : filter (fun key => nonEmpty (trim key)) (split newline twoKeys) <> [])
    by discriminate.
  split; [reflexivity|]. split; [exact K|]. split; [reflexivity|].
  pose proof (startBot_supervises_the_wallets (fileEnv twoKeys) 0 initialSt twoKeys
                eq_refl K) as R.
  cbv zeta in R. cbn [fileEnv envWith envFor joins] in R.
  rewrite (R eq_refl). reflexivity.
Defined.

(** Two wallets are launched below the quota, and at the quota. *)
Lemma launch_witness :
  sessionCount (globals initialSt) < 6
  /\ map waitingFor
       (tasks (launch busyEnv (map (runWallet config msToTime utc 1) [key1; key2])
                 initialSt))
     = [Some (Connect key1); Some (Connect key2)]
  /\ 6 <= sessionCount (globals atQuota)
  /\ map waitingFor
       (tasks (launch busyEnv (map (runWallet config msToTime utc 1) [key1; key2])
                 atQuota))
     = [Some (Delay 3600000 resetWaitMsg); Some (Delay 3599000 resetWaitMsg)].
Proof.
  assert (C1 : sessionCount (globals initialSt) < 6) by reflexivity.
  assert (C2 : 6 <= sessionCount (globals atQuota)) by (cbv; discriminate).
  split; [exact C1|]. split.
  - destruct (wallets_are_launched_in_key_order config msToTime utc busyEnv 0
                [key1; key2] initialSt) as [A _].
    destruct (A C1) as [_ W]. exact W.
  - split; [exact C2|].
    destruct (wallets_are_launched_in_key_order config msToTime utc busyEnv 0
                [key1; key2] atQuota) as [_ B].
    destruct (B C2) as (_ & _ & W). rewrite W. reflexivity.
Defined.

(** Two wallets at their start calls, one start short of the quota. *)
Lemma overshoot_witness :
  sessionCount (globals nearQuota) = 5
  /\ starts busyEnv (calls MStart (history nearQuota)) = Ok true
  /\ starts busyEnv (S (calls MStart (history nearQuota))) = Ok true
  /\ sessionCount
       (globals
          (shared
             (stepTasks busyEnv [0; 1]%nat
                (launch busyEnv
                   [ how <- attemptLoop config utc 1 (Ret tt) key1 bob
                              (mkSession arena) 0 ;; Ret tt;
                     how <- attemptLoop config utc 1 (Ret tt) key2 bob
                              (mkSession arena) 0 ;; Ret tt ]
                   nearQuota))))
     = 7.
Proof.
  split; [reflexivity|]. split; [reflexivity|]. split; [reflexivity|].
  destruct (two_wallets_pass_the_quota config utc busyEnv key1 key2 bob bob
              (mkSession arena) (mkSession arena) 0 0 (Ret tt) (Ret tt)
              (fun _ => Ret tt) (fun _ => Ret tt) nearQuota
              eq_refl eq_refl eq_refl) as (_ & _ & C & _).
  exact C.
Defined.

(** One iteration over three sessions, two of the agent's type. *)
Lemma iteration_witness :
  sessionCount (globals initialSt) < 6
  /\ hydrates (envFor mixedSessions (fun _ => Ok true) (fun _ => Ok tt) noFile)
       initialSt ([] ++ bob :: []) mixedSessions
  /\ name bob = agentName config
  /\ automationEnabled bob = false
  /\ sessionCount (globals initialSt)
     + Z.of_nat (List.length (filter (ofAgentType bob) mixedSessions)) < 6
  /\ exists st',
       run (envFor mixedSessions (fun _ => Ok true) (fun _ => Ok tt) noFile)
           (runWallet config msToTime utc 2 key1) initialSt
       = run (envFor mixedSessions (fun _ => Ok true) (fun _ => Ok tt) noFile)
           (runWallet config msToTime utc 1 key1) st'
       /\ sessionCount (globals st') = 2.
Proof.
  assert (C : sessionCount (globals initialSt) < 6) by reflexivity.
  assert (H : hydrates (envFor mixedSessions (fun _ => Ok true) (fun _ => Ok tt)
                          noFile)
                initialSt ([] ++ bob :: []) mixedSessions)
    by (repeat split).
  assert (O : forall other, In other [] -> name other <> agentName config)
    by (intros other []).
  assert (Q : sessionCount (globals initialSt)
              + Z.of_nat (List.length (filter (ofAgentType bob) mixedSessions)) < 6)
    by reflexivity.
  split; [exact C|]. split; [exact H|]. split; [reflexivity|].
  split; [reflexivity|]. split; [exact Q|].
  destruct (an_iteration_ends_in_the_cool_down config msToTime utc
              (envFor mixedSessions (fun _ => Ok true) (fun _ => Ok tt) noFile)
              0 key1 initialSt [] [] bob mixedSessions
              C H O eq_refl eq_refl
              ltac:(intros; reflexivity) ltac:(intros; reflexivity) Q)
    as (st' & new & R & G & _).
  exists st'. split; [exact R|exact G].
Defined.
